(** * FayStar backend: the provider clients and their routes

    A shallow embedding of the three provider clients of the backend
    ([services/falClient.service.js], [services/falVideo.service.js],
    [services/elevenLabs.service.js]) and of the routes that expose them
    ([routes/video.js], [routes/audio.js], [routes/test.js]), followed by
    the properties the design document states about them.

    Conventions of the embedding:
    - a JavaScript value that reaches the services from a JSON body is a
      [JS.Value]: [undefined], [null], a boolean, a number, a string or an
      object with its own properties (arrays are left out);
    - a number is a rational ([Q]), a decimal literal being the rational
      it is written as.  Where the code truncates a product or a quotient
      afterwards ([Math.floor], [Math.ceil]), so that the rounding of the
      machine can change the result, the operation is the one on IEEE 754
      doubles ([Double.mul], [Double.div]): the exact result rounded to
      the nearest double.  The one other quotient, [v / 100] in the audio
      route, is only compared and clamped, and is kept exact;
    - a string is a sequence of 8-bit code units ([string]);
    - an [async] function that throws (a rejected promise) and a function
      that throws are both a [Throw];
    - [console.log] and friends print only, so a logging line is kept
      exactly when evaluating its argument can throw: a method call on a
      value that has no such method ([substringOf]), and the conversion
      to a string of a value substituted into a template literal
      ([interpolate]);
    - the HTTP library ([axios]) is an oracle: it answers each request from
      the request and the number of requests sent before it, and every
      request and every pause is recorded, in order, in a trace. *)

From Stdlib Require Import ZArith QArith Qminmax Qround Qabs.
From Stdlib Require Import Floats.SpecFloat.
From Stdlib Require Import String Ascii List Bool Lia Lqa.
From Stdlib Require Import Strings.Byte.
Import ListNotations.

Set Warnings "-register-all".
Local Open Scope list_scope.
Local Open Scope string_scope.

(* ================================================================== *)
(** ** JavaScript values *)
(* ================================================================== *)

Module JS.

Inductive Value : Type :=
| JUndefined
| JNull
| JBool (b : bool)
| JNum (q : Q)
| JStr (s : string)
| JObj (fields : list (string * Value)).

Definition isString (v : Value) : bool :=
  match v with JStr _ => true | _ => false end.

(** ToBoolean: [undefined], [null], [false], [0] and the empty string are
    falsy. *)
Definition truthy (v : Value) : bool :=
  match v with
  | JUndefined | JNull => false
  | JBool b => b
  | JNum q => negb (Qeq_bool q 0)
  | JStr s => negb (String.eqb s "")
  | JObj _ => true
  end.

(** [a || b] *)
Definition or_else (a b : Value) : Value := if truthy a then a else b.

(** A parameter default, [x = d]: taken exactly when the argument is
    [undefined]. *)
Definition defaulted (v d : Value) : Value :=
  match v with JUndefined => d | _ => v end.

Fixpoint assoc (k : string) (fs : list (string * Value)) : Value :=
  match fs with
  | [] => JUndefined
  | (k', v) :: fs' => if String.eqb k k' then v else assoc k fs'
  end.

(** [v?.k]: [undefined] on [undefined] and [null], a property read
    otherwise (primitives carry none of the keys read here). *)
Definition optGet (v : Value) (k : string) : Value :=
  match v with
  | JObj fs => assoc k fs
  | _ => JUndefined
  end.

(** Strict numeric comparisons. *)
Definition Qltb (a b : Q) : bool := negb (Qle_bool b a).
Definition Qgtb (a b : Q) : bool := Qltb b a.

(** *** Strings *)

(** White space removed by [String.prototype.trim], among 8-bit code
    units: TAB, LF, VT, FF, CR, SPACE and NBSP. *)
Definition isWhiteSpace (c : ascii) : bool :=
  let n := nat_of_ascii c in
  ((9 <=? n)%nat && (n <=? 13)%nat) || (n =? 32)%nat || (n =? 160)%nat.

Fixpoint trimStart (s : string) : string :=
  match s with
  | EmptyString => EmptyString
  | String c r => if isWhiteSpace c then trimStart r else s
  end.

Definition reverse (s : string) : string :=
  string_of_list_ascii (rev (list_ascii_of_string s)).

Definition trimEnd (s : string) : string := reverse (trimStart (reverse s)).

Definition trim (s : string) : string := trimEnd (trimStart s).

(** A template literal: literal chunks and substituted values.  The
    rendering of a substituted value (ToString) is left symbolic. *)
Inductive Piece := Lit (s : string) | Subst (v : Value).
Definition Text := list Piece.

Definition text (s : string) : Text := [Lit s].

(** *** Errors *)

(** The body of an HTTP response: parsed JSON, or the raw bytes when the
    request asked for [responseType: 'arraybuffer']. *)
Inductive Body := Json (v : Value) | Binary (bytes : list byte).

Record HttpResponse := mkResponse {
  status : Z;
  headers : list (string * string);
  data : Body
}.

Inductive ErrorName := PlainError | TypeError.

(** An [Error] object; an axios failure carries [response] (the provider
    answered with a failure status) or [code] (the network failed). *)
Record Error := mkError {
  name : ErrorName;
  message : Text;
  response : option HttpResponse;
  code : option string
}.

(** [new Error(msg)] *)
Definition newError (msg : Text) : Error := mkError PlainError msg None None.

(** The [TypeError] the engine raises on a bad property access or call. *)
Definition typeError (msg : string) : Error :=
  mkError TypeError (text msg) None None.

(** What a [throw] statement can throw in this code: an error object or
    [null]. *)
Inductive Thrown := ThrowError (e : Error) | ThrowNull.

Inductive Result (A : Type) : Type :=
| Ret (a : A)
| Throw (t : Thrown).
Arguments Ret {A} a.
Arguments Throw {A} t.

Definition throwNew {A} (msg : string) : Result A :=
  Throw (ThrowError (newError (text msg))).

(** [v.substring(...)] and [v.length] inside a logging template: a
    [TypeError] unless [v] is a string (no other JSON value has a
    [substring] method). *)
Definition substringOf (v : Value) : Result string :=
  match v with
  | JStr s => Ret s
  | JUndefined | JNull =>
      Throw (ThrowError (typeError "Cannot read properties of undefined (reading 'substring')"))
  | _ => Throw (ThrowError (typeError "substring is not a function"))
  end.

(** [k in fs], for the own properties of an object. *)
Definition hasKey (k : string) (fs : list (string * Value)) : bool :=
  existsb (fun kv => String.eqb k (fst kv)) fs.

(** [`${v}`]: the conversion of [v] to a string inside a template
    literal.  It throws for one kind of JSON value only, an object with
    an own property [toString]: that property hides
    [Object.prototype.toString] and is not callable, and [valueOf], own
    or inherited, gives no primitive either.  Every other object prints
    as [[object Object]]. *)
Definition interpolate (v : Value) : Result unit :=
  match v with
  | JObj fs =>
      if hasKey "toString" fs then
        Throw (ThrowError (typeError "Cannot convert object to primitive value"))
      else Ret tt
  | _ => Ret tt
  end.

End JS.
Import JS.

(* ================================================================== *)
(** ** Double-precision arithmetic *)
(* ================================================================== *)

(** The result of an arithmetic operation on doubles is the exact result
    rounded to the nearest double, ties to the even mantissa (IEEE 754,
    binary64: 53 bits of precision, exponents of the last bit from -1074
    on).  Overflow is left out: the operands of the products and
    quotients below are bounded by the validators, a string length or
    [Math.random()]. *)
Module Double.

(** [2^e] *)
Definition pow2 (e : Z) : Q :=
  if (0 <=? e)%Z then inject_Z (2 ^ e) else (1 # Z.to_pos (2 ^ (- e)))%Q.

(** [floor (log2 x)] for a positive [x]. *)
Definition ilog2 (x : Q) : Z :=
  let k := (Z.log2 (Qnum x) - Z.log2 (Zpos (Qden x)))%Z in
  if Qle_bool (pow2 k) x then k else (k - 1)%Z.

(** The nearest integer, the even one of two that are equally near. *)
Definition nearestEven (x : Q) : Z :=
  let f := Qfloor x in
  match Qcompare (x - inject_Z f)%Q (1 # 2)%Q with
  | Lt => f
  | Gt => (f + 1)%Z
  | Eq => if Z.even f then f else (f + 1)%Z
  end.

(** The exponent of the last bit of the double nearest to [x]. *)
Definition exponent (x : Q) : Z := Z.max (ilog2 (Qabs x) - 52) (-1074).

(** The double nearest to [x]. *)
Definition round (x : Q) : Q :=
  if Qeq_bool x 0 then 0
  else (inject_Z (nearestEven (x / pow2 (exponent x))) * pow2 (exponent x))%Q.

(** [a * b] and [a / b] on doubles. *)
Definition mul (a b : Q) : Q := round (a * b)%Q.
Definition div (a b : Q) : Q := round (a / b)%Q.

End Double.

(* ================================================================== *)
(** ** Effects: the transport, the pauses and the exceptions *)
(* ================================================================== *)

Module Eff.

Inductive Method := GET | POST.

Record Request := mkRequest {
  method : Method;
  url : string;
  timeout : Z;
  reqHeaders : list (string * option string);
  reqData : option Value;
  responseType : option string
}.

(** The promise [axios(config)] settles to. *)
Inductive Outcome := Fulfilled (r : HttpResponse) | Rejected (e : Error).

(** The transport: the answer to a request, given how many requests were
    sent before it. *)
Definition Transport := nat -> Request -> Outcome.

Inductive Event :=
| Sent (req : Request) (out : Outcome)
| Slept (ms : Z).

(** The trace, latest event first. *)
Definition World := list Event.

Definition isSent (e : Event) : bool :=
  match e with Sent _ _ => true | Slept _ => false end.

(** How many times the transport has been invoked. *)
Definition transportCalls (w : World) : nat := List.length (filter isSent w).

Definition M (A : Type) : Type := Transport -> World -> Result A * World.

Definition ret {A} (a : A) : M A := fun _ w => (Ret a, w).

Definition throw {A} (t : Thrown) : M A := fun _ w => (Throw t, w).

Definition bind {A B} (m : M A) (k : A -> M B) : M B :=
  fun tr w =>
    match m tr w with
    | (Ret a, w') => k a tr w'
    | (Throw t, w') => (Throw t, w')
    end.

(** [try { body } catch (error) { handler }] *)
Definition tryCatch {A} (body : M A) (handler : Thrown -> M A) : M A :=
  fun tr w =>
    match body tr w with
    | (Ret a, w') => (Ret a, w')
    | (Throw t, w') => handler t tr w'
    end.

Definition lift {A} (r : Result A) : M A := fun _ w => (r, w).

(** [axios(config)], without the [await]: the promise it settles to. *)
Definition send (req : Request) : M Outcome :=
  fun tr w =>
    let out := tr (transportCalls w) req in
    (Ret out, Sent req out :: w).

(** [await axios(config)] *)
Definition axios (req : Request) : M HttpResponse :=
  bind (send req) (fun out =>
    match out with
    | Fulfilled r => ret r
    | Rejected e => throw (ThrowError e)
    end).

(** [await this._sleep(ms)] *)
Definition sleep (ms : Z) : M unit := fun _ w => (Ret tt, Slept ms :: w).

(** A run from the empty trace. *)
Definition run {A} (m : M A) (tr : Transport) : Result A * World := m tr [].

Definition outcome {A} (m : M A) (tr : Transport) : Result A := fst (run m tr).
Definition calls {A} (m : M A) (tr : Transport) : nat :=
  transportCalls (snd (run m tr)).

End Eff.
Import Eff.

Declare Scope js_scope.
Delimit Scope js_scope with js.
Notation "x <- m ;; k" := (bind m (fun x => k))
  (at level 61, m at next level, right associativity) : js_scope.
Notation "m ;; k" := (bind m (fun _ => k))
  (at level 61, right associativity) : js_scope.
Local Open Scope js_scope.

(** The values a call reads from the clock and the random generator: the
    request id built from [Date.now()] and [Math.random()], one more
    [Math.random()] in [0,1), and [new Date().toISOString()]. *)
Record Ambient := mkAmbient {
  requestId : string;
  random : Q;
  isoNow : string
}.

(** The error kinds of the services and routes. *)
Inductive ErrorType :=
| INVALID_API_KEY | MISSING_API_KEY | ACCESS_DENIED | NO_CREDITS
| PAYMENT_REQUIRED | RATE_LIMITED | SERVER_ERROR | API_ERROR | TIMEOUT
| NETWORK_ERROR | UNKNOWN_ERROR | SERVICE_DISABLED | INVALID_VOICE_ID
| INVALID_VOICE_OR_URL | BAD_REQUEST | VALIDATION_ERROR
| SERVICE_UNAVAILABLE | SYSTEM_ERROR.

(** The [details] field of a failure: a JSON value, a response body, a
    rendered text, the stack of an error, or absent. *)
Inductive Details :=
| DValue (v : Value)
| DBody (b : Body)
| DText (t : Text)
| DStack (e : Error)
| DAbsent.

(** [!process.env.X] and [!this.apiKey]: an environment variable is
    absent or a string. *)
Definition envTruthy (k : option string) : bool :=
  match k with
  | None => false
  | Some s => negb (String.eqb s "")
  end.

(** [`${this.apiKey}`] *)
Definition showEnv (k : option string) : string :=
  match k with
  | Some s => s
  | None => "undefined"
  end.

(** A failure result of a service: [{ success: false, requestId, error,
    errorType, details }]. *)
Record Failure := mkFailure {
  f_requestId : string;
  f_error : Text;
  f_errorType : ErrorType;
  f_details : Details
}.

(** [response.data.k]: a [TypeError] when the body is [undefined] or
    [null]. *)
Definition dataProp (b : Body) (k : string) : Result Value :=
  match b with
  | Json JUndefined | Json JNull =>
      Throw (ThrowError (typeError "Cannot read properties of undefined"))
  | Json v => Ret (optGet v k)
  | Binary _ => Ret JUndefined
  end.

(** [errorData?.k] *)
Definition dataOptProp (b : Body) (k : string) : Value :=
  match b with
  | Json v => optGet v k
  | Binary _ => JUndefined
  end.

Definition negativePrompt : string :=
  "low quality, worst quality, bad anatomy, bad hands, text, error, missing fingers, extra digit, fewer digits, cropped, worst quality, low quality, normal quality, jpeg artifacts, signature, watermark, username, blurry".

Definition validRatios : list string := ["16:9"; "9:16"; "1:1"; "4:3"; "21:9"].

(** [validRatios.includes(v)] *)
Definition includesRatio (v : Value) : bool :=
  match v with
  | JStr a => existsb (String.eqb a) validRatios
  | _ => false
  end.

(** [typeof d !== 'number' || d < 1 || d > 20] *)
Definition durationOutOfRange (d : Value) : bool :=
  match d with
  | JNum q => Qltb q 1 || Qgtb q 20
  | _ => true
  end.

(** [headers['x-response-time']] *)
Fixpoint header (k : string) (hs : list (string * string)) : option string :=
  match hs with
  | [] => None
  | (k', v) :: hs' => if String.eqb k k' then Some v else header k hs'
  end.

(** [h || 'unknown'] *)
Definition orUnknown (h : option string) : string :=
  if envTruthy h then showEnv h else "unknown".

(** [error.code] as a value. *)
Definition codeValue (c : option string) : Value :=
  match c with
  | Some s => JStr s
  | None => JUndefined
  end.

(** [error.message] in a logging line or a [catch] block: a [TypeError]
    when the thrown value is [null]. *)
Definition caught (thrown : Thrown) : Result Error :=
  match thrown with
  | ThrowError error => Ret error
  | ThrowNull =>
      Throw (ThrowError (typeError "Cannot read properties of null (reading 'message')"))
  end.

(* ================================================================== *)
(** ** services/falClient.service.js *)
(* ================================================================== *)

Module FalClient.

Record FalClientService := mkService {
  baseURL : string;
  apiKey : option string;
  timeout : Z;
  maxRetries : nat
}.

(** [_validateApiKey()] *)
Definition _validateApiKey (this : FalClientService) : Result unit :=
  if negb (envTruthy (apiKey this)) then throwNew "FAL_KEY not configured"
  else
    match apiKey this with
    | Some k =>
        if (String.length k <? 10)%nat then throwNew "FAL_KEY format invalid"
        else Ret tt
    | None => throwNew "FAL_KEY format invalid"
    end.

(** [new FalClientService()], with [process.env.FAL_KEY] as argument. *)
Definition new (FAL_KEY : option string) : Result FalClientService :=
  let this := mkService "https://fal.run" FAL_KEY 60000 1 in
  match _validateApiKey this with
  | Ret _ => Ret this
  | Throw t => Throw t
  end.

(** [_validateInput({ prompt, duration, aspectRatio })] *)
Definition _validateInput (prompt duration aspectRatio : Value) : Result unit :=
  match prompt with
  | JStr p =>
      if negb (truthy prompt) then throwNew "Prompt is required and must be a string"
      else if (String.length (trim p) =? 0)%nat then throwNew "Prompt cannot be empty"
      else if (1000 <? String.length p)%nat then
        throwNew "Prompt must be less than 1000 characters"
      else if negb (match duration with JUndefined => true | _ => false end)
              && durationOutOfRange duration then
        throwNew "Duration must be a number between 1 and 20 seconds"
      else if negb (match aspectRatio with JUndefined => true | _ => false end)
              && negb (includesRatio aspectRatio) then
        throwNew "Invalid aspect ratio. Must be one of: 16:9, 9:16, 1:1, 4:3, 21:9"
      else Ret tt
  | _ => throwNew "Prompt is required and must be a string"
  end.

(** The request of [_makeRequestWithRetry]. *)
Definition request (this : FalClientService) (endpoint : string) (data : Value)
  : Request :=
  mkRequest POST (baseURL this ++ endpoint) (timeout this)
    [("Authorization", Some ("Bearer " ++ showEnv (apiKey this)));
     ("Content-Type", Some "application/json");
     ("User-Agent", Some "FayStar-Backend/1.0")]
    (Some data) None.

(** The guard of the [catch] in the retry loop: [error.response] with
    status 401, 403, 402 or 429. *)
Definition noRetry (error : Error) : bool :=
  match response error with
  | Some r =>
      (status r =? 401)%Z || (status r =? 403)%Z
      || (status r =? 402)%Z || (status r =? 429)%Z
  | None => false
  end.

(** The [for] loop of [_makeRequestWithRetry]: [iterations] is the number
    of iterations left, [attempt] the loop counter. *)
Fixpoint retryLoop (this : FalClientService) (req : Request)
    (iterations attempt : nat) (lastError : Thrown) : M HttpResponse :=
  match iterations with
  | O => throw lastError
  | S n =>
      out <- send req ;;
      match out with
      | Fulfilled response => ret response
      | Rejected error =>
          if noRetry error then throw (ThrowError error)
          else
            (if (attempt <=? maxRetries this)%nat then sleep 2000 else ret tt) ;;
            retryLoop this req n (S attempt) (ThrowError error)
      end
  end.

(** [_makeRequestWithRetry(endpoint, data)]: [attempt] runs from 1 to
    [maxRetries + 1]; [lastError] starts as [null]. *)
Definition _makeRequestWithRetry (this : FalClientService) (endpoint : string)
    (data : Value) : M HttpResponse :=
  retryLoop this (request this endpoint data) (maxRetries this + 1) 1 ThrowNull.

Record Classified := mkClassified {
  type : ErrorType;
  c_message : Text;
  c_details : Details
}.

(** [_handleError(error)] *)
Definition _handleError (this : FalClientService) (error : Error) : Classified :=
  match response error with
  | Some r =>
      let statusCode := status r in
      let errorData := data r in
      let detail (d : string) := DValue (or_else (dataOptProp errorData "error") (JStr d)) in
      if (statusCode =? 401)%Z then
        mkClassified INVALID_API_KEY (text "Invalid Fal.ai API key")
          (detail "Authentication failed")
      else if (statusCode =? 403)%Z then
        mkClassified ACCESS_DENIED (text "Access denied - API key may be disabled")
          (detail "Forbidden")
      else if (statusCode =? 402)%Z then
        mkClassified NO_CREDITS (text "No credits or billing required")
          (detail "Payment required")
      else if (statusCode =? 429)%Z then
        mkClassified RATE_LIMITED (text "Rate limit exceeded - too many requests")
          (detail "Too many requests")
      else if (statusCode =? 500)%Z || (statusCode =? 502)%Z
              || (statusCode =? 503)%Z || (statusCode =? 504)%Z then
        mkClassified SERVER_ERROR
          [Lit "Fal.ai server error ("; Subst (JNum (inject_Z statusCode)); Lit ")"]
          (detail "Server error")
      else
        mkClassified API_ERROR
          [Lit "Fal.ai API error ("; Subst (JNum (inject_Z statusCode)); Lit ")"]
          (detail "Unknown API error")
  | None =>
      if envTruthy (code error) then
        match code error with
        | Some "ECONNABORTED" =>
            mkClassified TIMEOUT (text "Request timeout - Fal.ai API not responding")
              (DText [Lit "Timeout after "; Subst (JNum (inject_Z (timeout this)));
                      Lit "ms"])
        | Some "ENOTFOUND" | Some "ECONNREFUSED" =>
            mkClassified NETWORK_ERROR
              (text "Network error - unable to connect to Fal.ai")
              (DValue (codeValue (code error)))
        | _ =>
            mkClassified NETWORK_ERROR (Lit "Network error: " :: message error)
              (DValue (codeValue (code error)))
        end
      else
        mkClassified UNKNOWN_ERROR (Lit "Unexpected error: " :: message error)
          (DStack error)
  end.

(** The argument object of [generateVideo]; an absent property is
    [JUndefined]. *)
Record VideoParams := mkParams {
  prompt : Value;
  duration : Value;
  aspectRatio : Value
}.

Record VideoSuccess := mkSuccess {
  s_requestId : string;
  videoUrl : Value;
  estimatedTime : Value;
  s_duration : Value;
  s_aspectRatio : Value;
  s_prompt : Value;
  createdAt : string
}.

Inductive VideoResult :=
| VideoOk (r : VideoSuccess)
| VideoFailed (f : Failure).

(** The [success] field of the result. *)
Definition success (r : VideoResult) : bool :=
  match r with VideoOk _ => true | VideoFailed _ => false end.

(** The payload of [generateVideo].  [prompt.trim()] raises a [TypeError]
    on a value that is not a string; [_validateInput] has let through
    only a string prompt and a duration between 1 and 20 when this is
    built.  [Math.floor(duration * 24)] and
    [Math.floor(Math.random() * 1000000)] truncate a product of
    doubles. *)
Definition payload (amb : Ambient) (prompt duration aspectRatio : Value)
  : Result Value :=
  match prompt, duration with
  | JStr p, JNum d =>
      Ret (JObj [("prompt", JStr (trim p));
                 ("num_frames", JNum (inject_Z (Qfloor (Double.mul d 24))));
                 ("aspect_ratio", aspectRatio);
                 ("guidance_scale", JNum (75 # 10));
                 ("num_inference_steps", JNum 50);
                 ("negative_prompt", JStr negativePrompt);
                 ("seed",
                  JNum (inject_Z (Qfloor (Double.mul (random amb) 1000000))))])
  | _, _ => Throw (ThrowError (typeError "prompt.trim is not a function"))
  end.

(** [generateVideo({ prompt, duration = 5, aspectRatio = "16:9" })] *)
Definition generateVideo (this : FalClientService) (amb : Ambient)
    (params : VideoParams) : M VideoResult :=
  let prompt := prompt params in
  let duration := defaulted (duration params) (JNum 5) in
  let aspectRatio := defaulted (aspectRatio params) (JStr "16:9") in
  (* console.log(`... "${prompt.substring(0, 50)}${prompt.length > 50 ...}"`) *)
  _ <- lift (substringOf prompt) ;;
  (* console.log(`... duration=${duration}s, aspectRatio=${aspectRatio}`) *)
  _ <- lift (interpolate duration) ;;
  _ <- lift (interpolate aspectRatio) ;;
  tryCatch
    (_ <- lift (_validateInput prompt duration aspectRatio) ;;
     payload <- lift (payload amb prompt duration aspectRatio) ;;
     response <- _makeRequestWithRetry this "/fal-ai/pika-1.0" payload ;;
     video_url <- lift (dataProp (data response) "video_url") ;;
     estimated_time <- lift (dataProp (data response) "estimated_time") ;;
     (* console.log(`... Video URL: ${result.videoUrl}`) *)
     _ <- lift (interpolate video_url) ;;
     ret (VideoOk (mkSuccess (requestId amb) video_url
                     (or_else estimated_time (JStr "30-60 seconds"))
                     duration aspectRatio prompt (isoNow amb))))
    (fun thrown =>
       (* console.error(..., error.message) *)
       error <- lift (caught thrown) ;;
       let errorResponse := _handleError this error in
       ret (VideoFailed (mkFailure (requestId amb) (c_message errorResponse)
                           (type errorResponse) (c_details errorResponse)))).

Record Health := mkHealth {
  h_status : string;
  falReachable : bool;
  responseTime : option string;
  h_error : option Text
}.

(** [checkHealth()] *)
Definition checkHealth (this : FalClientService) : M Health :=
  tryCatch
    (response <- axios (mkRequest GET (baseURL this ++ "/health") 5000
                          [("User-Agent", Some "FayStar-HealthCheck/1.0")] None None) ;;
     ret (mkHealth "healthy" true
            (Some (orUnknown (header "x-response-time" (headers response)))) None))
    (fun thrown =>
       error <- lift (caught thrown) ;;
       ret (mkHealth "unhealthy" false None (Some (message error)))).

Record Config := mkConfig {
  c_baseURL : string;
  c_timeout : Z;
  c_maxRetries : nat;
  hasApiKey : bool;
  apiKeyLength : nat
}.

(** [getConfig()] *)
Definition getConfig (this : FalClientService) : Config :=
  mkConfig (baseURL this) (timeout this) (maxRetries this)
    (envTruthy (apiKey this))
    (if envTruthy (apiKey this)
     then match apiKey this with Some k => String.length k | None => 0%nat end
     else 0%nat).

End FalClient.

(* ================================================================== *)
(** ** Node's [Buffer]: construction and base64 *)
(* ================================================================== *)

(** [Buffer.prototype.toString('base64')] and [Buffer.from(s, 'base64')]
    belong to the runtime: they are modelled after RFC 4648, section 4
    (the alphabet [A-Za-z0-9+/], groups of three bytes, [=] padding). *)
Module Base64.

(** Six bits, most significant first. *)
Definition Sextet : Type := (bool * bool * bool * bool * bool * bool)%type.

Definition bit (b : bool) (w : nat) : nat := if b then w else 0%nat.

Definition index (s : Sextet) : nat :=
  let '(x5, x4, x3, x2, x1, x0) := s in
  (bit x5 32 + bit x4 16 + bit x3 8 + bit x2 4 + bit x1 2 + bit x0 1)%nat.

Definition alphabet : string :=
  "ABCDEFGHIJKLMNOPQRSTUVWXYZabcdefghijklmnopqrstuvwxyz0123456789+/".

Definition pad : ascii := "="%char.

(** The character of a sextet. *)
Definition digit (s : Sextet) : ascii :=
  match String.get (index s) alphabet with
  | Some c => c
  | None => pad
  end.

Definition sextetOfNat (n : nat) : Sextet :=
  (Nat.testbit n 5, Nat.testbit n 4, Nat.testbit n 3,
   Nat.testbit n 2, Nat.testbit n 1, Nat.testbit n 0).

(** The sextet of a character of the alphabet. *)
Definition unDigit (c : ascii) : option Sextet :=
  let n := nat_of_ascii c in
  if (65 <=? n)%nat && (n <=? 90)%nat then Some (sextetOfNat (n - 65))
  else if (97 <=? n)%nat && (n <=? 122)%nat then Some (sextetOfNat (n - 71))
  else if (48 <=? n)%nat && (n <=? 57)%nat then Some (sextetOfNat (n + 4))
  else if (n =? 43)%nat then Some (sextetOfNat 62)
  else if (n =? 47)%nat then Some (sextetOfNat 63)
  else None.

Definition isPad (c : ascii) : bool := Ascii.eqb c pad.

(** The bits of a byte, least significant first (as [Byte.to_bits]). *)
Definition Bits : Type :=
  (bool * (bool * (bool * (bool * (bool * (bool * (bool * bool)))))))%type.

(** The four sextets of three bytes. *)
Definition sextet1 (a : Bits) : Sextet :=
  let '(_, (_, (a2, (a3, (a4, (a5, (a6, a7))))))) := a in
  (a7, a6, a5, a4, a3, a2).

Definition sextet2 (a b : Bits) : Sextet :=
  let '(a0, (a1, _)) := a in
  let '(_, (_, (_, (_, (b4, (b5, (b6, b7))))))) := b in
  (a1, a0, b7, b6, b5, b4).

Definition sextet3 (b c : Bits) : Sextet :=
  let '(b0, (b1, (b2, (b3, _)))) := b in
  let '(_, (_, (_, (_, (_, (_, (c6, c7))))))) := c in
  (b3, b2, b1, b0, c7, c6).

Definition sextet4 (c : Bits) : Sextet :=
  let '(c0, (c1, (c2, (c3, (c4, (c5, _)))))) := c in
  (c5, c4, c3, c2, c1, c0).

Definition zeroBits : Bits :=
  (false, (false, (false, (false, (false, (false, (false, false))))))).

(** [buffer.toString('base64')] *)
Fixpoint encode (bs : list byte) : string :=
  match bs with
  | [] => ""
  | [a] =>
      let a := Byte.to_bits a in
      String (digit (sextet1 a)) (String (digit (sextet2 a zeroBits))
        (String pad (String pad "")))
  | [a; b] =>
      let a := Byte.to_bits a in
      let b := Byte.to_bits b in
      String (digit (sextet1 a)) (String (digit (sextet2 a b))
        (String (digit (sextet3 b zeroBits)) (String pad "")))
  | a :: b :: c :: rest =>
      let a := Byte.to_bits a in
      let b := Byte.to_bits b in
      let c := Byte.to_bits c in
      String (digit (sextet1 a)) (String (digit (sextet2 a b))
        (String (digit (sextet3 b c)) (String (digit (sextet4 c)) (encode rest))))
  end.

(** The three bytes of four sextets. *)
Definition byte1 (s1 s2 : Sextet) : byte :=
  let '(x7, x6, x5, x4, x3, x2) := s1 in
  let '(x1, x0, _, _, _, _) := s2 in
  Byte.of_bits (x0, (x1, (x2, (x3, (x4, (x5, (x6, x7))))))).

Definition byte2 (s2 s3 : Sextet) : byte :=
  let '(_, _, y7, y6, y5, y4) := s2 in
  let '(y3, y2, y1, y0, _, _) := s3 in
  Byte.of_bits (y0, (y1, (y2, (y3, (y4, (y5, (y6, y7))))))).

Definition byte3 (s3 s4 : Sextet) : byte :=
  let '(_, _, _, _, z7, z6) := s3 in
  let '(z5, z4, z3, z2, z1, z0) := s4 in
  Byte.of_bits (z0, (z1, (z2, (z3, (z4, (z5, (z6, z7))))))).

(** One group of four characters. *)
Definition decodeQuad (c1 c2 c3 c4 : ascii) : option (list byte) :=
  match unDigit c1, unDigit c2 with
  | Some s1, Some s2 =>
      if isPad c3 then
        if isPad c4 then Some [byte1 s1 s2] else None
      else
        match unDigit c3 with
        | Some s3 =>
            if isPad c4 then Some [byte1 s1 s2; byte2 s2 s3]
            else
              match unDigit c4 with
              | Some s4 => Some [byte1 s1 s2; byte2 s2 s3; byte3 s3 s4]
              | None => None
              end
        | None => None
        end
  | _, _ => None
  end.

(** [Buffer.from(s, 'base64')], strict: [None] on anything that is not
    padded base64. *)
Fixpoint decode (s : string) : option (list byte) :=
  match s with
  | EmptyString => Some []
  | String c1 (String c2 (String c3 (String c4 rest))) =>
      match decodeQuad c1 c2 c3 c4 with
      | Some bs =>
          if isPad c4 then
            match rest with
            | EmptyString => Some bs
            | _ => None
            end
          else
            match decode rest with
            | Some more => Some (bs ++ more)%list
            | None => None
            end
      | None => None
      end
  | _ => None
  end.

End Base64.

Module Buffer.

(** The UTF-8 bytes of a code unit below 256. *)
Definition utf8 (c : ascii) : list byte :=
  let n := nat_of_ascii c in
  if (n <? 128)%nat then [byte_of_ascii c]
  else
    match Byte.of_nat (192 + n / 64), Byte.of_nat (128 + n mod 64) with
    | Some hi, Some lo => [hi; lo]
    | _, _ => []
    end.

(** [Buffer.from(response.data)]: a copy of a buffer, the UTF-8 bytes of
    a string, a [TypeError] on [undefined], [null], a boolean, a number
    or a plain object. *)
Definition from (b : Body) : Result (list byte) :=
  match b with
  | Binary bytes => Ret bytes
  | Json (JStr s) => Ret (flat_map utf8 (list_ascii_of_string s))
  | Json _ =>
      Throw (ThrowError (typeError "The first argument must be of type string or an instance of Buffer, ArrayBuffer, or Array or an Array-like Object."))
  end.

End Buffer.

(* ================================================================== *)
(** ** services/elevenLabs.service.js *)
(* ================================================================== *)

Module ElevenLabs.

Record ElevenLabsService := mkService {
  baseURL : string;
  apiKey : option string;
  timeout : Z;
  disabled : bool
}.

(** [_validateApiKey()]: the value it leaves in [this.disabled]. *)
Definition _validateApiKey (apiKey : option string) : bool :=
  if negb (envTruthy apiKey) then true
  else
    match apiKey with
    | Some k => if (String.length k <? 10)%nat then true else false
    | None => true
    end.

(** [new ElevenLabsService()], with [process.env.ELEVENLABS_API_KEY] as
    argument; it never throws. *)
Definition new (ELEVENLABS_API_KEY : option string) : ElevenLabsService :=
  mkService "https://api.elevenlabs.io/v1" ELEVENLABS_API_KEY 60000
    (_validateApiKey ELEVENLABS_API_KEY).

Definition defaultVoiceId : string := "21m00Tcm4TlvDq8ikWAM".

(** [_validateInput(text, voiceId)] *)
Definition _validateInput (text voiceId : Value) : Result unit :=
  match text with
  | JStr t =>
      if negb (truthy text) then throwNew "Text is required and must be a string"
      else if (String.length (trim t) =? 0)%nat then throwNew "Text cannot be empty"
      else if (5000 <? String.length t)%nat then
        throwNew "Text must be less than 5000 characters"
      else
        match voiceId with
        | JStr v =>
            if negb (truthy voiceId) then
              throwNew "Voice ID is required and must be a string"
            else if (String.length v <? 10)%nat then throwNew "Invalid voice ID format"
            else Ret tt
        | _ => throwNew "Voice ID is required and must be a string"
        end
  | _ => throwNew "Text is required and must be a string"
  end.

(** [_estimateAudioDuration(text)]: two quotients and a product of
    doubles, then [Math.ceil]. *)
Definition _estimateAudioDuration (text : string) : Z :=
  let wordsPerMinute := 150%Q in
  let avgWordLength := 5%Q in
  let wordCount :=
    Double.div (inject_Z (Z.of_nat (String.length text))) avgWordLength in
  Qceiling (Double.mul (Double.div wordCount wordsPerMinute) 60).

Record SpeechSuccess := mkSuccess {
  s_requestId : string;
  audioBase64 : string;
  audioFormat : string;
  audioSize : nat;
  s_duration : Z;
  s_text : Value;
  s_voiceId : Value;
  createdAt : string
}.

Inductive SpeechResult :=
| SpeechOk (r : SpeechSuccess)
| SpeechFailed (f : Failure).

(** The [success] field of the result. *)
Definition success (r : SpeechResult) : bool :=
  match r with SpeechOk _ => true | SpeechFailed _ => false end.

(** The [errorType] field of the result, when it has one. *)
Definition errorType (r : SpeechResult) : option ErrorType :=
  match r with
  | SpeechOk _ => None
  | SpeechFailed f => Some (f_errorType f)
  end.

Definition request (this : ElevenLabsService) (validVoiceId : string)
    (payload : Value) : Request :=
  mkRequest POST (baseURL this ++ "/text-to-speech/" ++ validVoiceId) (timeout this)
    [("xi-api-key", apiKey this);
     ("Content-Type", Some "application/json");
     ("User-Agent", Some "FayStar-Backend/1.0");
     ("Accept", Some "audio/mpeg")]
    (Some payload) (Some "arraybuffer").

(** [voiceId.trim() || '21m00Tcm4TlvDq8ikWAM'] *)
Definition validVoiceId (voiceId : string) : string :=
  if negb (String.eqb (trim voiceId) "") then trim voiceId else defaultVoiceId.

(** The request payload of [generateSpeech]. *)
Definition payload (text validVoiceId : string) (stability similarity : Value)
  : Value :=
  JObj [("text", JStr (trim text));
        ("voice_id", JStr validVoiceId);
        ("model_id", JStr "eleven_multilingual_v2");
        ("voice_settings",
         JObj [("stability", stability);
               ("similarity_boost", similarity);
               ("style", JNum 0);
               ("use_speaker_boost", JBool true)])].

(** The [catch] block of [generateSpeech]. *)
Definition classify (amb : Ambient) (error : Error) : Failure :=
  match response error with
  | Some r =>
      let status := status r in
      let errorData := DBody (data r) in
      if (status =? 401)%Z then
        mkFailure (requestId amb) (text "Invalid ElevenLabs API key")
          INVALID_API_KEY errorData
      else if (status =? 404)%Z then
        mkFailure (requestId amb) (text "Invalid voice ID or ElevenLabs API endpoint")
          INVALID_VOICE_OR_URL errorData
      else if (status =? 429)%Z then
        mkFailure (requestId amb)
          (text "Rate limit exceeded - too many requests to ElevenLabs")
          RATE_LIMITED errorData
      else if (status =? 400)%Z then
        mkFailure (requestId amb) (text "Bad request - invalid parameters")
          BAD_REQUEST errorData
      else if (status =? 402)%Z then
        mkFailure (requestId amb)
          (text "Payment required - insufficient ElevenLabs credits")
          PAYMENT_REQUIRED errorData
      else if (status =? 500)%Z || (status =? 502)%Z
              || (status =? 503)%Z || (status =? 504)%Z then
        mkFailure (requestId amb)
          [Lit "ElevenLabs server error ("; Subst (JNum (inject_Z status)); Lit ")"]
          SERVER_ERROR errorData
      else
        mkFailure (requestId amb)
          [Lit "ElevenLabs API error ("; Subst (JNum (inject_Z status)); Lit ")"]
          API_ERROR errorData
  | None =>
      match code error with
      | Some "ECONNABORTED" =>
          mkFailure (requestId amb)
            (text "Request timeout - ElevenLabs API not responding") TIMEOUT DAbsent
      | Some "ENOTFOUND" | Some "ECONNREFUSED" =>
          mkFailure (requestId amb)
            (text "Network error - unable to connect to ElevenLabs")
            NETWORK_ERROR DAbsent
      | _ =>
          mkFailure (requestId amb) (text "Unexpected error during speech synthesis")
            UNKNOWN_ERROR (DText (message error))
      end
  end.

(** [generateSpeech(text, voiceId = '21m00Tcm4TlvDq8ikWAM',
    stability = 0.5, similarity = 0.8)] *)
Definition generateSpeech (this : ElevenLabsService) (amb : Ambient)
    (text voiceId stability similarity : Value) : M SpeechResult :=
  let voiceId := defaulted voiceId (JStr defaultVoiceId) in
  let stability := defaulted stability (JNum (5 # 10)) in
  let similarity := defaulted similarity (JNum (8 # 10)) in
  (* console.log(`... "${text.substring(0, 100)}${text.length > 100 ...}"`) *)
  _ <- lift (substringOf text) ;;
  (* console.log(`... Voice ID: ${voiceId}`) *)
  _ <- lift (interpolate voiceId) ;;
  if disabled this then
    ret (SpeechFailed
           (mkFailure (requestId amb)
              (JS.text "ElevenLabs service is disabled - API key not configured")
              SERVICE_DISABLED DAbsent))
  else
    tryCatch
      (_ <- lift (_validateInput text voiceId) ;;
       if negb (truthy voiceId) || negb (isString voiceId) then
         (* console.log(`... VoiceID: ${voiceId}`) *)
         _ <- lift (interpolate voiceId) ;;
         ret (SpeechFailed
                (mkFailure (requestId amb) (JS.text "Invalid voice ID provided")
                   INVALID_VOICE_ID DAbsent))
       else
         match text, voiceId with
         | JStr t, JStr v =>
             let validVoiceId := validVoiceId v in
             let payload := payload t validVoiceId stability similarity in
             response <- axios (request this validVoiceId payload) ;;
             audioBuffer <- lift (Buffer.from (data response)) ;;
             let audioBase64 := Base64.encode audioBuffer in
             ret (SpeechOk (mkSuccess (requestId amb) audioBase64 "audio/mpeg"
                              (List.length audioBuffer) (_estimateAudioDuration t)
                              text voiceId (isoNow amb)))
         | _, _ =>
             (* text.trim() / voiceId.trim() on a value that is not a string *)
             throw (ThrowError (typeError "trim is not a function"))
         end)
      (fun thrown =>
         (* console.error(..., error.message) *)
         error <- lift (caught thrown) ;;
         ret (SpeechFailed (classify amb error))).

Record Health := mkHealth {
  h_status : string;
  elevenLabsReachable : bool;
  responseTime : option string;
  h_error : option Text
}.

(** [checkHealth()] *)
Definition checkHealth (this : ElevenLabsService) : M Health :=
  tryCatch
    (response <- axios (mkRequest GET (baseURL this ++ "/voices") 5000
                          [("xi-api-key", apiKey this);
                           ("User-Agent", Some "FayStar-HealthCheck/1.0")] None None) ;;
     ret (mkHealth "healthy" true
            (Some (orUnknown (header "x-response-time" (headers response)))) None))
    (fun thrown =>
       error <- lift (caught thrown) ;;
       ret (mkHealth "unhealthy" false None (Some (message error)))).

Record Config := mkConfig {
  c_baseURL : string;
  c_timeout : Z;
  hasApiKey : bool;
  apiKeyLength : nat
}.

(** [getConfig()] *)
Definition getConfig (this : ElevenLabsService) : Config :=
  mkConfig (baseURL this) (timeout this) (envTruthy (apiKey this))
    (if envTruthy (apiKey this)
     then match apiKey this with Some k => String.length k | None => 0%nat end
     else 0%nat).

Record Classified := mkClassified {
  type : ErrorType;
  c_message : Text;
  c_details : Details
}.

(** [_handleError(error)], the method of the class; [generateSpeech] does
    not call it. *)
Definition _handleError (this : ElevenLabsService) (error : Error) : Classified :=
  match response error with
  | Some r =>
      let statusCode := status r in
      let errorData := data r in
      let detail (d : string) :=
        DValue (or_else (dataOptProp errorData "detail") (JStr d)) in
      if (statusCode =? 401)%Z then
        mkClassified INVALID_API_KEY (JS.text "Invalid ElevenLabs API key")
          (detail "Authentication failed")
      else if (statusCode =? 403)%Z then
        mkClassified ACCESS_DENIED (JS.text "Access denied - API key may be disabled")
          (detail "Forbidden")
      else if (statusCode =? 429)%Z then
        mkClassified RATE_LIMITED (JS.text "Rate limit exceeded - too many requests")
          (detail "Too many requests")
      else if (statusCode =? 400)%Z then
        mkClassified BAD_REQUEST (JS.text "Invalid request parameters")
          (detail "Bad request")
      else if (statusCode =? 402)%Z then
        mkClassified PAYMENT_REQUIRED
          (JS.text "Payment required - insufficient credits")
          (detail "Payment required")
      else if (statusCode =? 500)%Z || (statusCode =? 502)%Z
              || (statusCode =? 503)%Z || (statusCode =? 504)%Z then
        mkClassified SERVER_ERROR
          [Lit "ElevenLabs server error ("; Subst (JNum (inject_Z statusCode)); Lit ")"]
          (detail "Server error")
      else
        mkClassified API_ERROR
          [Lit "ElevenLabs API error ("; Subst (JNum (inject_Z statusCode)); Lit ")"]
          (detail "Unknown API error")
  | None =>
      if envTruthy (code error) then
        match code error with
        | Some "ECONNABORTED" =>
            mkClassified TIMEOUT
              (JS.text "Request timeout - ElevenLabs API not responding")
              (DText [Lit "Timeout after "; Subst (JNum (inject_Z (timeout this)));
                      Lit "ms"])
        | Some "ENOTFOUND" | Some "ECONNREFUSED" =>
            mkClassified NETWORK_ERROR
              (JS.text "Network error - unable to connect to ElevenLabs")
              (DValue (codeValue (code error)))
        | _ =>
            mkClassified NETWORK_ERROR (Lit "Network error: " :: message error)
              (DValue (codeValue (code error)))
        end
      else
        mkClassified UNKNOWN_ERROR (Lit "Unexpected error: " :: message error)
          (DStack error)
  end.

End ElevenLabs.

(* ================================================================== *)
(** ** services/falVideo.service.js *)
(* ================================================================== *)

Module FalVideo.

Record FalVideoService := mkService {
  baseURL : string;
  apiKey : option string;
  timeout : Z
}.

(** [new FalVideoService()]: a missing key is only warned about. *)
Definition new (FAL_KEY : option string) : FalVideoService :=
  mkService "https://fal.run" FAL_KEY 60000.

(** [_validateInput({ prompt, duration, aspectRatio })] *)
Definition _validateInput (this : FalVideoService)
    (prompt duration aspectRatio : Value) : Result unit :=
  match prompt with
  | JStr p =>
      if negb (truthy prompt) then throwNew "Prompt is required and must be a string"
      else if (String.length (trim p) =? 0)%nat then throwNew "Prompt cannot be empty"
      else if (1000 <? String.length p)%nat then
        throwNew "Prompt must be less than 1000 characters"
      else if negb (match duration with JUndefined => true | _ => false end)
              && durationOutOfRange duration then
        throwNew "Duration must be a number between 1 and 20 seconds"
      else if negb (match aspectRatio with JUndefined => true | _ => false end)
              && negb (includesRatio aspectRatio) then
        throwNew "Invalid aspect ratio. Must be one of: 16:9, 9:16, 1:1, 4:3, 21:9"
      else if negb (envTruthy (apiKey this)) then
        throwNew "Fal.ai API key not configured"
      else Ret tt
  | _ => throwNew "Prompt is required and must be a string"
  end.

(** [_makeRequest(endpoint, data = null, method = 'POST')] *)
Definition _makeRequest (this : FalVideoService) (endpoint : string)
    (data : option Value) (method : Method) : M HttpResponse :=
  let config :=
    mkRequest method (baseURL this ++ endpoint) (timeout this)
      [("Authorization", Some ("Key " ++ showEnv (apiKey this)));
       ("Content-Type", Some "application/json");
       ("User-Agent", Some "FayStar-Backend/1.0")]
      (match data, method with
       | Some d, POST => if truthy d then Some d else None
       | _, _ => None
       end)
      None in
  axios config.

Record VideoSuccess := mkSuccess {
  videoUrl : Value;
  s_requestId : Value;
  estimatedTime : Value;
  s_duration : Value;
  s_aspectRatio : Value;
  s_prompt : Value;
  createdAt : string
}.

(** The payload; see [FalClient.payload] for the two type tests and the
    two products. *)
Definition payload (amb : Ambient) (prompt duration aspectRatio : Value)
  : Result Value :=
  match prompt, duration with
  | JStr p, JNum d =>
      Ret (JObj [("model", JStr "pika-1.0");
                 ("prompt", JStr (trim p));
                 ("num_frames", JNum (inject_Z (Qfloor (Double.mul d 24))));
                 ("aspect_ratio", aspectRatio);
                 ("guidance_scale", JNum (75 # 10));
                 ("num_inference_steps", JNum 50);
                 ("negative_prompt", JStr negativePrompt);
                 ("seed",
                  JNum (inject_Z (Qfloor (Double.mul (random amb) 1000000))))])
  | _, _ => Throw (ThrowError (typeError "prompt.trim is not a function"))
  end.

(** The [catch] block of [generateVideo]: every branch throws. *)
Definition rethrow (error : Error) : Result VideoSuccess :=
  match response error with
  | Some r =>
      let statusCode := status r in
      let errorData := data r in
      if (statusCode =? 401)%Z then throwNew "Invalid Fal.ai API key"
      else if (statusCode =? 429)%Z then
        throwNew "Rate limit exceeded. Please try again later"
      else if (statusCode =? 400)%Z then
        match dataProp errorData "error" with
        | Ret e =>
            match interpolate (or_else e (JStr "Invalid parameters")) with
            | Ret _ =>
                Throw (ThrowError (newError
                  [Lit "Bad request: "; Subst (or_else e (JStr "Invalid parameters"))]))
            | Throw t => Throw t
            end
        | Throw t => Throw t
        end
      else if (500 <=? statusCode)%Z then
        throwNew "Fal.ai server error. Please try again later"
      else
        match dataProp errorData "error" with
        | Ret e =>
            match interpolate (or_else e (JStr "Unknown error")) with
            | Ret _ =>
                Throw (ThrowError (newError
                  [Lit "Fal.ai API error: "; Subst (or_else e (JStr "Unknown error"))]))
            | Throw t => Throw t
            end
        | Throw t => Throw t
        end
  | None =>
      match code error with
      | Some "ECONNABORTED" =>
          throwNew "Request timeout. Video generation may take longer than expected"
      | Some "ENOTFOUND" | Some "ECONNREFUSED" =>
          throwNew "Network error. Unable to connect to Fal.ai"
      | _ =>
          Throw (ThrowError (newError (Lit "Video generation failed: " :: message error)))
      end
  end.

(** [generateVideo({ prompt, duration = 5, aspectRatio = "16:9" })] *)
Definition generateVideo (this : FalVideoService) (amb : Ambient)
    (params : FalClient.VideoParams) : M VideoSuccess :=
  let prompt := FalClient.prompt params in
  let duration := defaulted (FalClient.duration params) (JNum 5) in
  let aspectRatio := defaulted (FalClient.aspectRatio params) (JStr "16:9") in
  tryCatch
    (_ <- lift (_validateInput this prompt duration aspectRatio) ;;
     payload <- lift (payload amb prompt duration aspectRatio) ;;
     (* console.log(`... "${prompt.substring(0, 50)}..."`) *)
     _ <- lift (substringOf prompt) ;;
     response <- _makeRequest this "/fal-ai/pika-1.0" (Some payload) POST ;;
     (* console.log(`... ${response.data.request_id}`) *)
     request_id <- lift (dataProp (data response) "request_id") ;;
     _ <- lift (interpolate request_id) ;;
     video_url <- lift (dataProp (data response) "video_url") ;;
     estimated_time <- lift (dataProp (data response) "estimated_time") ;;
     ret (mkSuccess video_url request_id
            (or_else estimated_time (JStr "30-60 seconds"))
            duration aspectRatio prompt (isoNow amb)))
    (fun thrown =>
       (* console.error(..., error.message) *)
       error <- lift (caught thrown) ;;
       lift (rethrow error)).

Record VideoStatus := mkStatus {
  st_requestId : string;
  st_status : Value;
  st_videoUrl : Value;
  progress : Value;
  st_estimatedTime : Value;
  st_createdAt : Value
}.

(** [getVideoStatus(requestId)]; the request id is a string (as the
    JSDoc has it) or absent. *)
Definition getVideoStatus (this : FalVideoService) (requestId : option string)
  : M VideoStatus :=
  tryCatch
    (match requestId with
     | Some id =>
         if negb (envTruthy requestId) then
           lift (throwNew "Request ID is required")
         else
           response <- _makeRequest this ("/fal-ai/pika-1.0/status/" ++ id) None GET ;;
           status <- lift (dataProp (data response) "status") ;;
           video_url <- lift (dataProp (data response) "video_url") ;;
           progress <- lift (dataProp (data response) "progress") ;;
           estimated_time <- lift (dataProp (data response) "estimated_time") ;;
           created_at <- lift (dataProp (data response) "created_at") ;;
           ret (mkStatus id status video_url (or_else progress (JNum 0))
                  estimated_time created_at)
     | None => lift (throwNew "Request ID is required")
     end)
    (fun thrown =>
       (* console.error(..., error.message) *)
       error <- lift (caught thrown) ;;
       throw (ThrowError
                (newError (Lit "Failed to get video status: " :: message error)))).

(** [checkServiceHealth()]: [axios.get(url, { timeout: 5000 })] *)
Definition checkServiceHealth (this : FalVideoService) : M bool :=
  tryCatch
    (response <- axios (mkRequest GET (baseURL this ++ "/health") 5000 [] None None) ;;
     ret (status response =? 200)%Z)
    (fun thrown =>
       (* console.error(..., error.message) *)
       _ <- lift (caught thrown) ;;
       ret false).

End FalVideo.

(* ================================================================== *)
(** ** The routes *)
(* ================================================================== *)

(** The JSON body of a failure reply. *)
Record ErrorReply := mkErrorReply {
  e_error : Text;
  e_errorType : ErrorType;
  e_details : Details;
  e_requestId : string;
  e_message : option string
}.

Inductive ReplyBody (A : Type) : Type :=
| Succeeded (a : A)
| Failed (e : ErrorReply).
Arguments Succeeded {A} a.
Arguments Failed {A} e.

(** [res.status(statusCode).json(body)] *)
Record Reply (A : Type) : Type := mkReply {
  statusCode : Z;
  body : ReplyBody A
}.
Arguments mkReply {A} statusCode body.
Arguments statusCode {A} r.
Arguments body {A} r.

(** The [success] field of the reply. *)
Definition replySuccess {A} (r : Reply A) : bool :=
  match body r with Succeeded _ => true | Failed _ => false end.

(** The [errorType] field of the reply, when it has one. *)
Definition replyErrorType {A} (r : Reply A) : option ErrorType :=
  match body r with Succeeded _ => None | Failed e => Some (e_errorType e) end.

(** [req.body.x?.substring(0, 50)] in a logging line: skipped on
    [undefined] and [null], a [TypeError] on any other value that is not a
    string. *)
Definition optSubstringOf (v : Value) : Result unit :=
  match v with
  | JUndefined | JNull | JStr _ => Ret tt
  | _ => Throw (ThrowError (typeError "substring is not a function"))
  end.

(** The outer [catch] of a route handler. *)
Definition systemError {A} (amb : Ambient) (NODE_ENV : option string)
    (thrown : Thrown) : M (Reply A) :=
  error <- lift (caught thrown) ;;
  ret (mkReply 500
         (Failed (mkErrorReply (text "Internal server error") SYSTEM_ERROR
                    (match NODE_ENV with
                     | Some "development" => DText (message error)
                     | _ => DAbsent
                     end)
                    (requestId amb)
                    (Some "An unexpected error occurred while processing your request")))).

(** What a handler reads from the process and from the middleware before
    it: the environment, and whether [validationResult(req)] is empty. *)
Record Context := mkContext {
  API_KEY : option string;
  NODE_ENV : option string;
  errorsEmpty : bool;
  validationErrors : Value
}.

(** *** routes/video.js *)

Module VideoRoute.

(** The module initialisation: [falClient] is [null] when the constructor
    throws. *)
Definition falClient (FAL_KEY : option string) : option FalClient.FalClientService :=
  match FalClient.new FAL_KEY with
  | Ret client => Some client
  | Throw _ => None
  end.

(** [_getStatusCodeForError(errorType)] *)
Definition _getStatusCodeForError (errorType : ErrorType) : Z :=
  match errorType with
  | INVALID_API_KEY | MISSING_API_KEY => 500
  | NO_CREDITS => 402
  | RATE_LIMITED => 429
  | ACCESS_DENIED => 403
  | TIMEOUT | NETWORK_ERROR | SERVER_ERROR => 503
  | VALIDATION_ERROR => 400
  | _ => 500
  end.

(** [_getUserFriendlyMessage(errorType)] *)
Definition _getUserFriendlyMessage (errorType : ErrorType) : string :=
  match errorType with
  | INVALID_API_KEY => "The Fal.ai API key is invalid. Please contact support."
  | MISSING_API_KEY => "Fal.ai API key is not configured. Please contact support."
  | NO_CREDITS =>
      "Your Fal.ai account has insufficient credits. Please check your billing."
  | RATE_LIMITED =>
      "Too many video generation requests. Please wait and try again later."
  | ACCESS_DENIED => "Access to Fal.ai service is denied. Please contact support."
  | TIMEOUT => "Video generation is taking too long. Please try again."
  | NETWORK_ERROR =>
      "Network connection to Fal.ai failed. Please check your internet connection."
  | SERVER_ERROR => "Fal.ai service is temporarily unavailable. Please try again later."
  | VALIDATION_ERROR => "Invalid request parameters. Please check your input."
  | _ => "An error occurred while generating your video. Please try again."
  end.

(** The handler of [POST /generate], after [verifyToken]. *)
Definition postGenerate (falClient : option FalClient.FalClientService)
    (ctx : Context) (amb svcAmb : Ambient) (reqBody : FalClient.VideoParams)
  : M (Reply FalClient.VideoSuccess) :=
  (* console.log(`... "${req.body.prompt?.substring(0, 50)}..."`) *)
  _ <- lift (optSubstringOf (FalClient.prompt reqBody)) ;;
  tryCatch
    (if negb (errorsEmpty ctx) then
       ret (mkReply 400
              (Failed (mkErrorReply (text "Validation failed") VALIDATION_ERROR
                         (DValue (validationErrors ctx)) (requestId amb) None)))
     else
       match falClient with
       | None =>
           ret (mkReply 503
                  (Failed (mkErrorReply (text "Fal.ai service not available")
                             SERVICE_UNAVAILABLE DAbsent (requestId amb)
                             (Some "Video generation service is not properly configured"))))
       | Some client =>
           let prompt := FalClient.prompt reqBody in
           let duration := defaulted (FalClient.duration reqBody) (JNum 5) in
           let aspectRatio := defaulted (FalClient.aspectRatio reqBody) (JStr "16:9") in
           if negb (envTruthy (API_KEY ctx)) then
             ret (mkReply 500
                    (Failed (mkErrorReply (text "FAL_KEY not configured")
                               MISSING_API_KEY DAbsent (requestId amb)
                               (Some "Fal.ai API key is not configured on the server"))))
           else
             result <- FalClient.generateVideo client svcAmb
                         (FalClient.mkParams prompt duration aspectRatio) ;;
             match result with
             | FalClient.VideoOk r => ret (mkReply 200 (Succeeded r))
             | FalClient.VideoFailed f =>
                 let statusCode := _getStatusCodeForError (f_errorType f) in
                 ret (mkReply statusCode
                        (Failed (mkErrorReply (f_error f) (f_errorType f)
                                   (f_details f) (requestId amb)
                                   (Some (_getUserFriendlyMessage (f_errorType f))))))
             end
       end)
    (systemError amb (NODE_ENV ctx)).

(** The [service] object of a health reply. *)
Record ServiceHealth := mkServiceHealth {
  sh_name : string;
  sh_status : string;
  sh_reachable : bool;
  sh_hasApiKey : bool;
  sh_initialized : bool;
  sh_message : option string;
  sh_responseTime : option string;
  sh_config : option FalClient.Config
}.

(** The JSON body of [GET /health]. *)
Inductive HealthBody :=
| HealthReport (success : bool) (service : ServiceHealth)
| HealthFailed (e : ErrorReply).

(** The handler of [GET /health]. *)
Definition getHealth (falClient : option FalClient.FalClientService)
    (FAL_KEY : option string) (amb : Ambient) : M (Z * HealthBody) :=
  tryCatch
    (match falClient with
     | None =>
         ret (503%Z,
              HealthReport true
                (mkServiceHealth "Fal.ai Video Generation" "unavailable" false
                   (envTruthy FAL_KEY) false
                   (Some "Fal.ai client not initialized") None None))
     | Some client =>
         falHealth <- FalClient.checkHealth client ;;
         let status := FalClient.h_status falHealth in
         let statusCode := if String.eqb status "healthy" then 200%Z else 503%Z in
         ret (statusCode,
              HealthReport true
                (mkServiceHealth "Fal.ai Video Generation" status
                   (FalClient.falReachable falHealth) (envTruthy FAL_KEY) true None
                   (FalClient.responseTime falHealth)
                   (Some (FalClient.getConfig client))))
     end)
    (fun thrown =>
       _ <- lift (caught thrown) ;;
       ret (500%Z,
            HealthFailed (mkErrorReply (text "Health check failed") SYSTEM_ERROR
                            DAbsent (requestId amb) None))).

End VideoRoute.

(** *** routes/audio.js *)

Module AudioRoute.

(** The module initialisation: the constructor never throws, so the
    service is always there. *)
Definition elevenLabsService (ELEVENLABS_API_KEY : option string)
  : option ElevenLabs.ElevenLabsService :=
  Some (ElevenLabs.new ELEVENLABS_API_KEY).

(** [req.body] of [POST /tts]; an absent property is [JUndefined]. *)
Record TtsBody := mkBody {
  text : Value;
  voiceId : Value;
  stability : Value;
  similarity : Value
}.

(** The stability block: 0.5 unless [stability] is a number; a number
    above 1 is read as a percentage; the outcome is clamped by
    [Math.min(Math.max(x, 0), 1)]. *)
Definition normalizedStability (stability : Value) : Q :=
  match stability with
  | JNum stability =>
      if Qgtb stability 1 then Qmin (Qmax (stability / 100) 0) 1
      else Qmin (Qmax stability 0) 1
  | _ => 5 # 10
  end.

(** The similarity block: the same, with default 0.8. *)
Definition normalizedSimilarity (similarity : Value) : Q :=
  match similarity with
  | JNum similarity =>
      if Qgtb similarity 1 then Qmin (Qmax (similarity / 100) 0) 1
      else Qmin (Qmax similarity 0) 1
  | _ => 8 # 10
  end.

(** [_getStatusCodeForError(errorType)] *)
Definition _getStatusCodeForError (errorType : ErrorType) : Z :=
  match errorType with
  | INVALID_API_KEY | MISSING_API_KEY => 500
  | PAYMENT_REQUIRED => 402
  | RATE_LIMITED => 429
  | ACCESS_DENIED => 403
  | TIMEOUT | NETWORK_ERROR | SERVER_ERROR => 503
  | BAD_REQUEST | VALIDATION_ERROR => 400
  | _ => 500
  end.

(** [_getUserFriendlyMessage(errorType)] *)
Definition _getUserFriendlyMessage (errorType : ErrorType) : string :=
  match errorType with
  | INVALID_API_KEY => "The ElevenLabs API key is invalid. Please contact support."
  | MISSING_API_KEY => "ElevenLabs API key is not configured. Please contact support."
  | PAYMENT_REQUIRED =>
      "Your ElevenLabs account has insufficient credits. Please check your billing."
  | RATE_LIMITED =>
      "Too many speech synthesis requests. Please wait and try again later."
  | ACCESS_DENIED => "Access to ElevenLabs service is denied. Please contact support."
  | TIMEOUT => "Speech synthesis is taking too long. Please try again."
  | NETWORK_ERROR =>
      "Network connection to ElevenLabs failed. Please check your internet connection."
  | SERVER_ERROR =>
      "ElevenLabs service is temporarily unavailable. Please try again later."
  | BAD_REQUEST | VALIDATION_ERROR =>
      "Invalid request parameters. Please check your input."
  | _ => "An error occurred while generating speech. Please try again."
  end.

(** The handler of [POST /tts], after [verifyToken]. *)
Definition postTts (elevenLabsService : option ElevenLabs.ElevenLabsService)
    (ctx : Context) (amb svcAmb : Ambient) (reqBody : TtsBody)
  : M (Reply ElevenLabs.SpeechSuccess) :=
  (* console.log(`... "${req.body.text?.substring(0, 50)}..."`) *)
  _ <- lift (optSubstringOf (text reqBody)) ;;
  tryCatch
    (if negb (errorsEmpty ctx) then
       ret (mkReply 400
              (Failed (mkErrorReply (JS.text "Validation failed") VALIDATION_ERROR
                         (DValue (validationErrors ctx)) (requestId amb) None)))
     else
       match elevenLabsService with
       | None =>
           ret (mkReply 503
                  (Failed (mkErrorReply (JS.text "ElevenLabs service not available")
                             SERVICE_UNAVAILABLE DAbsent (requestId amb)
                             (Some "Text-to-speech service is not properly configured"))))
       | Some service =>
           let text := text reqBody in
           let voiceId := defaulted (voiceId reqBody) (JStr ElevenLabs.defaultVoiceId) in
           let normalizedStability := normalizedStability (stability reqBody) in
           let normalizedSimilarity := normalizedSimilarity (similarity reqBody) in
           if negb (envTruthy (API_KEY ctx)) then
             ret (mkReply 500
                    (Failed (mkErrorReply (JS.text "ELEVENLABS_API_KEY not configured")
                               MISSING_API_KEY DAbsent (requestId amb)
                               (Some "ElevenLabs API key is not configured on the server"))))
           else
             result <- ElevenLabs.generateSpeech service svcAmb text voiceId
                         (JNum normalizedStability) (JNum normalizedSimilarity) ;;
             match result with
             | ElevenLabs.SpeechOk r => ret (mkReply 200 (Succeeded r))
             | ElevenLabs.SpeechFailed f =>
                 let statusCode := _getStatusCodeForError (f_errorType f) in
                 ret (mkReply statusCode
                        (Failed (mkErrorReply (f_error f) (f_errorType f)
                                   (f_details f) (requestId amb)
                                   (Some (_getUserFriendlyMessage (f_errorType f))))))
             end
       end)
    (systemError amb (NODE_ENV ctx)).

Record Voice := mkVoice {
  voice_id : string;
  v_name : string;
  gender : string;
  accent : string;
  description : string
}.

(** The list [GET /voices] replies with. *)
Definition voices : list Voice :=
  [mkVoice "21m00Tcm4TlvDq8ikWAM" "Rachel" "Female" "American"
     "Warm and friendly voice";
   mkVoice "29vD33N1CtxCmqQRPOWJk" "Drew" "Male" "American"
     "Clear and professional voice";
   mkVoice "2EiwWnXKFv4wCm4uuee0" "Clyde" "Male" "British"
     "Deep and authoritative voice";
   mkVoice "AZnzlk1XxtOvL2T1GwJk" "Domi" "Female" "American"
     "Energetic and youthful voice";
   mkVoice "EXAVITGu4L4Kuyx24Lxk" "Bella" "Female" "American"
     "Gentle and caring voice"].

(** The [service] object of a health reply. *)
Record ServiceHealth := mkServiceHealth {
  sh_name : string;
  sh_status : string;
  sh_reachable : bool;
  sh_hasApiKey : bool;
  sh_initialized : bool;
  sh_message : option string;
  sh_responseTime : option string;
  sh_config : option ElevenLabs.Config
}.

(** The JSON body of [GET /health]. *)
Inductive HealthBody :=
| HealthReport (success : bool) (service : ServiceHealth)
| HealthFailed (e : ErrorReply).

(** The handler of [GET /health]. *)
Definition getHealth (elevenLabsService : option ElevenLabs.ElevenLabsService)
    (ELEVENLABS_API_KEY : option string) (amb : Ambient) : M (Z * HealthBody) :=
  tryCatch
    (match elevenLabsService with
     | None =>
         ret (503%Z,
              HealthReport true
                (mkServiceHealth "ElevenLabs Text-to-Speech" "unavailable" false
                   (envTruthy ELEVENLABS_API_KEY) false
                   (Some "ElevenLabs service not initialized") None None))
     | Some service =>
         elHealth <- ElevenLabs.checkHealth service ;;
         let status := ElevenLabs.h_status elHealth in
         let statusCode := if String.eqb status "healthy" then 200%Z else 503%Z in
         ret (statusCode,
              HealthReport true
                (mkServiceHealth "ElevenLabs Text-to-Speech" status
                   (ElevenLabs.elevenLabsReachable elHealth)
                   (envTruthy ELEVENLABS_API_KEY) true None
                   (ElevenLabs.responseTime elHealth)
                   (Some (ElevenLabs.getConfig service))))
     end)
    (fun thrown =>
       _ <- lift (caught thrown) ;;
       ret (500%Z,
            HealthFailed (mkErrorReply (JS.text "Health check failed") SYSTEM_ERROR
                            DAbsent (requestId amb) None))).

End AudioRoute.

(** *** routes/test.js *)

Module TestRoute.

(** The JSON body of a failure reply of the test route: [errorType] is
    there only when the service or the outer [catch] supplies it. *)
Record TestError := mkTestError {
  t_error : Text;
  t_errorType : option ErrorType;
  t_details : Details;
  t_requestId : string
}.

Inductive TestBody :=
| TestOk (r : ElevenLabs.SpeechSuccess)
| TestFailed (e : TestError).

(** The [success] field of the reply. *)
Definition success (b : TestBody) : bool :=
  match b with TestOk _ => true | TestFailed _ => false end.

(** The handler of [POST /tts] of the test route: no token, no
    express-validator. *)
Definition postTts (elevenLabsService : option ElevenLabs.ElevenLabsService)
    (amb svcAmb : Ambient) (text voiceId : Value) : M (Z * TestBody) :=
  tryCatch
    (let voiceId := defaulted voiceId (JStr ElevenLabs.defaultVoiceId) in
     match text with
     | JStr t =>
         if negb (truthy text) then
           ret (400%Z, TestFailed (mkTestError
                  (JS.text "Text is required and must be a string") None DAbsent
                  (requestId amb)))
         else if (5000 <? String.length t)%nat then
           ret (400%Z, TestFailed (mkTestError
                  (JS.text "Text must be less than 5000 characters") None DAbsent
                  (requestId amb)))
         else
           match elevenLabsService with
           | None =>
               ret (503%Z, TestFailed (mkTestError
                      (JS.text "ElevenLabs service not available") None DAbsent
                      (requestId amb)))
           | Some service =>
               result <- ElevenLabs.generateSpeech service svcAmb text voiceId
                           JUndefined JUndefined ;;
               match result with
               | ElevenLabs.SpeechOk r => ret (200%Z, TestOk r)
               | ElevenLabs.SpeechFailed f =>
                   ret (500%Z, TestFailed (mkTestError (f_error f)
                          (Some (f_errorType f)) (f_details f) (requestId amb)))
               end
           end
     | _ =>
         ret (400%Z, TestFailed (mkTestError
                (JS.text "Text is required and must be a string") None DAbsent
                (requestId amb)))
     end)
    (fun thrown =>
       (* console.error(..., error.message) *)
       _ <- lift (caught thrown) ;;
       ret (500%Z, TestFailed (mkTestError (JS.text "Internal server error")
              (Some SYSTEM_ERROR) DAbsent (requestId amb)))).

End TestRoute.

(* ================================================================== *)
(** ** Properties *)
(* ================================================================== *)

(** *** Transports used as examples *)

(** The failure axios reports when the provider answers with [status]. *)
Definition httpError (status : Z) : Error :=
  mkError PlainError
    [Lit "Request failed with status code "; Subst (JNum (inject_Z status))]
    (Some (mkResponse status [] (Json (JObj [])))) None.

(** A provider that answers every request with the same failure status. *)
Definition alwaysStatus (status : Z) : Transport :=
  fun _ _ => Rejected (httpError status).

(** A provider that answers every request with the same three bytes. *)
Definition alwaysAudio : Transport :=
  fun _ _ => Fulfilled (mkResponse 200 [] (Binary ["I"%byte; "D"%byte; "3"%byte])).

(** A network that refuses every connection. *)
Definition alwaysRefused : Transport :=
  fun _ _ => Rejected (mkError PlainError (text "connect ECONNREFUSED") None
                         (Some "ECONNREFUSED")).

Definition someAmbient : Ambient := mkAmbient "req_1_abc" (1 # 2) "2024-02-27T21:00:00.000Z".

Definition sunset : FalClient.VideoParams :=
  FalClient.mkParams (JStr "A beautiful sunset") JUndefined JUndefined.

(** *** Predicates of the statements *)

(** The transport outcome is a failure answered by the provider with
    [status]. *)
Definition failsWith (status : Z) (out : Outcome) : Prop :=
  match out with
  | Rejected e =>
      match response e with
      | Some r => JS.status r = status
      | None => False
      end
  | Fulfilled _ => False
  end.

(** The transport answers every request, at every attempt, with a failure
    of status [status]. *)
Definition alwaysFailsWith (status : Z) (tr : Transport) : Prop :=
  forall n req, failsWith status (tr n req).

(** The statuses the retry loop gives up on at once. *)
Definition givesUpOn (status : Z) : bool :=
  (status =? 401)%Z || (status =? 403)%Z || (status =? 402)%Z || (status =? 429)%Z.

(** The provider answered some request of the trace with [status]. *)
Definition answered (status : Z) (w : World) : Prop :=
  exists req out, In (Sent req out) w /\ failsWith status out.

(** The parameters pass [FalClient._validateInput] once the defaults are
    in. *)
Definition validVideo (params : FalClient.VideoParams) : Prop :=
  FalClient._validateInput (FalClient.prompt params)
    (defaulted (FalClient.duration params) (JNum 5))
    (defaulted (FalClient.aspectRatio params) (JStr "16:9")) = Ret tt.

(** Clamping into [0,1], in the words of the design document: a value
    below 0 becomes 0, a value above 1 becomes 1, any other is kept. *)
Definition clamp01 (x : Q) : Q :=
  if Qltb x 0 then 0 else if Qgtb x 1 then 1 else x.

(** The normalisation the design document describes for a numeric tuning
    parameter: a value above 1 is a percentage. *)
Definition specNormalize (v : Q) : Q :=
  if Qgtb v 1 then clamp01 (v / 100) else clamp01 v.

(** The transport answers every request with the same audio bytes. *)
Definition answersAudio (bytes : list byte) (tr : Transport) : Prop :=
  forall n req,
    exists status headers, tr n req = Fulfilled (mkResponse status headers (Binary bytes)).

(** The input passes [ElevenLabs._validateInput] once the default voice is
    in. *)
Definition validSpeech (text voiceId : Value) : Prop :=
  ElevenLabs._validateInput text (defaulted voiceId (JStr ElevenLabs.defaultVoiceId))
  = Ret tt.

Definition demoKey : option string := Some "sk_0123456789abcdef".

(** The Fal client the constructor builds from that key. *)
Definition demoFal : FalClient.FalClientService :=
  FalClient.mkService "https://fal.run" demoKey 60000 1.

(** The bytes of an ASCII string. *)
Definition bytesOf (s : string) : list byte :=
  map byte_of_ascii (list_ascii_of_string s).

(** The credential the constructor of the ElevenLabs client rejects:
    absent, or shorter than ten characters (the empty string among
    them). *)
Definition credentialRejected (key : option string) : Prop :=
  match key with
  | None => True
  | Some k => (String.length k < 10)%nat
  end.

(** The value can go into a template literal: [`${v}`] does not throw.
    This is every value but an object with an own property
    [toString]. *)
Definition printable (v : Value) : Prop := interpolate v = Ret tt.

(** What [`${v}`] throws otherwise. *)
Definition notPrintable : Thrown :=
  ThrowError (typeError "Cannot convert object to primitive value").

(** A required field the claims call missing, non-string or blank. *)
Definition fieldUnusable (v : Value) : Prop :=
  isString v = false \/ exists s, v = JStr s /\ trim s = "".

(** How many pauses the trace holds. *)
Definition isSlept (e : Event) : bool :=
  match e with Slept _ => true | Sent _ _ => false end.

Definition pauses (w : World) : nat := List.length (filter isSlept w).

(** An event of the retry loop for the request [req]: that request sent,
    or a pause of two seconds. *)
Definition loopEvent (req : Request) (e : Event) : Prop :=
  match e with
  | Sent rq _ => rq = req
  | Slept ms => ms = 2000%Z
  end.

(** The latest event of the trace is a request, and the result is what
    that request was answered. *)
Definition endsWith (r : Result HttpResponse) (w : World) : Prop :=
  match w with
  | Sent _ out :: _ =>
      match r with
      | Ret response => out = Fulfilled response
      | Throw t => exists e, t = ThrowError e /\ out = Rejected e
      end
  | _ => False
  end.

(** The attempts of a retried request that came before the last one,
    latest event first: each is the request [req], answered by a failure
    the loop retries, and each is followed by a pause of two seconds. *)
Fixpoint retried (req : Request) (w : World) : Prop :=
  match w with
  | [] => True
  | Slept ms :: Sent rq (Rejected e) :: w' =>
      ms = 2000%Z /\ rq = req /\ FalClient.noRetry e = false /\ retried req w'
  | _ => False
  end.

(** What a call is left with when its last request settled as [out]. *)
Definition settled (out : Outcome) : Result HttpResponse :=
  match out with
  | Fulfilled response => Ret response
  | Rejected e => Throw (ThrowError e)
  end.

(** The network fails every request with the error code [c] (no answer
    from the provider). *)
Definition networkFails (c : option string) (tr : Transport) : Prop :=
  forall n req, exists e, tr n req = Rejected e /\ response e = None /\ code e = c.

(** A network that fails every request with the code [c]. *)
Definition alwaysCode (c : string) : Transport :=
  fun _ _ => Rejected (mkError PlainError (text "network failure") None (Some c)).


(** The HTTP status [POST /generate] replies with when the provider
    fails with [status]: the classifier of the client followed by the
    table of the route. *)
Definition videoOutwardStatus (status : Z) : Z :=
  if (status =? 402)%Z then 402
  else if (status =? 403)%Z then 403
  else if (status =? 429)%Z then 429
  else if (status =? 500)%Z || (status =? 502)%Z
          || (status =? 503)%Z || (status =? 504)%Z then 503
  else 500.

(** The same for [POST /tts]. *)
Definition audioOutwardStatus (status : Z) : Z :=
  if (status =? 400)%Z then 400
  else if (status =? 402)%Z then 402
  else if (status =? 429)%Z then 429
  else if (status =? 500)%Z || (status =? 502)%Z
          || (status =? 503)%Z || (status =? 504)%Z then 503
  else 500.

(** A request context in which the handler reaches the service:
    validation left no error and the key is in the environment. *)
Definition passes (ctx : Context) : Prop :=
  errorsEmpty ctx = true /\ envTruthy (API_KEY ctx) = true.

Definition okContext : Context := mkContext demoKey None true JUndefined.

(** A character of padded base64 text. *)
Definition isBase64Char (c : ascii) : bool :=
  Base64.isPad c
  || match Base64.unDigit c with Some _ => true | None => false end.

(** The error codes the [catch] block of [generateSpeech] knows. *)
Definition knownCode (s : string) : bool :=
  String.eqb s "ECONNABORTED" || String.eqb s "ENOTFOUND" || String.eqb s "ECONNREFUSED".

(** The failures on which the method [ElevenLabs._handleError] and the
    [catch] block of [generateSpeech] give different types: an answer with
    status 403 or 404, and a network failure whose code is not empty and
    not one of the three known codes. *)
Definition classifiedDifferently (e : Error) : Prop :=
  match response e with
  | Some r => JS.status r = 403%Z \/ JS.status r = 404%Z
  | None =>
      match code e with
      | Some s => s <> "" /\ knownCode s = false
      | None => False
      end
  end.

(** The promise of a request settled fulfilled. *)
Definition fulfilled (out : Outcome) : Prop :=
  match out with Fulfilled _ => True | Rejected _ => False end.

(** The probe of [FalClient.checkHealth]. *)
Definition falProbe (this : FalClient.FalClientService) : Request :=
  mkRequest GET (FalClient.baseURL this ++ "/health") 5000
    [("User-Agent", Some "FayStar-HealthCheck/1.0")] None None.

(** The probe of [ElevenLabs.checkHealth]. *)
Definition speechProbe (this : ElevenLabs.ElevenLabsService) : Request :=
  mkRequest GET (ElevenLabs.baseURL this ++ "/voices") 5000
    [("xi-api-key", ElevenLabs.apiKey this);
     ("User-Agent", Some "FayStar-HealthCheck/1.0")] None None.

(** A text the test route lets through to the service: a string that is
    not empty and has at most 5000 characters. *)
Definition testAccepts (text : Value) : Prop :=
  exists t, text = JStr t /\ t <> "" /\ (String.length t <= 5000)%nat.


(** The lengths, up to the 5000 characters the validator allows, at
    which the rounding of the double arithmetic lifts the estimated
    duration one second above [ceil (0.08 * length)]. *)
Definition liftedLengths : list nat := [775; 1550; 3100; 3125]%nat.

(** The estimate for a text of [n] characters, against the exact
    [ceil (2 * n / 25)]. *)
Definition estimateChecked (n : nat) : bool :=
  let z := Z.of_nat n in
  let d := ElevenLabs._estimateAudioDuration
             (string_of_list_ascii (repeat "a"%char n)) in
  (if existsb (Nat.eqb n) liftedLengths
   then (25 * d =? 2 * z + 25)%Z
   else (2 * z <=? 25 * d)%Z && (25 * d <? 2 * z + 25)%Z)
  && (d <=? 400)%Z
  && Bool.eqb (d =? 0)%Z (n =? 0)%nat.

(** The value of a finite number of the Standard Library's specification
    of IEEE 754 arithmetic ([SpecFloat]), and the binary64 number of an
    integer or of a quotient of two integers. *)
Definition specValue (f : spec_float) : Q :=
  match f with
  | S754_finite s m e =>
      ((if s then -1 else 1) * inject_Z (Zpos m) * Double.pow2 e)%Q
  | _ => 0
  end.

Definition specOfZ (z : Z) : spec_float := binary_normalize 53 1024 z 0 false.

Definition specOfQ (a b : positive) : spec_float :=
  SFdiv 53 1024 (S754_finite false a 0) (S754_finite false b 0).

(** The provider answers the first request of a run, whatever the
    request, with status 429. *)
Definition rateLimits (tr : Transport) : Prop :=
  forall req, failsWith 429 (tr 0%nat req).

(** The trace of a run that sent one request, which the provider
    answered with status 429: nothing was sent again and nothing
    paused. *)
Definition sentOnce429 (w : World) : Prop :=
  exists req out, w = [Sent req out] /\ failsWith 429 out.

(** The result of a service is a failure object with [success] false and
    error type RATE_LIMITED. *)
Definition videoRateLimited (r : Result FalClient.VideoResult) : Prop :=
  exists f,
    r = Ret (FalClient.VideoFailed f)
    /\ FalClient.success (FalClient.VideoFailed f) = false
    /\ f_errorType f = RATE_LIMITED.

Definition speechRateLimited (r : Result ElevenLabs.SpeechResult) : Prop :=
  exists f,
    r = Ret (ElevenLabs.SpeechFailed f)
    /\ ElevenLabs.success (ElevenLabs.SpeechFailed f) = false
    /\ f_errorType f = RATE_LIMITED.

(** A route replies with HTTP status [code] and a body with [success]
    false and error type RATE_LIMITED. *)
Definition repliesRateLimited {A} (code : Z) (r : Result (Reply A)) : Prop :=
  exists reply,
    r = Ret reply
    /\ statusCode reply = code
    /\ replySuccess reply = false
    /\ replyErrorType reply = Some RATE_LIMITED.

(** The same for the test route. *)
Definition testRepliesRateLimited (code : Z) (r : Result (Z * TestRoute.TestBody))
  : Prop :=
  exists e,
    r = Ret (code, TestRoute.TestFailed e)
    /\ TestRoute.success (TestRoute.TestFailed e) = false
    /\ TestRoute.t_errorType e = Some RATE_LIMITED.

(** *** Checks on concrete inputs *)

(** [Double] against the Standard Library's [SpecFloat], on the
    arithmetic of [_estimateAudioDuration] for every length up to 5000,
    and on the product by 24 of the doubles nearest to [k / 997], for
    500 values of [k] between 997 and 19460. *)
Example double_agrees_with_SpecFloat :
  forallb (fun n =>
             Qeq_bool
               (specValue
                  (SFmul 53 1024
                     (SFdiv 53 1024
                        (SFdiv 53 1024 (specOfZ (Z.of_nat n)) (specOfZ 5))
                        (specOfZ 150))
                     (specOfZ 60)))
               (Double.mul
                  (Double.div (Double.div (inject_Z (Z.of_nat n)) 5) 150) 60))
          (seq 0 (Z.to_nat 5001)) = true
  /\ forallb (fun i =>
                let k := Pos.of_nat (997 + 37 * i) in
                Qeq_bool (specValue (specOfQ k 997)) (Double.round (Zpos k # 997))
                && Qeq_bool
                     (specValue (SFmul 53 1024 (specOfQ k 997) (specOfZ 24)))
                     (Double.mul (specValue (specOfQ k 997)) 24))
             (seq 0 500) = true.
Proof. split; vm_compute; reflexivity. Qed.

(** The double nearest to 1.3333333333333333 times 24 is 32, not just
    below it; the four lengths at which the estimate is lifted. *)
Example double_vectors :
  Qfloor (Double.mul (6004799503160661 # 4503599627370496) 24) = 32%Z
  /\ (Qfloor ((6004799503160661 # 4503599627370496) * 24) = 31)%Z
  /\ map (fun n => ElevenLabs._estimateAudioDuration
                     (string_of_list_ascii (repeat "a"%char n)))
         [775; 1550; 3100; 3125; 5000]%nat
     = [63; 125; 249; 251; 400]%Z.
Proof. repeat split; vm_compute; reflexivity. Qed.

Example base64_rfc4648_vectors :
  Base64.encode (bytesOf "") = ""
  /\ Base64.encode (bytesOf "f") = "Zg=="
  /\ Base64.encode (bytesOf "fo") = "Zm8="
  /\ Base64.encode (bytesOf "foo") = "Zm9v"
  /\ Base64.encode (bytesOf "foob") = "Zm9vYg=="
  /\ Base64.encode (bytesOf "fooba") = "Zm9vYmE="
  /\ Base64.encode (bytesOf "foobar") = "Zm9vYmFy"
  /\ Base64.encode [xff; xfe; xfb; x00; xf8] = "//77APg=".
Proof. repeat split. Qed.

Example base64_decode_vectors :
  Base64.decode "Zm9vYmE=" = Some (bytesOf "fooba")
  /\ Base64.decode "Zg==" = Some (bytesOf "f")
  /\ Base64.decode "Zg=" = None
  /\ Base64.decode "Zg==Zg==" = None.
Proof. repeat split. Qed.

Example trim_examples :
  trim "  a sunset  " = "a sunset" /\ trim "   " = "" /\ trim "" = "".
Proof. repeat split. Qed.

Example validateInput_examples :
  FalClient._validateInput (JStr "A beautiful sunset") (JNum 5) (JStr "16:9") = Ret tt
  /\ FalClient._validateInput (JStr "   ") (JNum 5) (JStr "16:9")
     = throwNew "Prompt cannot be empty"
  /\ FalClient._validateInput (JStr "") (JNum 5) (JStr "16:9")
     = throwNew "Prompt is required and must be a string"
  /\ FalClient._validateInput (JStr "x") (JNum 21) (JStr "16:9")
     = throwNew "Duration must be a number between 1 and 20 seconds"
  /\ FalClient._validateInput (JStr "x") (JNum 5) (JStr "2:1")
     = throwNew "Invalid aspect ratio. Must be one of: 16:9, 9:16, 1:1, 4:3, 21:9".
Proof. repeat split. Qed.

Example constructor_examples :
  FalClient.new demoKey = Ret demoFal
  /\ FalClient.new None = throwNew "FAL_KEY not configured"
  /\ FalClient.new (Some "short") = throwNew "FAL_KEY format invalid"
  /\ ElevenLabs.disabled (ElevenLabs.new demoKey) = false
  /\ ElevenLabs.disabled (ElevenLabs.new (Some "short")) = true.
Proof. repeat split. Qed.

(** The trace, latest event first, of a request that meets 500 twice. *)
Example retry_trace_500 :
  snd (run (FalClient._makeRequestWithRetry demoFal "/fal-ai/pika-1.0" (JObj []))
           (alwaysStatus 500))
  = [Sent (FalClient.request demoFal "/fal-ai/pika-1.0" (JObj []))
       (Rejected (httpError 500));
     Slept 2000;
     Sent (FalClient.request demoFal "/fal-ai/pika-1.0" (JObj []))
       (Rejected (httpError 500))].
Proof. reflexivity. Qed.

Example normalization_examples :
  (AudioRoute.normalizedStability (JNum 50) == 1 # 2)%Q
  /\ (AudioRoute.normalizedStability (JNum 150) == 1)%Q
  /\ (AudioRoute.normalizedStability (JNum (-3)) == 0)%Q
  /\ (AudioRoute.normalizedStability (JNum (3 # 10)) == 3 # 10)%Q
  /\ (AudioRoute.normalizedStability (JStr "50") == 1 # 2)%Q
  /\ (AudioRoute.normalizedSimilarity JUndefined == 8 # 10)%Q.
Proof. repeat split. Qed.

Example tts_route_429 :
  outcome (AudioRoute.postTts (AudioRoute.elevenLabsService demoKey)
             (mkContext demoKey None true JUndefined) someAmbient someAmbient
             (AudioRoute.mkBody (JStr "Hello world") JUndefined JUndefined JUndefined))
          (alwaysStatus 429)
  = Ret (mkReply 429
           (Failed (mkErrorReply
                      (text "Rate limit exceeded - too many requests to ElevenLabs")
                      RATE_LIMITED (DBody (Json (JObj []))) "req_1_abc"
                      (Some "Too many speech synthesis requests. Please wait and try again later.")))).
Proof. reflexivity. Qed.

(** *** The retry loop of the Fal client *)

Ltac step :=
  unfold bind, send, ret, throw, lift, sleep, tryCatch, axios in *; simpl in *.

(** *** Values in a template literal *)

Lemma interpolate_defaulted v d :
  interpolate d = Ret tt -> interpolate (defaulted v d) = interpolate v.
Proof. intros H. destruct v; cbn [defaulted]; [exact H | reflexivity ..]. Qed.

Lemma interpolate_cases v : interpolate v = Ret tt \/ interpolate v = Throw notPrintable.
Proof.
  destruct v as [| | | | | fs]; cbn; try (now left).
  destruct (hasKey "toString" fs); [now right | now left].
Qed.

Lemma printable_dec v : printable v \/ ~ printable v.
Proof.
  unfold printable. destruct (interpolate_cases v) as [H | H]; [now left |].
  right. rewrite H. discriminate.
Qed.

Lemma not_printable v : ~ printable v -> interpolate v = Throw notPrintable.
Proof.
  intros H. destruct (interpolate_cases v) as [E | E]; [now contradiction H | exact E].
Qed.

Lemma FalClient_new_inv key this :
  FalClient.new key = Ret this ->
  this = FalClient.mkService "https://fal.run" key 60000 1.
Proof.
  unfold FalClient.new. destruct (FalClient._validateApiKey _); intro H.
  - now inversion H.
  - discriminate.
Qed.

Lemma failsWith_inv status out :
  failsWith status out ->
  exists e r, out = Rejected e /\ response e = Some r /\ JS.status r = status.
Proof.
  destruct out as [r | e]; simpl; [tauto |].
  destruct (response e) as [r |] eqn:E; [| tauto].
  intros <-. now exists e, r.
Qed.

Lemma noRetry_givesUpOn e r :
  response e = Some r -> FalClient.noRetry e = givesUpOn (JS.status r).
Proof. intros H. unfold FalClient.noRetry, givesUpOn. now rewrite H. Qed.

Section RetryLoop.

Variable this : FalClient.FalClientService.
Variable req : Request.

(** The loop never sends more requests than it has iterations. *)
Lemma retryLoop_calls_le n :
  forall attempt last tr w,
    (transportCalls (snd (FalClient.retryLoop this req n attempt last tr w))
     <= transportCalls w + n)%nat.
Proof.
  induction n as [| n IH]; intros attempt last tr w; simpl.
  - step. lia.
  - step. destruct (tr (transportCalls w) req) as [r | e]; simpl.
    + unfold transportCalls. simpl. fold (transportCalls w). lia.
    + destruct (FalClient.noRetry e); simpl.
      * unfold transportCalls. simpl. fold (transportCalls w). lia.
      * destruct (attempt <=? FalClient.maxRetries this)%nat; simpl;
          match goal with
          | |- context [FalClient.retryLoop this req n ?a ?l tr ?w'] =>
              specialize (IH a l tr w')
          end;
          unfold transportCalls in *; simpl in *; lia.
Qed.

(** Against a provider whose failures are all of a status the loop does
    not give up on, every iteration sends a request, and the last failure
    is what the loop throws. *)
Lemma retryLoop_exhausts status tr :
  alwaysFailsWith status tr -> givesUpOn status = false ->
  forall n attempt last w,
    exists e w',
      FalClient.retryLoop this req (S n) attempt last tr w = (Throw (ThrowError e), w')
      /\ failsWith status (Rejected e)
      /\ transportCalls w' = (transportCalls w + S n)%nat.
Proof.
  intros Htr Hg. induction n as [| n IH]; intros attempt last w.
  - destruct (failsWith_inv _ _ (Htr (transportCalls w) req)) as (e & r & Eo & Er & Es).
    simpl. step. rewrite Eo. simpl.
    rewrite (noRetry_givesUpOn _ _ Er), Es, Hg.
    destruct (attempt <=? FalClient.maxRetries this)%nat; simpl;
      (eexists; eexists; split; [reflexivity |]; split;
       [ now rewrite Er | unfold transportCalls; simpl; lia ]).
  - destruct (failsWith_inv _ _ (Htr (transportCalls w) req)) as (e & r & Eo & Er & Es).
    cbn [FalClient.retryLoop]. unfold bind at 1. unfold send at 1. rewrite Eo.
    rewrite (noRetry_givesUpOn _ _ Er), Es, Hg.
    unfold bind at 1.
    destruct (attempt <=? FalClient.maxRetries this)%nat.
    + unfold sleep at 1.
      destruct (IH (S attempt) (ThrowError e) (Slept 2000 :: Sent req (Rejected e) :: w))
        as (e' & w' & E & F & C).
      exists e', w'. split; [exact E |]. split; [exact F |].
      rewrite C. unfold transportCalls. simpl. lia.
    + unfold ret at 1.
      destruct (IH (S attempt) (ThrowError e) (Sent req (Rejected e) :: w))
        as (e' & w' & E & F & C).
      exists e', w'. split; [exact E |]. split; [exact F |].
      rewrite C. unfold transportCalls. simpl. lia.
Qed.

(** Against a provider whose first answer is a failure of a status the
    loop gives up on, exactly one request is sent. *)
Lemma retryLoop_gives_up status tr n attempt last w :
  failsWith status (tr (transportCalls w) req) -> givesUpOn status = true ->
  exists e,
    FalClient.retryLoop this req (S n) attempt last tr w
    = (Throw (ThrowError e), Sent req (Rejected e) :: w)
    /\ failsWith status (Rejected e).
Proof.
  intros Htr Hg.
  destruct (failsWith_inv _ _ Htr) as (e & r & Eo & Er & Es).
  exists e. simpl. step. rewrite Eo. simpl.
  rewrite (noRetry_givesUpOn _ _ Er), Es, Hg. split; [reflexivity |].
  now rewrite Er.
Qed.

(** Every request of the loop that the provider answered with a status
    the loop gives up on is the failure the loop throws. *)
Lemma retryLoop_answered status :
  givesUpOn status = true ->
  forall n attempt last tr w,
    exists evs r,
      FalClient.retryLoop this req n attempt last tr w = (r, (evs ++ w)%list)
      /\ (answered status evs ->
          exists e, r = Throw (ThrowError e) /\ failsWith status (Rejected e)).
Proof.
  intros Hg. induction n as [| n IH]; intros attempt last tr w.
  - exists [], (Throw last). split; [reflexivity |].
    intros (rq & out & [] & _).
  - cbn [FalClient.retryLoop]. unfold bind at 1. unfold send at 1.
    destruct (tr (transportCalls w) req) as [r | e] eqn:Eo.
    + exists [Sent req (Fulfilled r)], (Ret r). split; [reflexivity |].
      intros (rq & out & [H | []] & F). inversion H; subst. destruct F.
    + destruct (FalClient.noRetry e) eqn:En.
      * exists [Sent req (Rejected e)], (Throw (ThrowError e)).
        split; [reflexivity |].
        intros (rq & out & [H | []] & F). inversion H; subst.
        exists e. split; [reflexivity | exact F].
      * unfold bind at 1.
        assert (Hnot : ~ failsWith status (Rejected e)).
        { intros F. destruct (failsWith_inv _ _ F) as (e' & r & E1 & Er & Es).
          inversion E1; subst e'.
          rewrite (noRetry_givesUpOn _ _ Er), Es, Hg in En. discriminate. }
        destruct (attempt <=? FalClient.maxRetries this)%nat.
        -- unfold sleep at 1.
           destruct (IH (S attempt) (ThrowError e) tr
                       (Slept 2000 :: Sent req (Rejected e) :: w))
             as (evs & r & E & A).
           exists (evs ++ [Slept 2000; Sent req (Rejected e)])%list, r.
           split; [rewrite E, <- app_assoc; reflexivity |].
           intros (rq & out & Hin & F). apply in_app_or in Hin.
           destruct Hin as [Hin | [H | [H | []]]].
           ++ apply A. now exists rq, out.
           ++ discriminate.
           ++ inversion H; subst. contradiction.
        -- unfold ret at 1.
           destruct (IH (S attempt) (ThrowError e) tr
                       (Sent req (Rejected e) :: w)) as (evs & r & E & A).
           exists (evs ++ [Sent req (Rejected e)])%list, r.
           split; [rewrite E, <- app_assoc; reflexivity |].
           intros (rq & out & Hin & F). apply in_app_or in Hin.
           destruct Hin as [Hin | [H | []]].
           ++ apply A. now exists rq, out.
           ++ inversion H; subst. contradiction.
Qed.

(** The retry loop throws [null] only if it is entered with no iteration
    left and no failure recorded. *)
Lemma retryLoop_not_null n :
  forall attempt last tr w,
    (n = 0%nat -> last <> ThrowNull) ->
    fst (FalClient.retryLoop this req n attempt last tr w) <> Throw ThrowNull.
Proof.
  induction n as [| n IH]; intros attempt last tr w Hl.
  - cbn. intros H. inversion H. now apply Hl.
  - cbn [FalClient.retryLoop]. unfold bind at 1. unfold send at 1.
    destruct (tr (transportCalls w) req) as [r | e]; [discriminate |].
    destruct (FalClient.noRetry e); [discriminate |].
    unfold bind at 1.
    destruct (attempt <=? FalClient.maxRetries this)%nat.
    + unfold sleep at 1. apply IH. discriminate.
    + unfold ret at 1. apply IH. discriminate.
Qed.

End RetryLoop.

(** *** The classifier of the Fal client *)

Lemma handleError_status this e r :
  response e = Some r ->
  FalClient.type (FalClient._handleError this e)
  = let s := JS.status r in
    if (s =? 401)%Z then INVALID_API_KEY
    else if (s =? 403)%Z then ACCESS_DENIED
    else if (s =? 402)%Z then NO_CREDITS
    else if (s =? 429)%Z then RATE_LIMITED
    else if (s =? 500)%Z || (s =? 502)%Z || (s =? 503)%Z || (s =? 504)%Z
    then SERVER_ERROR
    else API_ERROR.
Proof.
  intros H. unfold FalClient._handleError. rewrite H. simpl.
  repeat match goal with
         | |- context [if ?b then _ else _] => destruct b; try reflexivity
         end.
Qed.

(** *** [generateVideo] of the Fal client *)

Lemma validateInput_ok prompt duration aspectRatio :
  FalClient._validateInput prompt duration aspectRatio = Ret tt ->
  duration <> JUndefined ->
  exists p d, prompt = JStr p /\ duration = JNum d.
Proof.
  unfold FalClient._validateInput, throwNew. intros H Hd.
  destruct prompt as [| | | | p |]; try discriminate.
  destruct (negb (truthy (JStr p))); [discriminate |].
  destruct (String.length (trim p) =? 0)%nat; [discriminate |].
  destruct (1000 <? String.length p)%nat; [discriminate |].
  destruct duration as [| | | d | |]; simpl in H; try discriminate.
  - contradiction.
  - now exists p, d.
Qed.

Lemma defaulted_defined v d : d <> JUndefined -> defaulted v d <> JUndefined.
Proof. destruct v; simpl; congruence. Qed.

Lemma validateInput_ratio prompt duration aspectRatio :
  FalClient._validateInput prompt duration aspectRatio = Ret tt ->
  aspectRatio <> JUndefined ->
  exists a, aspectRatio = JStr a.
Proof.
  unfold FalClient._validateInput, throwNew. intros H Ha.
  destruct prompt as [| | | | p |]; try discriminate.
  destruct (negb (truthy (JStr p))); [discriminate |].
  destruct (String.length (trim p) =? 0)%nat; [discriminate |].
  destruct (1000 <? String.length p)%nat; [discriminate |].
  destruct (negb _ && durationOutOfRange duration); [discriminate |].
  destruct aspectRatio as [| | | | a |]; simpl in H; try discriminate.
  - contradiction.
  - now exists a.
Qed.

(** An accepted input passes the logging lines before the [try]: the
    duration is a number and the aspect ratio a string. *)
Lemma validVideo_printable params :
  validVideo params ->
  interpolate (defaulted (FalClient.duration params) (JNum 5)) = Ret tt
  /\ interpolate (defaulted (FalClient.aspectRatio params) (JStr "16:9")) = Ret tt.
Proof.
  intros Hv. unfold validVideo in Hv.
  destruct (validateInput_ok _ _ _ Hv) as (p & d & _ & ->).
  { apply defaulted_defined. discriminate. }
  destruct (validateInput_ratio _ _ _ Hv) as (a & ->).
  { apply defaulted_defined. discriminate. }
  split; reflexivity.
Qed.

Lemma validVideo_dec params : validVideo params \/ ~ validVideo params.
Proof.
  unfold validVideo. destruct (FalClient._validateInput _ _ _) as [[] | t].
  - now left.
  - right. discriminate.
Qed.

(** What is left of [generateVideo] once the input is accepted: the
    request, then the adapter or the classifier. *)
Lemma generateVideo_valid this amb params :
  validVideo params ->
  exists payload,
    FalClient.payload amb (FalClient.prompt params)
      (defaulted (FalClient.duration params) (JNum 5))
      (defaulted (FalClient.aspectRatio params) (JStr "16:9")) = Ret payload
    /\ forall tr w,
      FalClient.generateVideo this amb params tr w
      = match FalClient._makeRequestWithRetry this "/fal-ai/pika-1.0" payload tr w with
        | (Ret response, w') =>
            match dataProp (data response) "video_url",
                  dataProp (data response) "estimated_time" with
            | Ret video_url, Ret estimated_time =>
                match interpolate video_url with
                | Ret _ =>
                    (Ret (FalClient.VideoOk
                            (FalClient.mkSuccess (requestId amb) video_url
                               (or_else estimated_time (JStr "30-60 seconds"))
                               (defaulted (FalClient.duration params) (JNum 5))
                               (defaulted (FalClient.aspectRatio params)
                                  (JStr "16:9"))
                               (FalClient.prompt params) (isoNow amb))), w')
                | Throw t =>
                    match caught t with
                    | Ret error =>
                        let c := FalClient._handleError this error in
                        (Ret (FalClient.VideoFailed
                                (mkFailure (requestId amb) (FalClient.c_message c)
                                   (FalClient.type c) (FalClient.c_details c))), w')
                    | Throw t' => (Throw t', w')
                    end
                end
            | Throw t, _ | Ret _, Throw t =>
                match caught t with
                | Ret error =>
                    let c := FalClient._handleError this error in
                    (Ret (FalClient.VideoFailed
                            (mkFailure (requestId amb) (FalClient.c_message c)
                               (FalClient.type c) (FalClient.c_details c))), w')
                | Throw t' => (Throw t', w')
                end
            end
        | (Throw t, w') =>
            match caught t with
            | Ret error =>
                let c := FalClient._handleError this error in
                (Ret (FalClient.VideoFailed
                        (mkFailure (requestId amb) (FalClient.c_message c)
                           (FalClient.type c) (FalClient.c_details c))), w')
            | Throw t' => (Throw t', w')
            end
        end.
Proof.
  intros Hv. destruct (validVideo_printable params Hv) as [Pd Pa].
  unfold validVideo in Hv.
  destruct (validateInput_ok _ _ _ Hv) as (p & d & Ep & Ed).
  { apply defaulted_defined. discriminate. }
  unfold FalClient.generateVideo. rewrite Hv, Pd, Pa, Ep, Ed.
  unfold FalClient.payload. eexists. split; [reflexivity |].
  intros tr w. step.
  destruct (FalClient._makeRequestWithRetry _ _ _ tr w) as [[response | t] w'].
  - destruct (dataProp (data response) "video_url") as [u | t]; simpl.
    + destruct (dataProp (data response) "estimated_time") as [u' | t]; simpl.
      * destruct (interpolate u) as [[] | t]; simpl; [reflexivity |].
        destruct (caught t); reflexivity.
      * destruct (caught t); reflexivity.
    + destruct (caught t); reflexivity.
  - destruct (caught t); reflexivity.
Qed.

(** A rejected input never reaches the transport. *)
Lemma generateVideo_invalid this amb params tr w :
  ~ validVideo params ->
  snd (FalClient.generateVideo this amb params tr w) = w.
Proof.
  intros Hv. unfold validVideo in Hv. unfold FalClient.generateVideo.
  destruct (FalClient.prompt params) as [| | | | p |] eqn:Ep; try reflexivity.
  unfold bind, lift, tryCatch, ret. cbn [substringOf].
  destruct (interpolate (defaulted (FalClient.duration params) (JNum 5)))
    as [[] | t]; [| reflexivity].
  destruct (interpolate (defaulted (FalClient.aspectRatio params) (JStr "16:9")))
    as [[] | t]; [| reflexivity].
  destruct (FalClient._validateInput _ _ _) as [[] | t]; [congruence |].
  destruct (caught t); reflexivity.
Qed.

(** The trace of an accepted [generateVideo] is the trace of its
    request. *)
Lemma generateVideo_trace this amb params :
  validVideo params ->
  exists payload,
    forall tr w,
      snd (FalClient.generateVideo this amb params tr w)
      = snd (FalClient._makeRequestWithRetry this "/fal-ai/pika-1.0" payload tr w).
Proof.
  intros Hv. destruct (generateVideo_valid this amb params Hv) as (payload & _ & E).
  exists payload. intros tr w. rewrite E.
  destruct (FalClient._makeRequestWithRetry _ _ _ tr w) as [[response | t] w'].
  - destruct (dataProp (data response) "video_url") as [u | t]; simpl.
    + destruct (dataProp (data response) "estimated_time") as [u' | t]; simpl.
      * destruct (interpolate u) as [[] | t]; simpl; [reflexivity |].
        destruct (caught t); reflexivity.
      * destruct (caught t); reflexivity.
    + destruct (caught t); reflexivity.
  - destruct (caught t); reflexivity.
Qed.

(** A failure thrown by the request of an accepted [generateVideo] comes
    back classified. *)
Lemma generateVideo_classifies this amb params :
  validVideo params ->
  exists payload,
    forall tr w e w',
      FalClient._makeRequestWithRetry this "/fal-ai/pika-1.0" payload tr w
      = (Throw (ThrowError e), w') ->
      FalClient.generateVideo this amb params tr w
      = (Ret (FalClient.VideoFailed
                (mkFailure (requestId amb)
                   (FalClient.c_message (FalClient._handleError this e))
                   (FalClient.type (FalClient._handleError this e))
                   (FalClient.c_details (FalClient._handleError this e)))), w').
Proof.
  intros Hv. destruct (generateVideo_valid this amb params Hv) as (payload & _ & E).
  exists payload. intros tr w e w' H. rewrite E, H. reflexivity.
Qed.

(** [generateVideo] of a client with [maxRetries] retries sends at most
    [maxRetries + 1] requests, whatever the input and the transport. *)
Lemma generateVideo_calls_le this amb params tr :
  (calls (FalClient.generateVideo this amb params) tr
   <= FalClient.maxRetries this + 1)%nat.
Proof.
  unfold calls, run.
  destruct (validVideo_dec params) as [Hv | Hv].
  - destruct (generateVideo_trace this amb params Hv) as (payload & E).
    rewrite E. unfold FalClient._makeRequestWithRetry.
    apply (retryLoop_calls_le this _ _ 1%nat ThrowNull tr []).
  - rewrite (generateVideo_invalid this amb params tr [] Hv).
    apply Nat.le_0_l.
Qed.

(** *** The claims on the retry policy *)

(** C1 (as the code behaves): the claim that no failure with a 4xx status
    is ever retried does not hold of the retry loop.  The loop gives up at
    once on 401, 402, 403 and 429 only; on every other 4xx status, 400
    among them, a client built by the constructor pauses two seconds and
    sends the request a second time, so the transport is invoked twice. *)
Theorem C1_other_4xx_status_is_retried key this tr status endpoint data :
  FalClient.new key = Ret this ->
  (400 <= status < 500)%Z ->
  givesUpOn status = false ->
  alwaysFailsWith status tr ->
  calls (FalClient._makeRequestWithRetry this endpoint data) tr = 2%nat
  /\ In (Slept 2000) (snd (run (FalClient._makeRequestWithRetry this endpoint data) tr)).
Proof.
  intros Hnew _ Hg Htr. apply FalClient_new_inv in Hnew. subst this.
  unfold calls, run, FalClient._makeRequestWithRetry.
  cbn [FalClient.maxRetries Nat.add].
  set (req := FalClient.request _ _ _).
  destruct (failsWith_inv _ _ (Htr 0%nat req)) as (e1 & r1 & E1 & R1 & S1).
  destruct (failsWith_inv _ _ (Htr 1%nat req)) as (e2 & r2 & E2 & R2 & S2).
  cbn [FalClient.retryLoop]. unfold bind, send, sleep, ret, throw.
  cbn [transportCalls filter List.length isSent].
  rewrite E1. rewrite (noRetry_givesUpOn _ _ R1), S1, Hg.
  cbn [FalClient.maxRetries Nat.leb transportCalls filter List.length isSent].
  rewrite E2. rewrite (noRetry_givesUpOn _ _ R2), S2, Hg.
  cbn. split; [reflexivity | auto].
Qed.

Lemma C1_other_4xx_status_is_retried_witness :
  calls (FalClient._makeRequestWithRetry
           demoFal
           "/fal-ai/pika-1.0" (JObj []))
        (alwaysStatus 400) = 2%nat
  /\ In (Slept 2000)
        (snd (run (FalClient._makeRequestWithRetry
                     demoFal
                     "/fal-ai/pika-1.0" (JObj []))
                  (alwaysStatus 400))).
Proof.
  apply (C1_other_4xx_status_is_retried demoKey _
           (alwaysStatus 400) 400 "/fal-ai/pika-1.0" (JObj [])).
  - reflexivity.
  - lia.
  - reflexivity.
  - intros n req. reflexivity.
Defined.

(** C2: against a transport that fails every attempt with HTTP status
    500, the request-with-retry of a Fal client built by the constructor
    invokes the transport at most twice (exactly twice: one attempt and
    one retry) and the failure it throws is classified SERVER_ERROR;
    [generateVideo] invokes it at most twice on every input, and on every
    accepted input returns a failure of type SERVER_ERROR. *)
Theorem C2_retry_bound_500 key this tr :
  FalClient.new key = Ret this ->
  alwaysFailsWith 500 tr ->
  (forall endpoint data,
     (calls (FalClient._makeRequestWithRetry this endpoint data) tr <= 2)%nat
     /\ calls (FalClient._makeRequestWithRetry this endpoint data) tr = 2%nat
     /\ exists e,
          outcome (FalClient._makeRequestWithRetry this endpoint data) tr
          = Throw (ThrowError e)
          /\ FalClient.type (FalClient._handleError this e) = SERVER_ERROR)
  /\ (forall amb params,
        (calls (FalClient.generateVideo this amb params) tr <= 2)%nat
        /\ (validVideo params ->
            exists f,
              outcome (FalClient.generateVideo this amb params) tr
              = Ret (FalClient.VideoFailed f)
              /\ f_errorType f = SERVER_ERROR)).
Proof.
  intros Hnew Htr.
  assert (Hm : FalClient.maxRetries this = 1%nat).
  { apply FalClient_new_inv in Hnew. now subst this. }
  assert (Hreq : forall endpoint data,
             exists e w',
               FalClient._makeRequestWithRetry this endpoint data tr []
               = (Throw (ThrowError e), w')
               /\ transportCalls w' = 2%nat
               /\ FalClient.type (FalClient._handleError this e) = SERVER_ERROR).
  { intros endpoint data. unfold FalClient._makeRequestWithRetry. rewrite Hm.
    destruct (retryLoop_exhausts this (FalClient.request this endpoint data) 500 tr
                Htr eq_refl 1%nat 1%nat ThrowNull []) as (e & w' & E & F & C).
    exists e, w'. split; [exact E |]. split; [exact C |].
    destruct (failsWith_inv _ _ F) as (e' & r & Ee & Er & Es).
    inversion Ee; subst e'.
    rewrite (handleError_status this e r Er). cbn zeta. rewrite Es. reflexivity. }
  split.
  - intros endpoint data. destruct (Hreq endpoint data) as (e & w' & E & C & T).
    unfold calls, outcome, run. rewrite E. cbn [fst snd]. rewrite C.
    split; [lia |]. split; [reflexivity |]. now exists e.
  - intros amb params. split.
    + pose proof (generateVideo_calls_le this amb params tr) as H.
      rewrite Hm in H. exact H.
    + intros Hv.
      destruct (generateVideo_classifies this amb params Hv) as (payload & G).
      destruct (Hreq "/fal-ai/pika-1.0" payload) as (e & w' & E & C & T).
      unfold outcome, run. rewrite (G tr [] e w' E). cbn [fst].
      eexists. split; [reflexivity |]. exact T.
Qed.

Lemma C2_retry_bound_500_witness :
  calls (FalClient.generateVideo
           demoFal
           someAmbient sunset)
        (alwaysStatus 500) = 2%nat
  /\ (calls (FalClient._makeRequestWithRetry
               demoFal
               "/fal-ai/pika-1.0" (JObj []))
            (alwaysStatus 500) <= 2)%nat.
Proof.
  split; [reflexivity |].
  apply (C2_retry_bound_500 demoKey _ (alwaysStatus 500)).
  - reflexivity.
  - intros n req. reflexivity.
Defined.

(** A failure of a listed status, whichever attempt it answers first,
    ends the call after one request, for every value of [maxRetries]. *)
Lemma listed_status_is_not_retried this tr status endpoint data :
  givesUpOn status = true ->
  alwaysFailsWith status tr ->
  exists e,
    FalClient._makeRequestWithRetry this endpoint data tr []
    = (Throw (ThrowError e), [Sent (FalClient.request this endpoint data) (Rejected e)])
    /\ failsWith status (Rejected e).
Proof.
  intros Hg Htr. unfold FalClient._makeRequestWithRetry. rewrite Nat.add_1_r.
  exact (retryLoop_gives_up this (FalClient.request this endpoint data) status tr
           (FalClient.maxRetries this) 1%nat ThrowNull [] (Htr _ _) Hg).
Qed.

(** C3: against a transport that answers with HTTP status 401, the
    request-with-retry of a Fal client invokes the transport exactly once
    and never pauses for a retry; so does [generateVideo] on every
    accepted input. *)
Theorem C3_no_retry_401 this tr :
  alwaysFailsWith 401 tr ->
  (forall endpoint data,
     calls (FalClient._makeRequestWithRetry this endpoint data) tr = 1%nat
     /\ ~ In (Slept 2000)
          (snd (run (FalClient._makeRequestWithRetry this endpoint data) tr)))
  /\ (forall amb params,
        validVideo params ->
        calls (FalClient.generateVideo this amb params) tr = 1%nat).
Proof.
  intros Htr. split.
  - intros endpoint data.
    destruct (listed_status_is_not_retried this tr 401 endpoint data eq_refl Htr)
      as (e & E & _).
    unfold calls, run. rewrite E. cbn [snd]. split; [reflexivity |].
    intros [H | []]. discriminate.
  - intros amb params Hv.
    destruct (generateVideo_trace this amb params Hv) as (payload & G).
    destruct (listed_status_is_not_retried this tr 401 "/fal-ai/pika-1.0" payload
                eq_refl Htr) as (e & E & _).
    unfold calls, run. rewrite G, E. reflexivity.
Qed.

Lemma C3_no_retry_401_witness :
  calls (FalClient._makeRequestWithRetry
           demoFal
           "/fal-ai/pika-1.0" (JObj []))
        (alwaysStatus 401) = 1%nat.
Proof.
  apply (C3_no_retry_401 _ (alwaysStatus 401)).
  intros n req. reflexivity.
Defined.

(** *** The normalisation of the tuning parameters *)

Lemma Qltb_true a b : Qltb a b = true <-> (a < b)%Q.
Proof.
  unfold Qltb. rewrite negb_true_iff. split.
  - intros H. apply Qnot_le_lt. intros L. apply Qle_bool_iff in L. congruence.
  - intros H. destruct (Qle_bool b a) eqn:E; [| reflexivity].
    apply Qle_bool_iff in E. exfalso. exact (Qlt_not_le _ _ H E).
Qed.

Lemma Qltb_false a b : Qltb a b = false <-> (b <= a)%Q.
Proof.
  unfold Qltb. rewrite negb_false_iff. apply Qle_bool_iff.
Qed.

(** [Math.min(Math.max(x, 0), 1)] is the clamp of the document. *)
Lemma min_max_clamp01 x : (Qmin (Qmax x 0) 1 == clamp01 x)%Q.
Proof.
  unfold clamp01, Qgtb.
  destruct (Qltb x 0) eqn:E0.
  - apply Qltb_true in E0.
    rewrite (Q.max_r x 0) by (apply Qlt_le_weak; exact E0).
    apply Q.min_l. discriminate.
  - apply Qltb_false in E0. rewrite (Q.max_l x 0) by exact E0.
    destruct (Qltb 1 x) eqn:E1.
    + apply Qltb_true in E1. apply Q.min_r. apply Qlt_le_weak. exact E1.
    + apply Qltb_false in E1. apply Q.min_l. exact E1.
Qed.

Lemma clamp01_range x : (0 <= clamp01 x <= 1)%Q.
Proof.
  unfold clamp01, Qgtb.
  destruct (Qltb x 0) eqn:E0; [split; discriminate |].
  destruct (Qltb 1 x) eqn:E1; [split; discriminate |].
  apply Qltb_false in E0, E1. now split.
Qed.

Lemma clamp01_id x : (0 <= x <= 1)%Q -> clamp01 x = x.
Proof.
  intros [L U]. unfold clamp01, Qgtb.
  apply Qltb_false in L, U. now rewrite L, U.
Qed.

Lemma normalizedStability_spec v :
  (AudioRoute.normalizedStability (JNum v) == specNormalize v)%Q.
Proof.
  unfold AudioRoute.normalizedStability, specNormalize.
  destruct (Qgtb v 1); apply min_max_clamp01.
Qed.

Lemma normalizedSimilarity_spec v :
  (AudioRoute.normalizedSimilarity (JNum v) == specNormalize v)%Q.
Proof.
  unfold AudioRoute.normalizedSimilarity, specNormalize.
  destruct (Qgtb v 1); apply min_max_clamp01.
Qed.

(** C5: for a numeric stability or similarity [v] supplied by the caller,
    a value above 1 is normalised to [v / 100] clamped into [0,1], and a
    value in [0,1] is normalised to itself; the outcome always lies in
    [0,1]. *)
Theorem C5_tuning_normalization (v : Q) :
  ((1 < v)%Q ->
     (AudioRoute.normalizedStability (JNum v) == clamp01 (v / 100))%Q
     /\ (AudioRoute.normalizedSimilarity (JNum v) == clamp01 (v / 100))%Q)
  /\ ((0 <= v <= 1)%Q ->
        (AudioRoute.normalizedStability (JNum v) == v)%Q
        /\ (AudioRoute.normalizedSimilarity (JNum v) == v)%Q)
  /\ (0 <= AudioRoute.normalizedStability (JNum v) <= 1)%Q
  /\ (0 <= AudioRoute.normalizedSimilarity (JNum v) <= 1)%Q.
Proof.
  split; [| split; [| split]].
  - intros H. apply Qltb_true in H.
    rewrite normalizedStability_spec, normalizedSimilarity_spec.
    unfold specNormalize, Qgtb. rewrite H. split; reflexivity.
  - intros [L U].
    rewrite normalizedStability_spec, normalizedSimilarity_spec.
    unfold specNormalize, Qgtb. apply Qltb_false in U. rewrite U.
    rewrite (clamp01_id v) by (split; [exact L | apply Qltb_false; exact U]).
    split; reflexivity.
  - rewrite normalizedStability_spec. unfold specNormalize.
    destruct (Qgtb v 1); apply clamp01_range.
  - rewrite normalizedSimilarity_spec. unfold specNormalize.
    destruct (Qgtb v 1); apply clamp01_range.
Qed.

Lemma C5_tuning_normalization_witness :
  (AudioRoute.normalizedStability (JNum 50) == 1 # 2)%Q
  /\ (AudioRoute.normalizedSimilarity (JNum (7 # 10)) == 7 # 10)%Q.
Proof.
  split.
  - transitivity (clamp01 (50 / 100)); [| reflexivity].
    apply (proj1 (C5_tuning_normalization 50)). reflexivity.
  - apply (proj1 (proj2 (C5_tuning_normalization (7 # 10)))).
    split; discriminate.
Defined.

(** *** Base64 *)

Lemma unDigit_digit s : Base64.unDigit (Base64.digit s) = Some s.
Proof.
  destruct s as [[[[[x5 x4] x3] x2] x1] x0].
  destruct x5, x4, x3, x2, x1, x0; reflexivity.
Qed.

Lemma isPad_digit s : Base64.isPad (Base64.digit s) = false.
Proof.
  destruct s as [[[[[x5 x4] x3] x2] x1] x0].
  destruct x5, x4, x3, x2, x1, x0; reflexivity.
Qed.

Lemma isPad_pad : Base64.isPad Base64.pad = true.
Proof. reflexivity. Qed.

Lemma byte1_sextets a b :
  Base64.byte1 (Base64.sextet1 (Byte.to_bits a))
               (Base64.sextet2 (Byte.to_bits a) b) = a.
Proof.
  rewrite <- (Byte.of_bits_to_bits a) at 3.
  destruct (Byte.to_bits a) as (a0 & a1 & a2 & a3 & a4 & a5 & a6 & a7).
  destruct b as (b0 & b1 & b2 & b3 & b4 & b5 & b6 & b7).
  reflexivity.
Qed.

Lemma byte2_sextets a b c :
  Base64.byte2 (Base64.sextet2 a (Byte.to_bits b))
               (Base64.sextet3 (Byte.to_bits b) c) = b.
Proof.
  rewrite <- (Byte.of_bits_to_bits b) at 3.
  destruct (Byte.to_bits b) as (b0 & b1 & b2 & b3 & b4 & b5 & b6 & b7).
  destruct a as (a0 & a1 & a2 & a3 & a4 & a5 & a6 & a7).
  destruct c as (c0 & c1 & c2 & c3 & c4 & c5 & c6 & c7).
  reflexivity.
Qed.

Lemma byte3_sextets b c :
  Base64.byte3 (Base64.sextet3 b (Byte.to_bits c))
               (Base64.sextet4 (Byte.to_bits c)) = c.
Proof.
  rewrite <- (Byte.of_bits_to_bits c) at 3.
  destruct (Byte.to_bits c) as (c0 & c1 & c2 & c3 & c4 & c5 & c6 & c7).
  destruct b as (b0 & b1 & b2 & b3 & b4 & b5 & b6 & b7).
  reflexivity.
Qed.

(** Lists three elements at a time. *)
Lemma list_ind3 {A} (P : list A -> Prop) :
  P [] -> (forall a, P [a]) -> (forall a b, P [a; b]) ->
  (forall a b c l, P l -> P (a :: b :: c :: l)) ->
  forall l, P l.
Proof.
  intros H0 H1 H2 H3.
  fix IH 1. intros [| a [| b [| c l]]].
  - exact H0.
  - apply H1.
  - apply H2.
  - apply H3. apply IH.
Qed.

(** Decoding undoes encoding. *)
Lemma decode_encode bs : Base64.decode (Base64.encode bs) = Some bs.
Proof.
  induction bs as [| a | a b | a b c l IH] using list_ind3.
  - reflexivity.
  - cbn [Base64.encode Base64.decode]. unfold Base64.decodeQuad.
    rewrite !unDigit_digit, !isPad_pad, byte1_sextets. reflexivity.
  - cbn [Base64.encode Base64.decode]. unfold Base64.decodeQuad.
    rewrite !unDigit_digit, !isPad_digit, !isPad_pad, byte1_sextets, byte2_sextets.
    reflexivity.
  - cbn [Base64.encode Base64.decode]. unfold Base64.decodeQuad.
    rewrite !unDigit_digit, !isPad_digit, byte1_sextets, byte2_sextets, byte3_sextets.
    rewrite IH. reflexivity.
Qed.

(** The encoding loses nothing: two buffers with the same base64 text
    are the same buffer. *)
Lemma encode_injective bs bs' : Base64.encode bs = Base64.encode bs' -> bs = bs'.
Proof.
  intros H. apply (f_equal Base64.decode) in H.
  rewrite !decode_encode in H. now inversion H.
Qed.

(** *** [generateSpeech] of the ElevenLabs client *)

Lemma speech_validateInput_ok text voiceId :
  ElevenLabs._validateInput text voiceId = Ret tt ->
  exists t v, text = JStr t /\ voiceId = JStr v /\ truthy voiceId = true.
Proof.
  unfold ElevenLabs._validateInput, throwNew. intros H.
  destruct text as [| | | | t |]; try discriminate.
  destruct (negb (truthy (JStr t))); [discriminate |].
  destruct (String.length (trim t) =? 0)%nat; [discriminate |].
  destruct (5000 <? String.length t)%nat; [discriminate |].
  destruct voiceId as [| | | | v |]; try discriminate.
  destruct (truthy (JStr v)) eqn:T; [| discriminate].
  now exists t, v.
Qed.

Lemma validSpeech_dec text voiceId :
  validSpeech text voiceId \/ ~ validSpeech text voiceId.
Proof.
  unfold validSpeech. destruct (ElevenLabs._validateInput _ _) as [[] | th].
  - now left.
  - right. discriminate.
Qed.

(** What [_validateInput] throws is a plain [Error]: no response, no
    code. *)
Lemma speech_validateInput_throws text voiceId th :
  ElevenLabs._validateInput text voiceId = Throw th ->
  exists msg, th = ThrowError (newError (JS.text msg)).
Proof.
  unfold ElevenLabs._validateInput, throwNew. intros H.
  repeat match type of H with
         | match ?x with _ => _ end = _ => destruct x
         | (if ?b then _ else _) = _ => destruct b
         | Throw _ = Throw _ => inversion H; clear H; eexists; reflexivity
         | Ret _ = Throw _ => discriminate
         end.
Qed.

(** The classifier of [generateSpeech] has no branch for
    INVALID_VOICE_ID. *)
Lemma classify_not_invalid_voice amb e :
  f_errorType (ElevenLabs.classify amb e) <> INVALID_VOICE_ID.
Proof.
  unfold ElevenLabs.classify.
  repeat match goal with
         | |- context [match ?x with _ => _ end] => destruct x; try discriminate
         end.
Qed.

(** The second logging line prints the voice id, before the disabled
    test and before validation: a voice id that cannot be printed stops
    the call there. *)
Lemma generateSpeech_not_printable this amb t voiceId stability similarity tr w :
  ~ printable voiceId ->
  ElevenLabs.generateSpeech this amb (JStr t) voiceId stability similarity tr w
  = (Throw notPrintable, w).
Proof.
  intros H. apply not_printable in H. unfold ElevenLabs.generateSpeech.
  rewrite (interpolate_defaulted voiceId (JStr ElevenLabs.defaultVoiceId) eq_refl), H.
  reflexivity.
Qed.

(** A disabled client answers at once. *)
Lemma generateSpeech_disabled this amb t voiceId stability similarity tr w :
  ElevenLabs.disabled this = true ->
  printable voiceId ->
  ElevenLabs.generateSpeech this amb (JStr t) voiceId stability similarity tr w
  = (Ret (ElevenLabs.SpeechFailed
            (mkFailure (requestId amb)
               (JS.text "ElevenLabs service is disabled - API key not configured")
               SERVICE_DISABLED DAbsent)), w).
Proof.
  intros H P. unfold ElevenLabs.generateSpeech.
  rewrite (interpolate_defaulted voiceId (JStr ElevenLabs.defaultVoiceId) eq_refl), P, H.
  reflexivity.
Qed.

(** A text that is not a string stops the call in its first logging
    line, before the disabled test and before validation. *)
Lemma generateSpeech_not_string this amb text voiceId stability similarity tr w :
  isString text = false ->
  exists msg,
    ElevenLabs.generateSpeech this amb text voiceId stability similarity tr w
    = (Throw (ThrowError (typeError msg)), w).
Proof.
  intros H. unfold ElevenLabs.generateSpeech.
  destruct text; try discriminate; eexists; reflexivity.
Qed.

(** An enabled client rejects an input that fails validation as
    UNKNOWN_ERROR, without a request. *)
Lemma generateSpeech_invalid this amb t voiceId stability similarity tr w :
  ElevenLabs.disabled this = false ->
  printable voiceId ->
  ~ validSpeech (JStr t) voiceId ->
  exists f,
    ElevenLabs.generateSpeech this amb (JStr t) voiceId stability similarity tr w
    = (Ret (ElevenLabs.SpeechFailed f), w)
    /\ f_errorType f = UNKNOWN_ERROR.
Proof.
  intros Hd P Hv. unfold validSpeech in Hv. unfold ElevenLabs.generateSpeech.
  rewrite (interpolate_defaulted voiceId (JStr ElevenLabs.defaultVoiceId) eq_refl), P, Hd.
  unfold bind, lift, tryCatch, ret. cbn [substringOf].
  destruct (ElevenLabs._validateInput _ _) as [[] | th] eqn:E; [congruence |].
  destruct (speech_validateInput_throws _ _ _ E) as (msg & ->).
  eexists. split; reflexivity.
Qed.

(** An enabled client sends exactly one request for an accepted input,
    and turns its outcome into a result. *)
Lemma generateSpeech_valid this amb text voiceId stability similarity :
  ElevenLabs.disabled this = false ->
  validSpeech text voiceId ->
  exists req t,
    text = JStr t /\
    forall tr w,
      snd (ElevenLabs.generateSpeech this amb text voiceId stability similarity tr w)
      = Sent req (tr (transportCalls w) req) :: w
      /\ (forall e,
            tr (transportCalls w) req = Rejected e ->
            fst (ElevenLabs.generateSpeech this amb text voiceId stability similarity tr w)
            = Ret (ElevenLabs.SpeechFailed (ElevenLabs.classify amb e)))
      /\ (forall status headers bytes,
            tr (transportCalls w) req
            = Fulfilled (mkResponse status headers (Binary bytes)) ->
            fst (ElevenLabs.generateSpeech this amb text voiceId stability similarity tr w)
            = Ret (ElevenLabs.SpeechOk
                     (ElevenLabs.mkSuccess (requestId amb) (Base64.encode bytes)
                        "audio/mpeg" (List.length bytes)
                        (ElevenLabs._estimateAudioDuration t) text
                        (defaulted voiceId (JStr ElevenLabs.defaultVoiceId))
                        (isoNow amb))))
      /\ (exists r,
            fst (ElevenLabs.generateSpeech this amb text voiceId stability similarity tr w)
            = Ret r
            /\ ElevenLabs.errorType r <> Some INVALID_VOICE_ID).
Proof.
  intros Hd Hv. unfold validSpeech in Hv.
  destruct (speech_validateInput_ok _ _ Hv) as (t & v & Et & Ev & Tv).
  unfold ElevenLabs.generateSpeech. rewrite Hd, Hv, Ev, Et.
  cbn [isString negb orb]. change (truthy (JStr v)) with (negb (String.eqb v "")).
  rewrite Ev in Tv. cbn [truthy] in Tv. rewrite Tv.
  exists (ElevenLabs.request this (ElevenLabs.validVoiceId v)
            (ElevenLabs.payload t (ElevenLabs.validVoiceId v)
               (defaulted stability (JNum (5 # 10)))
               (defaulted similarity (JNum (8 # 10))))), t.
  split; [reflexivity |]. intros tr w.
  unfold bind, lift, tryCatch, ret, axios, send, throw. cbn.
  destruct (tr _ _) as [resp | e].
  - destruct resp as [st hs [j | bytes]].
    + destruct j; cbn.
      all: (split; [reflexivity |]; split; [discriminate |]; split; [discriminate |]).
      all: eexists; split; [reflexivity | discriminate].
    + cbn. split; [reflexivity |]. split; [discriminate |]. split.
      * intros st' hs' bytes' H. inversion H; subst. reflexivity.
      * eexists. split; [reflexivity | discriminate].
  - cbn. split; [reflexivity |]. split.
    + intros e' H. inversion H; subst. reflexivity.
    + split; [discriminate |]. eexists. split; [reflexivity |].
      cbn. intros H. inversion H as [H']. exact (classify_not_invalid_voice amb e H').
Qed.

(** *** The disabled ElevenLabs client *)

Lemma new_disabled_iff key :
  ElevenLabs.disabled (ElevenLabs.new key) = true <-> credentialRejected key.
Proof.
  unfold ElevenLabs.new, ElevenLabs._validateApiKey, credentialRejected.
  cbn [ElevenLabs.disabled].
  destruct key as [k |]; cbn [envTruthy]; [| tauto].
  destruct k as [| c k]; cbn [String.eqb negb].
  - cbn. split; [lia | reflexivity].
  - cbn [String.eqb negb]. destruct (Nat.ltb_spec (String.length (String c k)) 10).
    + tauto.
    + split; [discriminate | lia].
Qed.





(** *** A required field that is missing, not a string, or blank *)

Lemma blank_not_validVideo s duration aspectRatio :
  trim s = "" -> ~ validVideo (FalClient.mkParams (JStr s) duration aspectRatio).
Proof.
  intros Ht. unfold validVideo, FalClient._validateInput. cbn [FalClient.prompt].
  rewrite Ht. cbn [String.length Nat.eqb].
  destruct (negb (truthy (JStr s))); discriminate.
Qed.

Lemma blank_not_validSpeech s voiceId :
  trim s = "" -> ~ validSpeech (JStr s) voiceId.
Proof.
  intros Ht. unfold validSpeech, ElevenLabs._validateInput.
  rewrite Ht. cbn [String.length Nat.eqb].
  destruct (negb (truthy (JStr s))); discriminate.
Qed.

(** What [FalClient._validateInput] throws is a plain [Error]. *)
Lemma validateInput_throws prompt duration aspectRatio th :
  FalClient._validateInput prompt duration aspectRatio = Throw th ->
  exists msg, th = ThrowError (newError (text msg)).
Proof.
  unfold FalClient._validateInput, throwNew. intros H.
  repeat match type of H with
         | match ?x with _ => _ end = _ => destruct x
         | (if ?b then _ else _) = _ => destruct b
         | Throw _ = Throw _ => inversion H; clear H; eexists; reflexivity
         | Ret _ = Throw _ => discriminate
         end.
Qed.

(** A string prompt that fails validation comes back as an UNKNOWN_ERROR
    failure whose message quotes the validator, without a request. *)
Lemma generateVideo_rejects this amb p duration aspectRatio tr w :
  printable duration ->
  printable aspectRatio ->
  ~ validVideo (FalClient.mkParams (JStr p) duration aspectRatio) ->
  exists msg,
    FalClient.generateVideo this amb (FalClient.mkParams (JStr p) duration aspectRatio)
      tr w
    = (Ret (FalClient.VideoFailed
              (mkFailure (requestId amb) [Lit "Unexpected error: "; Lit msg]
                 UNKNOWN_ERROR (DStack (newError (text msg))))), w).
Proof.
  intros Pd Pa Hv. unfold validVideo in Hv. unfold FalClient.generateVideo.
  cbn [FalClient.prompt FalClient.duration FalClient.aspectRatio] in *.
  rewrite (interpolate_defaulted duration (JNum 5) eq_refl), Pd.
  rewrite (interpolate_defaulted aspectRatio (JStr "16:9") eq_refl), Pa.
  unfold bind, lift, tryCatch, ret. cbn [substringOf].
  destruct (FalClient._validateInput _ _ _) as [[] | th] eqn:E; [congruence |].
  destruct (validateInput_throws _ _ _ _ E) as (msg & ->).
  exists msg. reflexivity.
Qed.

(** The second logging line prints the duration and the aspect ratio,
    before the [try]: a value that cannot be printed stops the call
    there. *)
Lemma generateVideo_not_printable this amb p duration aspectRatio tr w :
  ~ printable duration \/ ~ printable aspectRatio ->
  FalClient.generateVideo this amb (FalClient.mkParams (JStr p) duration aspectRatio)
    tr w
  = (Throw notPrintable, w).
Proof.
  intros H. unfold FalClient.generateVideo.
  cbn [FalClient.prompt FalClient.duration FalClient.aspectRatio].
  rewrite (interpolate_defaulted duration (JNum 5) eq_refl).
  rewrite (interpolate_defaulted aspectRatio (JStr "16:9") eq_refl).
  unfold bind, lift. cbn [substringOf].
  destruct (interpolate_cases duration) as [Ed | Ed]; rewrite Ed; [| reflexivity].
  destruct (interpolate_cases aspectRatio) as [Ea | Ea]; rewrite Ea; [| reflexivity].
  exfalso. destruct H as [H | H]; now apply H.
Qed.

(** Whatever makes the required field unusable, the transport is never
    invoked and nothing comes back as a success. *)
Lemma unusable_field_never_reaches_transport v :
  fieldUnusable v ->
  (forall this amb duration aspectRatio tr,
      calls (FalClient.generateVideo this amb
               (FalClient.mkParams v duration aspectRatio)) tr = 0%nat
      /\ forall r,
           outcome (FalClient.generateVideo this amb
                      (FalClient.mkParams v duration aspectRatio)) tr = Ret r ->
           FalClient.success r = false)
  /\ (forall this amb voiceId stability similarity tr,
        calls (ElevenLabs.generateSpeech this amb v voiceId stability similarity) tr
        = 0%nat
        /\ forall r,
             outcome (ElevenLabs.generateSpeech this amb v voiceId stability
                        similarity) tr = Ret r ->
             ElevenLabs.success r = false).
Proof.
  intros [Hs | (s & -> & Ht)]; split; intros; unfold calls, outcome, run.
  - unfold FalClient.generateVideo. cbn [FalClient.prompt].
    destruct v; try discriminate; cbn; split; try reflexivity; discriminate.
  - destruct (generateSpeech_not_string this amb v voiceId stability similarity tr []
                Hs) as (msg & E).
    rewrite E. split; [reflexivity | discriminate].
  - destruct (printable_dec duration) as [Pd | Pd];
      [destruct (printable_dec aspectRatio) as [Pa | Pa] |].
    + destruct (generateVideo_rejects this amb s duration aspectRatio tr [] Pd Pa
                  (blank_not_validVideo s duration aspectRatio Ht)) as (msg & E).
      rewrite E. split; [reflexivity |]. intros r H. inversion H. reflexivity.
    + rewrite (generateVideo_not_printable this amb s duration aspectRatio tr []
                 (or_intror Pa)).
      split; [reflexivity | discriminate].
    + rewrite (generateVideo_not_printable this amb s duration aspectRatio tr []
                 (or_introl Pd)).
      split; [reflexivity | discriminate].
  - destruct (printable_dec voiceId) as [P | P].
    + destruct (ElevenLabs.disabled this) eqn:Hd.
      * rewrite (generateSpeech_disabled this amb s voiceId stability similarity tr []
                   Hd P).
        split; [reflexivity |]. intros r H. inversion H. reflexivity.
      * destruct (generateSpeech_invalid this amb s voiceId stability similarity tr []
                    Hd P (blank_not_validSpeech s voiceId Ht)) as (f & E & _).
        rewrite E. split; [reflexivity |]. intros r H. inversion H. reflexivity.
    + rewrite (generateSpeech_not_printable this amb s voiceId stability similarity
                 tr [] P).
      split; [reflexivity | discriminate].
Qed.

(** C6 (as the code behaves): a required field that is missing or not a
    string is not rejected by validation.  Both generate operations read
    [substring] and [length] of the field in their first logging line,
    before [_validateInput] runs (and, in the speech client, before the
    disabled test), so the call ends in a [TypeError] that is thrown to
    the caller; the validator's "is required and must be a string" is never
    produced for such a field.  The transport is not invoked. *)
Theorem C6_non_string_field_throws_before_validation v :
  isString v = false ->
  (forall this amb duration aspectRatio tr,
      exists msg,
        outcome (FalClient.generateVideo this amb
                   (FalClient.mkParams v duration aspectRatio)) tr
        = Throw (ThrowError (typeError msg))
        /\ calls (FalClient.generateVideo this amb
                    (FalClient.mkParams v duration aspectRatio)) tr = 0%nat)
  /\ (forall this amb voiceId stability similarity tr,
        exists msg,
          outcome (ElevenLabs.generateSpeech this amb v voiceId stability similarity) tr
          = Throw (ThrowError (typeError msg))
          /\ calls (ElevenLabs.generateSpeech this amb v voiceId stability
                      similarity) tr = 0%nat).
Proof.
  intros Hs. split; intros.
  - unfold outcome, calls, run, FalClient.generateVideo. cbn [FalClient.prompt].
    destruct v; try discriminate; cbn; eexists; split; reflexivity.
  - destruct (generateSpeech_not_string this amb v voiceId stability similarity tr []
                Hs) as (msg & E).
    exists msg. unfold outcome, calls, run. rewrite E. split; reflexivity.
Qed.

Lemma C6_non_string_field_throws_before_validation_witness :
  exists msg,
    outcome (FalClient.generateVideo
               demoFal
               someAmbient (FalClient.mkParams JUndefined (JNum 5) (JStr "16:9")))
            alwaysAudio
    = Throw (ThrowError (typeError msg))
    /\ calls (FalClient.generateVideo
                demoFal
                someAmbient (FalClient.mkParams JUndefined (JNum 5) (JStr "16:9")))
             alwaysAudio = 0%nat.
Proof.
  apply (C6_non_string_field_throws_before_validation JUndefined). reflexivity.
Defined.

(** *** Failures as results, failures as exceptions *)

Lemma makeRequestWithRetry_not_null this endpoint data tr w :
  fst (FalClient._makeRequestWithRetry this endpoint data tr w) <> Throw ThrowNull.
Proof.
  unfold FalClient._makeRequestWithRetry. apply retryLoop_not_null. lia.
Qed.

Lemma dataProp_throws b k t : dataProp b k = Throw t -> exists e, t = ThrowError e.
Proof.
  unfold dataProp. intros H.
  destruct b as [[| | | | |] |]; try discriminate; inversion H; eexists; reflexivity.
Qed.

(** [generateVideo] of the Fal client, given a string prompt and a
    duration and an aspect ratio that can be printed, returns a result
    for every transport: it does not throw. *)
Lemma generateVideo_returns this amb p duration aspectRatio tr w :
  printable duration ->
  printable aspectRatio ->
  exists r,
    fst (FalClient.generateVideo this amb
           (FalClient.mkParams (JStr p) duration aspectRatio) tr w) = Ret r.
Proof.
  intros Pd Pa.
  set (params := FalClient.mkParams (JStr p) duration aspectRatio).
  destruct (validVideo_dec params) as [Hv | Hv].
  - destruct (generateVideo_valid this amb params Hv) as (payload & _ & E).
    rewrite E.
    pose proof (makeRequestWithRetry_not_null this "/fal-ai/pika-1.0" payload tr w) as N.
    destruct (FalClient._makeRequestWithRetry _ _ _ tr w) as [[response | t] w'].
    + destruct (dataProp (data response) "video_url") as [u | t] eqn:E1.
      * destruct (dataProp (data response) "estimated_time") as [u' | t] eqn:E2.
        -- destruct (interpolate_cases u) as [Eu | Eu]; rewrite Eu;
             eexists; reflexivity.
        -- destruct (dataProp_throws _ _ _ E2) as (e & ->). eexists. reflexivity.
      * destruct (dataProp_throws _ _ _ E1) as (e & ->). eexists. reflexivity.
    + destruct t as [e |]; [eexists; reflexivity |]. now contradiction N.
  - destruct (generateVideo_rejects this amb p duration aspectRatio tr w Pd Pa Hv)
      as (msg & E).
    subst params. rewrite E. eexists. reflexivity.
Qed.

(** What [generateVideo] of the Fal client throws is the [TypeError] of
    one of its two logging lines before the [try], so before any
    request. *)
Lemma generateVideo_throws this amb params tr w t :
  fst (FalClient.generateVideo this amb params tr w) = Throw t ->
  (exists msg, t = ThrowError (typeError msg))
  /\ snd (FalClient.generateVideo this amb params tr w) = w
  /\ (isString (FalClient.prompt params) = false
      \/ ~ printable (FalClient.duration params)
      \/ ~ printable (FalClient.aspectRatio params)).
Proof.
  destruct params as [prompt duration aspectRatio]. cbn [FalClient.prompt
    FalClient.duration FalClient.aspectRatio].
  destruct (isString prompt) eqn:Hs.
  - destruct prompt as [| | | | p |]; try discriminate.
    destruct (printable_dec duration) as [Pd | Pd];
      [destruct (printable_dec aspectRatio) as [Pa | Pa] |].
    + destruct (generateVideo_returns this amb p duration aspectRatio tr w Pd Pa)
        as (r & E).
      rewrite E. discriminate.
    + rewrite (generateVideo_not_printable this amb p duration aspectRatio tr w
                 (or_intror Pa)).
      intros H. inversion H. split; [eexists; reflexivity |]. split; [reflexivity |].
      right. now right.
    + rewrite (generateVideo_not_printable this amb p duration aspectRatio tr w
                 (or_introl Pd)).
      intros H. inversion H. split; [eexists; reflexivity |]. split; [reflexivity |].
      right. now left.
  - unfold FalClient.generateVideo. cbn [FalClient.prompt].
    destruct prompt; try discriminate; cbn; intros H; inversion H;
      (split; [eexists; reflexivity |]); (split; [reflexivity |]); now left.
Qed.

(** [generateSpeech], given a string text and a voice id that can be
    printed, returns a result for every transport: it does not throw. *)
Lemma generateSpeech_returns this amb t voiceId stability similarity tr w :
  printable voiceId ->
  exists r,
    fst (ElevenLabs.generateSpeech this amb (JStr t) voiceId stability similarity tr w)
    = Ret r
    /\ ElevenLabs.errorType r <> Some INVALID_VOICE_ID.
Proof.
  intros P. destruct (ElevenLabs.disabled this) eqn:Hd.
  - rewrite (generateSpeech_disabled this amb t voiceId stability similarity tr w Hd P).
    eexists. split; [reflexivity | discriminate].
  - destruct (validSpeech_dec (JStr t) voiceId) as [Hv | Hv].
    + destruct (generateSpeech_valid this amb (JStr t) voiceId stability similarity
                  Hd Hv) as (req & t' & _ & H).
      destruct (H tr w) as (_ & _ & _ & R). exact R.
    + destruct (generateSpeech_invalid this amb t voiceId stability similarity tr w
                  Hd P Hv) as (f & E & T).
      rewrite E. eexists. split; [reflexivity |]. cbn. rewrite T. discriminate.
Qed.

(** What [generateSpeech] throws is the [TypeError] of one of its two
    logging lines before the disabled test, so before any request. *)
Lemma generateSpeech_throws this amb text voiceId stability similarity tr w t :
  fst (ElevenLabs.generateSpeech this amb text voiceId stability similarity tr w)
  = Throw t ->
  (exists msg, t = ThrowError (typeError msg))
  /\ snd (ElevenLabs.generateSpeech this amb text voiceId stability similarity tr w) = w
  /\ (isString text = false \/ ~ printable voiceId).
Proof.
  destruct (isString text) eqn:Hs.
  - destruct text as [| | | | s |]; try discriminate.
    destruct (printable_dec voiceId) as [P | P].
    + destruct (generateSpeech_returns this amb s voiceId stability similarity tr w P)
        as (r & E & _).
      rewrite E. discriminate.
    + rewrite (generateSpeech_not_printable this amb s voiceId stability similarity
                 tr w P).
      intros H. inversion H. split; [eexists; reflexivity |]. split; [reflexivity |].
      now right.
  - destruct (generateSpeech_not_string this amb text voiceId stability similarity tr w
                Hs) as (msg & E).
    rewrite E. intros H. inversion H. split; [now exists msg |].
    split; [reflexivity |]. now left.
Qed.

(** Every branch of the [catch] block of [FalVideo.generateVideo]
    throws. *)
Lemma rethrow_throws e : exists t, FalVideo.rethrow e = Throw t.
Proof.
  unfold FalVideo.rethrow, throwNew.
  repeat match goal with
         | |- context [match ?x with _ => _ end] => destruct x
         end; eexists; reflexivity.
Qed.





(** *** A provider that answers 429 *)

Lemma answered_nil status : ~ answered status [].
Proof. intros (req & out & [] & _). Qed.

Lemma classify_status_429 amb e :
  failsWith 429 (Rejected e) ->
  f_errorType (ElevenLabs.classify amb e) = RATE_LIMITED.
Proof.
  intros F. destruct (failsWith_inv _ _ F) as (e' & r & E & Er & Es).
  inversion E; subst e'. unfold ElevenLabs.classify. rewrite Er, Es. reflexivity.
Qed.

Lemma handleError_status_429 this e :
  failsWith 429 (Rejected e) ->
  FalClient.type (FalClient._handleError this e) = RATE_LIMITED.
Proof.
  intros F. destruct (failsWith_inv _ _ F) as (e' & r & E & Er & Es).
  inversion E; subst e'. rewrite (handleError_status this e r Er).
  cbn zeta. rewrite Es. reflexivity.
Qed.

(** If the provider answered any attempt of a [generateVideo] call with
    429, the call returns the RATE_LIMITED failure. *)
Lemma generateVideo_answered_429 this amb params tr r w' :
  FalClient.generateVideo this amb params tr [] = (r, w') ->
  answered 429 w' ->
  exists f, r = Ret (FalClient.VideoFailed f) /\ f_errorType f = RATE_LIMITED.
Proof.
  intros G A.
  destruct (validVideo_dec params) as [Hv | Hv].
  - destruct (generateVideo_valid this amb params Hv) as (payload & _ & E).
    rewrite E in G. unfold FalClient._makeRequestWithRetry in G.
    destruct (retryLoop_answered this (FalClient.request this "/fal-ai/pika-1.0" payload)
                429 eq_refl (FalClient.maxRetries this + 1) 1%nat ThrowNull tr [])
      as (evs & r0 & R & K).
    rewrite R in G. rewrite app_nil_r in G.
    assert (W : w' = evs).
    { destruct r0 as [response | t].
      - destruct (dataProp (data response) "video_url") as [u |];
          [destruct (dataProp (data response) "estimated_time");
             [destruct (interpolate u) as [[] |] |] |];
          try destruct (caught _); now inversion G.
      - destruct (caught t); now inversion G. }
    subst w'. destruct (K A) as (e & -> & F).
    cbn in G. inversion G.
    eexists. split; [reflexivity |]. cbn. now apply handleError_status_429.
  - pose proof (generateVideo_invalid this amb params tr [] Hv) as S.
    rewrite G in S. cbn in S. subst w'. now apply answered_nil in A.
Qed.

(** If the provider answered the request of a [generateSpeech] call with
    429, the call returns the RATE_LIMITED failure. *)
Lemma generateSpeech_answered_429 this amb text voiceId stability similarity tr r w' :
  ElevenLabs.generateSpeech this amb text voiceId stability similarity tr [] = (r, w') ->
  answered 429 w' ->
  exists f, r = Ret (ElevenLabs.SpeechFailed f) /\ f_errorType f = RATE_LIMITED.
Proof.
  intros G A.
  destruct (isString text) eqn:Hs.
  - destruct text as [| | | | t |]; try discriminate.
    destruct (printable_dec voiceId) as [P | P];
      [| rewrite (generateSpeech_not_printable this amb t voiceId stability
                    similarity tr [] P) in G;
         inversion G; subst; now apply answered_nil in A].
    destruct (ElevenLabs.disabled this) eqn:Hd.
    + rewrite (generateSpeech_disabled this amb t voiceId stability similarity tr []
                 Hd P) in G.
      inversion G; subst. now apply answered_nil in A.
    + destruct (validSpeech_dec (JStr t) voiceId) as [Hv | Hv].
      * destruct (generateSpeech_valid this amb (JStr t) voiceId stability similarity
                    Hd Hv) as (req & t' & _ & H).
        destruct (H tr []) as (S & Rj & _ & _).
        rewrite G in S, Rj. cbn [fst snd] in S, Rj. subst w'.
        destruct A as (rq & out & [I | []] & F). inversion I; subst rq out.
        destruct (failsWith_inv _ _ F) as (e & r1 & E & Er & Es).
        rewrite (Rj e E). eexists. split; [reflexivity |].
        apply classify_status_429. rewrite <- E. exact F.
      * destruct (generateSpeech_invalid this amb t voiceId stability similarity tr []
                    Hd P Hv) as (f & E & _).
        rewrite E in G. inversion G; subst. now apply answered_nil in A.
  - destruct (generateSpeech_not_string this amb text voiceId stability similarity
                tr [] Hs) as (msg & E).
    rewrite E in G. inversion G; subst. now apply answered_nil in A.
Qed.

Lemma videoRoute_answered_429 client ctx amb svcAmb reqBody tr :
  answered 429 (snd (run (VideoRoute.postGenerate client ctx amb svcAmb reqBody) tr)) ->
  exists reply,
    outcome (VideoRoute.postGenerate client ctx amb svcAmb reqBody) tr = Ret reply
    /\ statusCode reply = 429%Z
    /\ replySuccess reply = false
    /\ replyErrorType reply = Some RATE_LIMITED.
Proof.
  unfold outcome, run, VideoRoute.postGenerate, systemError.
  unfold bind, lift, tryCatch, ret.
  destruct (optSubstringOf _); [| intros A; now apply answered_nil in A].
  destruct (errorsEmpty ctx); cbn [negb];
    [| intros A; now apply answered_nil in A].
  destruct client as [client |]; [| intros A; now apply answered_nil in A].
  destruct (envTruthy (API_KEY ctx)); cbn [negb];
    [| intros A; now apply answered_nil in A].
  destruct (FalClient.generateVideo client svcAmb _ tr []) as [r w'] eqn:G.
  intros A.
  assert (A' : answered 429 w').
  { destruct r as [[s | f] | t]; [exact A | exact A |].
    destruct (caught t); exact A. }
  destruct (generateVideo_answered_429 _ _ _ _ _ _ G A') as (f & -> & T).
  eexists. split; [reflexivity |]. cbn. rewrite T. repeat split.
Qed.

Lemma audioRoute_answered_429 service ctx amb svcAmb reqBody tr :
  answered 429 (snd (run (AudioRoute.postTts service ctx amb svcAmb reqBody) tr)) ->
  exists reply,
    outcome (AudioRoute.postTts service ctx amb svcAmb reqBody) tr = Ret reply
    /\ statusCode reply = 429%Z
    /\ replySuccess reply = false
    /\ replyErrorType reply = Some RATE_LIMITED.
Proof.
  unfold outcome, run, AudioRoute.postTts, systemError.
  unfold bind, lift, tryCatch, ret.
  destruct (optSubstringOf _); [| intros A; now apply answered_nil in A].
  destruct (errorsEmpty ctx); cbn [negb];
    [| intros A; now apply answered_nil in A].
  destruct service as [service |]; [| intros A; now apply answered_nil in A].
  destruct (envTruthy (API_KEY ctx)); cbn [negb];
    [| intros A; now apply answered_nil in A].
  destruct (ElevenLabs.generateSpeech service svcAmb _ _ _ _ tr []) as [r w'] eqn:G.
  intros A.
  assert (A' : answered 429 w').
  { destruct r as [[s | f] | t]; [exact A | exact A |].
    destruct (caught t); exact A. }
  destruct (generateSpeech_answered_429 _ _ _ _ _ _ _ _ _ G A') as (f & -> & T).
  eexists. split; [reflexivity |]. cbn. rewrite T. repeat split.
Qed.

(** *** The audio of a speech result *)

(** C9: when the provider answers the request of [generateSpeech] with
    binary audio, the [audioBase64] field of the result decodes, by
    base64, to exactly the bytes of the answer, and [audioSize] is their
    number. *)
Theorem C9_audio_base64_round_trip this amb text voiceId stability similarity
    bytes tr :
  ElevenLabs.disabled this = false ->
  validSpeech text voiceId ->
  answersAudio bytes tr ->
  exists r,
    outcome (ElevenLabs.generateSpeech this amb text voiceId stability similarity) tr
    = Ret (ElevenLabs.SpeechOk r)
    /\ Base64.decode (ElevenLabs.audioBase64 r) = Some bytes
    /\ ElevenLabs.audioSize r = List.length bytes.
Proof.
  intros Hd Hv Htr.
  destruct (generateSpeech_valid this amb text voiceId stability similarity Hd Hv)
    as (req & t & _ & H).
  destruct (H tr []) as (_ & _ & Ok & _).
  destruct (Htr (transportCalls []) req) as (status & headers & E).
  unfold outcome, run. rewrite (Ok status headers bytes E).
  eexists. split; [reflexivity |]. cbn [ElevenLabs.audioBase64 ElevenLabs.audioSize].
  split; [apply decode_encode | reflexivity].
Qed.

Lemma C9_audio_base64_round_trip_witness :
  exists r,
    outcome (ElevenLabs.generateSpeech (ElevenLabs.new demoKey) someAmbient
               (JStr "Hello world") JUndefined JUndefined JUndefined) alwaysAudio
    = Ret (ElevenLabs.SpeechOk r)
    /\ Base64.decode (ElevenLabs.audioBase64 r) = Some ["I"%byte; "D"%byte; "3"%byte]
    /\ ElevenLabs.audioSize r = 3%nat.
Proof.
  apply (C9_audio_base64_round_trip (ElevenLabs.new demoKey) someAmbient
           (JStr "Hello world") JUndefined JUndefined JUndefined
           ["I"%byte; "D"%byte; "3"%byte] alwaysAudio).
  - reflexivity.
  - reflexivity.
  - intros n req. exists 200%Z, []. reflexivity.
Defined.

(** *** The voice id *)





(* ================================================================== *)
(** ** Further properties of the clients and the routes *)
(* ================================================================== *)

(** *** The shape of a retried request *)

Section RetryShape.

Variable this : FalClient.FalClientService.
Variable req : Request.

(** One run of the loop, entered with [attempt + n = maxRetries + 1] and
    [S n] iterations left: one pause less than requests, at most [S n]
    requests, nothing but this request and pauses of two seconds, and the
    result is the answer to the latest request. *)
Lemma retryLoop_shape n :
  forall attempt last tr w,
    (attempt + n = FalClient.maxRetries this + 1)%nat ->
    exists evs r,
      FalClient.retryLoop this req (S n) attempt last tr w = (r, (evs ++ w)%list)
      /\ transportCalls evs = (pauses evs + 1)%nat
      /\ (transportCalls evs <= S n)%nat
      /\ Forall (loopEvent req) evs
      /\ endsWith r evs.
Proof.
  assert (One : forall (k : nat) (out : Outcome) (r : Result HttpResponse) w,
             endsWith r [Sent req out] ->
             ([Sent req out] ++ w)%list = Sent req out :: w
             /\ transportCalls [Sent req out] = (pauses [Sent req out] + 1)%nat
             /\ (transportCalls [Sent req out] <= S k)%nat
             /\ Forall (loopEvent req) [Sent req out]
             /\ endsWith r [Sent req out]).
  { intros k out r w K. split; [reflexivity |]. split; [reflexivity |].
    split; [cbn; lia |]. split; [| exact K]. repeat constructor. }
  induction n as [| n IH]; intros attempt last tr w Ha.
  - cbn [FalClient.retryLoop]. unfold bind at 1. unfold send at 1.
    destruct (tr (transportCalls w) req) as [r | e] eqn:Eo.
    + exists [Sent req (Fulfilled r)], (Ret r).
      destruct (One 0%nat (Fulfilled r) (Ret r) w eq_refl) as (E & H).
      split; [now rewrite E | exact H].
    + assert (K : endsWith (Throw (ThrowError e)) [Sent req (Rejected e)]).
      { cbn. now exists e. }
      destruct (One 0%nat (Rejected e) (Throw (ThrowError e)) w K) as (E & H).
      exists [Sent req (Rejected e)], (Throw (ThrowError e)).
      split; [| exact H]. rewrite E.
      destruct (FalClient.noRetry e); [reflexivity |].
      assert (Hs : (attempt <=? FalClient.maxRetries this)%nat = false).
      { apply Nat.leb_gt. lia. }
      rewrite Hs. reflexivity.
  - cbn [FalClient.retryLoop]. unfold bind at 1. unfold send at 1.
    destruct (tr (transportCalls w) req) as [r | e] eqn:Eo.
    + exists [Sent req (Fulfilled r)], (Ret r).
      destruct (One (S n) (Fulfilled r) (Ret r) w eq_refl) as (E & H).
      split; [now rewrite E | exact H].
    + destruct (FalClient.noRetry e).
      * assert (K : endsWith (Throw (ThrowError e)) [Sent req (Rejected e)]).
        { cbn. now exists e. }
        destruct (One (S n) (Rejected e) (Throw (ThrowError e)) w K) as (E & H).
        exists [Sent req (Rejected e)], (Throw (ThrowError e)).
        split; [now rewrite E | exact H].
      * assert (Hs : (attempt <=? FalClient.maxRetries this)%nat = true).
        { apply Nat.leb_le. lia. }
        rewrite Hs. unfold bind at 1. unfold sleep at 1.
        destruct (IH (S attempt) (ThrowError e) tr
                    (Slept 2000 :: Sent req (Rejected e) :: w))
          as (evs & r & E & C & L & F & K); [lia |].
        exists (evs ++ [Slept 2000; Sent req (Rejected e)])%list, r.
        split; [rewrite <- app_assoc; exact E |].
        unfold transportCalls, pauses in *. rewrite !filter_app, !length_app.
        cbn [filter isSent isSlept List.length].
        split; [lia |]. split; [lia |]. split.
        -- apply Forall_app. split; [exact F |].
           repeat constructor.
        -- destruct evs as [| ev evs']; [destruct K |]. exact K.
Qed.

(** Against failures that the loop retries, every iteration is used and
    the last failure is thrown. *)
Lemma retryLoop_exhausts_all (P : Error -> Prop) tr :
  (forall n rq, exists e, tr n rq = Rejected e /\ FalClient.noRetry e = false /\ P e) ->
  forall n attempt last w,
    exists e w',
      FalClient.retryLoop this req (S n) attempt last tr w = (Throw (ThrowError e), w')
      /\ P e
      /\ transportCalls w' = (transportCalls w + S n)%nat.
Proof.
  intros Htr. induction n as [| n IH]; intros attempt last w;
    destruct (Htr (transportCalls w) req) as (e & Eo & En & Pe);
    cbn [FalClient.retryLoop]; unfold bind at 1; unfold send at 1;
    rewrite Eo, En; unfold bind at 1.
  - exists e. destruct (attempt <=? FalClient.maxRetries this)%nat;
      eexists; (split; [reflexivity |]); (split; [exact Pe |]);
      unfold transportCalls; cbn; lia.
  - destruct (attempt <=? FalClient.maxRetries this)%nat.
    + unfold sleep at 1.
      destruct (IH (S attempt) (ThrowError e) (Slept 2000 :: Sent req (Rejected e) :: w))
        as (e' & w' & E & Pe' & C).
      exists e', w'. split; [exact E |]. split; [exact Pe' |].
      rewrite C. unfold transportCalls. cbn. lia.
    + unfold ret at 1.
      destruct (IH (S attempt) (ThrowError e) (Sent req (Rejected e) :: w))
        as (e' & w' & E & Pe' & C).
      exists e', w'. split; [exact E |]. split; [exact Pe' |].
      rewrite C. unfold transportCalls. cbn. lia.
Qed.

(** The order of the events of one run of the loop: the trace ends with
    a request, the result is what that request settled as, and every
    event before it belongs to an attempt that failed, was retried and was
    followed by a pause. *)
Lemma retryLoop_order n :
  forall attempt last tr w,
    (attempt + n = FalClient.maxRetries this + 1)%nat ->
    retried req w ->
    exists out w',
      FalClient.retryLoop this req (S n) attempt last tr w
      = (settled out, Sent req out :: w')
      /\ retried req w'.
Proof.
  induction n as [| n IH]; intros attempt last tr w Ha Hw;
    cbn [FalClient.retryLoop]; unfold bind at 1; unfold send at 1;
    destruct (tr (transportCalls w) req) as [r | e] eqn:Eo.
  - exists (Fulfilled r), w. split; [reflexivity | exact Hw].
  - exists (Rejected e), w. split; [| exact Hw].
    destruct (FalClient.noRetry e); [reflexivity |].
    assert (Hs : (attempt <=? FalClient.maxRetries this)%nat = false).
    { apply Nat.leb_gt. lia. }
    rewrite Hs. reflexivity.
  - exists (Fulfilled r), w. split; [reflexivity | exact Hw].
  - destruct (FalClient.noRetry e) eqn:En.
    + exists (Rejected e), w. split; [reflexivity | exact Hw].
    + assert (Hs : (attempt <=? FalClient.maxRetries this)%nat = true).
      { apply Nat.leb_le. lia. }
      rewrite Hs. unfold bind at 1. unfold sleep at 1.
      apply (IH (S attempt) (ThrowError e) tr
                (Slept 2000 :: Sent req (Rejected e) :: w)); [lia |].
      cbn [retried]. now repeat split.
Qed.

End RetryShape.

(** X1: a call of [_makeRequestWithRetry], for any client, endpoint,
    payload and transport, sends between one and [maxRetries + 1]
    requests, all of them the same request.  In the order of time its
    trace is: an attempt that failed with an error the loop retries, a
    pause of two seconds, the next such attempt, a pause, and so on, and
    at the end one request with no pause after it; so there is exactly
    one pause between two consecutive requests and none anywhere else.
    The call returns or throws what that last request was answered. *)
Theorem retry_pauses_between_attempts this endpoint data tr :
  let w := snd (run (FalClient._makeRequestWithRetry this endpoint data) tr) in
  let r := outcome (FalClient._makeRequestWithRetry this endpoint data) tr in
  (1 <= transportCalls w <= FalClient.maxRetries this + 1)%nat
  /\ (pauses w + 1 = transportCalls w)%nat
  /\ Forall (loopEvent (FalClient.request this endpoint data)) w
  /\ endsWith r w
  /\ exists out earlier,
       w = Sent (FalClient.request this endpoint data) out :: earlier
       /\ retried (FalClient.request this endpoint data) earlier
       /\ r = settled out.
Proof.
  unfold outcome, run, FalClient._makeRequestWithRetry. rewrite Nat.add_1_r.
  destruct (retryLoop_shape this (FalClient.request this endpoint data)
              (FalClient.maxRetries this) 1%nat ThrowNull tr [])
    as (evs & r & E & C & L & F & K); [lia |].
  destruct (retryLoop_order this (FalClient.request this endpoint data)
              (FalClient.maxRetries this) 1%nat ThrowNull tr [])
    as (out & earlier & E' & R); [lia | exact I |].
  rewrite E' in E. injection E as Er Ew. rewrite app_nil_r in Ew. subst r evs.
  rewrite E'. cbn [fst snd].
  split; [lia |]. split; [lia |]. split; [exact F |]. split; [exact K |].
  exists out, earlier. now repeat split.
Qed.

(** *** From the video route to the client *)

Lemma defaulted_idem v d : defaulted (defaulted v d) d = defaulted v d.
Proof. destruct v; try reflexivity. destruct d; reflexivity. Qed.

(** The defaults the route applies are the defaults of the client. *)
Lemma generateVideo_defaults this amb params :
  FalClient.generateVideo this amb
    (FalClient.mkParams (FalClient.prompt params)
       (defaulted (FalClient.duration params) (JNum 5))
       (defaulted (FalClient.aspectRatio params) (JStr "16:9")))
  = FalClient.generateVideo this amb params.
Proof.
  unfold FalClient.generateVideo.
  cbn [FalClient.prompt FalClient.duration FalClient.aspectRatio].
  rewrite !defaulted_idem. reflexivity.
Qed.

Lemma validVideo_string params :
  validVideo params -> exists p, FalClient.prompt params = JStr p.
Proof.
  intros Hv. destruct (validateInput_ok _ _ _ Hv) as (p & d & Ep & _).
  - apply defaulted_defined. discriminate.
  - now exists p.
Qed.

(** Past its guards, the handler of [POST /generate] is the client
    followed by the status table. *)
Lemma postGenerate_reaches client ctx amb svcAmb reqBody tr :
  optSubstringOf (FalClient.prompt reqBody) = Ret tt ->
  passes ctx ->
  VideoRoute.postGenerate (Some client) ctx amb svcAmb reqBody tr []
  = match FalClient.generateVideo client svcAmb reqBody tr [] with
    | (Ret (FalClient.VideoOk r), w) => (Ret (mkReply 200 (Succeeded r)), w)
    | (Ret (FalClient.VideoFailed f), w) =>
        (Ret (mkReply (VideoRoute._getStatusCodeForError (f_errorType f))
                (Failed (mkErrorReply (f_error f) (f_errorType f) (f_details f)
                           (requestId amb)
                           (Some (VideoRoute._getUserFriendlyMessage (f_errorType f)))))),
         w)
    | (Throw t, w) => systemError amb (NODE_ENV ctx) t tr w
    end.
Proof.
  intros Hp [He Hk]. unfold VideoRoute.postGenerate.
  unfold bind at 1. unfold lift at 1. rewrite Hp.
  unfold tryCatch. rewrite He, Hk. cbn [negb].
  unfold bind at 1. rewrite generateVideo_defaults.
  destruct (FalClient.generateVideo client svcAmb reqBody tr []) as [[[r | f] | t] w];
    reflexivity.
Qed.




(** *** The switch on [error.code] *)

(** The three string cases of the classifiers, as comparisons. *)
Lemma code_switch {A} (c : option string) (a b d : A) :
  match c with
  | Some "ECONNABORTED" => a
  | Some "ENOTFOUND" | Some "ECONNREFUSED" => b
  | _ => d
  end
  = match c with
    | Some s =>
        if String.eqb s "ECONNABORTED" then a
        else if String.eqb s "ENOTFOUND" || String.eqb s "ECONNREFUSED" then b
        else d
    | None => d
    end.
Proof.
  destruct c as [s |]; [| reflexivity].
  repeat match goal with
         | |- context [match ?x with _ => _ end] =>
             is_var x; destruct x; try reflexivity
         end.
Qed.

(** The type [FalClient._handleError] gives a network failure. *)
Lemma handleError_network this e :
  response e = None ->
  FalClient.type (FalClient._handleError this e)
  = match code e with
    | Some s =>
        if String.eqb s "" then UNKNOWN_ERROR
        else if String.eqb s "ECONNABORTED" then TIMEOUT
        else NETWORK_ERROR
    | None => UNKNOWN_ERROR
    end.
Proof.
  intros H. unfold FalClient._handleError. rewrite H, code_switch.
  destruct (code e) as [s |]; cbn [envTruthy]; [| reflexivity].
  destruct (String.eqb s ""); cbn [negb]; [reflexivity |].
  destruct (String.eqb s "ECONNABORTED"); [reflexivity |].
  destruct (String.eqb s "ENOTFOUND" || String.eqb s "ECONNREFUSED"); reflexivity.
Qed.

(** The type the [catch] block of [generateSpeech] gives a network
    failure. *)
Lemma classify_network amb e :
  response e = None ->
  f_errorType (ElevenLabs.classify amb e)
  = match code e with
    | Some s =>
        if String.eqb s "ECONNABORTED" then TIMEOUT
        else if String.eqb s "ENOTFOUND" || String.eqb s "ECONNREFUSED"
        then NETWORK_ERROR
        else UNKNOWN_ERROR
    | None => UNKNOWN_ERROR
    end.
Proof.
  intros H. unfold ElevenLabs.classify. rewrite H, code_switch.
  destruct (code e) as [s |]; [| reflexivity].
  destruct (String.eqb s "ECONNABORTED"); [reflexivity |].
  destruct (String.eqb s "ENOTFOUND" || String.eqb s "ECONNREFUSED"); reflexivity.
Qed.

(** The type the [catch] block of [generateSpeech] gives a failure
    answered by the provider. *)
Lemma classify_status amb e r :
  response e = Some r ->
  f_errorType (ElevenLabs.classify amb e)
  = let s := JS.status r in
    if (s =? 401)%Z then INVALID_API_KEY
    else if (s =? 404)%Z then INVALID_VOICE_OR_URL
    else if (s =? 429)%Z then RATE_LIMITED
    else if (s =? 400)%Z then BAD_REQUEST
    else if (s =? 402)%Z then PAYMENT_REQUIRED
    else if (s =? 500)%Z || (s =? 502)%Z || (s =? 503)%Z || (s =? 504)%Z
    then SERVER_ERROR
    else API_ERROR.
Proof.
  intros H. unfold ElevenLabs.classify. rewrite H. cbn zeta.
  repeat match goal with
         | |- context [if ?b then _ else _] => destruct b; try reflexivity
         end.
Qed.

Ltac eqb_cases :=
  repeat match goal with
         | |- context [(?a =? ?b)%Z] => destruct (Z.eqb_spec a b); subst
         end;
  cbn; try reflexivity; try lia.

Lemma videoOutwardStatus_spec this e r :
  response e = Some r ->
  VideoRoute._getStatusCodeForError (FalClient.type (FalClient._handleError this e))
  = videoOutwardStatus (JS.status r).
Proof.
  intros H. rewrite (handleError_status this e r H). cbn zeta.
  unfold videoOutwardStatus. generalize (JS.status r). intros s. eqb_cases.
Qed.

Lemma audioOutwardStatus_spec amb e r :
  response e = Some r ->
  AudioRoute._getStatusCodeForError (f_errorType (ElevenLabs.classify amb e))
  = audioOutwardStatus (JS.status r).
Proof.
  intros H. rewrite (classify_status amb e r H). cbn zeta.
  unfold audioOutwardStatus. generalize (JS.status r). intros s. eqb_cases.
Qed.

(** Against a provider that fails every request with [status], the
    request-with-retry of a client built by the constructor throws such a
    failure after one request (a listed status) or two. *)
Lemma makeRequest_always_fails key this endpoint data status tr :
  FalClient.new key = Ret this ->
  alwaysFailsWith status tr ->
  exists e w',
    FalClient._makeRequestWithRetry this endpoint data tr [] = (Throw (ThrowError e), w')
    /\ failsWith status (Rejected e)
    /\ transportCalls w' = (if givesUpOn status then 1 else 2)%nat.
Proof.
  intros Hnew Htr.
  assert (Hm : FalClient.maxRetries this = 1%nat).
  { apply FalClient_new_inv in Hnew. now subst this. }
  destruct (givesUpOn status) eqn:Hg.
  - destruct (listed_status_is_not_retried this tr status endpoint data Hg Htr)
      as (e & E & F).
    exists e. eexists. split; [exact E |]. split; [exact F | reflexivity].
  - unfold FalClient._makeRequestWithRetry. rewrite Hm.
    destruct (retryLoop_exhausts this (FalClient.request this endpoint data) status tr
                Htr Hg 1%nat 1%nat ThrowNull []) as (e & w' & E & F & C).
    exists e, w'. split; [exact E |]. split; [exact F | exact C].
Qed.

(** X3: the outward status of [POST /generate] as a function of the
    provider's failure status.  For a client built by the constructor, an
    accepted body and a provider that fails every attempt with [status],
    the reply has [success] false and HTTP status 402, 403 or 429 for the
    same provider status, 503 for 500, 502, 503 and 504, and 500 for
    every other status (401, 400 and 404 among them); the transport was
    invoked once for 401, 402, 403 and 429 and twice otherwise. *)
Theorem video_outward_status_table key this ctx amb svcAmb reqBody tr status :
  FalClient.new key = Ret this ->
  passes ctx ->
  validVideo reqBody ->
  alwaysFailsWith status tr ->
  exists reply,
    outcome (VideoRoute.postGenerate (Some this) ctx amb svcAmb reqBody) tr = Ret reply
    /\ statusCode reply = videoOutwardStatus status
    /\ replySuccess reply = false
    /\ calls (VideoRoute.postGenerate (Some this) ctx amb svcAmb reqBody) tr
       = (if givesUpOn status then 1 else 2)%nat.
Proof.
  intros Hnew Hc Hv Htr.
  destruct (validVideo_string reqBody Hv) as (p & Ep).
  destruct (generateVideo_classifies this svcAmb reqBody Hv) as (payload & G).
  destruct (makeRequest_always_fails key this "/fal-ai/pika-1.0" payload status tr
              Hnew Htr) as (e & w' & E & F & C).
  destruct (failsWith_inv _ _ F) as (e' & r & Ee & Er & Es). inversion Ee; subst e'.
  unfold outcome, calls, run.
  rewrite (postGenerate_reaches this ctx amb svcAmb reqBody tr) by
    (try exact Hc; rewrite Ep; reflexivity).
  rewrite (G tr [] e w' E). cbn [fst snd].
  eexists. split; [reflexivity |]. cbn [statusCode f_errorType].
  rewrite (videoOutwardStatus_spec this e r Er), Es.
  split; [reflexivity |]. split; [reflexivity | exact C].
Qed.

Lemma video_outward_status_table_witness :
  exists reply,
    outcome (VideoRoute.postGenerate (Some demoFal) okContext someAmbient someAmbient
               sunset) (alwaysStatus 404) = Ret reply
    /\ statusCode reply = 500%Z
    /\ replySuccess reply = false
    /\ calls (VideoRoute.postGenerate (Some demoFal) okContext someAmbient someAmbient
                sunset) (alwaysStatus 404) = 2%nat.
Proof.
  apply (video_outward_status_table demoKey demoFal okContext someAmbient someAmbient
           sunset (alwaysStatus 404) 404).
  - reflexivity.
  - split; reflexivity.
  - reflexivity.
  - intros n req. reflexivity.
Defined.

(** X4: a network failure behind [POST /generate].  For a client built by
    the constructor and an accepted body, when every attempt fails without
    an answer and with error code [c], the request is sent twice and the
    reply has [success] false; it is TIMEOUT with status 503 for
    ECONNABORTED, NETWORK_ERROR with status 503 for any other non-empty
    code, and UNKNOWN_ERROR with status 500 when the error carries no
    code. *)
Theorem video_network_failure key this ctx amb svcAmb reqBody tr c :
  FalClient.new key = Ret this ->
  passes ctx ->
  validVideo reqBody ->
  networkFails c tr ->
  exists reply,
    outcome (VideoRoute.postGenerate (Some this) ctx amb svcAmb reqBody) tr = Ret reply
    /\ calls (VideoRoute.postGenerate (Some this) ctx amb svcAmb reqBody) tr = 2%nat
    /\ replySuccess reply = false
    /\ (c = Some "ECONNABORTED" ->
        replyErrorType reply = Some TIMEOUT /\ statusCode reply = 503%Z)
    /\ (envTruthy c = true -> c <> Some "ECONNABORTED" ->
        replyErrorType reply = Some NETWORK_ERROR /\ statusCode reply = 503%Z)
    /\ (envTruthy c = false ->
        replyErrorType reply = Some UNKNOWN_ERROR /\ statusCode reply = 500%Z).
Proof.
  intros Hnew Hc Hv Htr.
  assert (Hm : FalClient.maxRetries this = 1%nat).
  { apply FalClient_new_inv in Hnew. now subst this. }
  destruct (validVideo_string reqBody Hv) as (p & Ep).
  destruct (generateVideo_classifies this svcAmb reqBody Hv) as (payload & G).
  destruct (retryLoop_exhausts_all this (FalClient.request this "/fal-ai/pika-1.0" payload)
              (fun e => response e = None /\ code e = c) tr) with
    (n := 1%nat) (attempt := 1%nat) (last := ThrowNull) (w := @nil Event)
    as (e & w' & E & (Er & Ec) & C).
  { intros n rq. destruct (Htr n rq) as (e & Eo & Er & Ec).
    exists e. split; [exact Eo |]. split; [| now split].
    unfold FalClient.noRetry. now rewrite Er. }
  unfold outcome, calls, run.
  rewrite (postGenerate_reaches this ctx amb svcAmb reqBody tr) by
    (try exact Hc; rewrite Ep; reflexivity).
  unfold FalClient._makeRequestWithRetry in G. rewrite Hm in G.
  rewrite (G tr [] e w' E). cbn [fst snd].
  eexists. split; [reflexivity |]. split; [exact C |]. split; [reflexivity |].
  unfold replyErrorType. cbn [body statusCode e_errorType f_errorType].
  rewrite (handleError_network this e Er), Ec.
  split; [| split].
  - intros ->. split; reflexivity.
  - intros Ht Hn. destruct c as [s |]; [| discriminate]. cbn [envTruthy] in Ht.
    apply negb_true_iff in Ht. rewrite Ht.
    destruct (String.eqb_spec s "ECONNABORTED"); [subst; congruence |].
    split; reflexivity.
  - intros Hf. destruct c as [s |]; [| split; reflexivity].
    cbn [envTruthy] in Hf. apply negb_false_iff in Hf. rewrite Hf. split; reflexivity.
Qed.

Lemma video_network_failure_witness :
  exists reply,
    outcome (VideoRoute.postGenerate (Some demoFal) okContext someAmbient someAmbient
               sunset) (alwaysCode "EAI_AGAIN") = Ret reply
    /\ replyErrorType reply = Some NETWORK_ERROR
    /\ statusCode reply = 503%Z.
Proof.
  destruct (video_network_failure demoKey demoFal okContext someAmbient someAmbient
              sunset (alwaysCode "EAI_AGAIN") (Some "EAI_AGAIN"))
    as (reply & E & _ & _ & _ & N & _).
  - reflexivity.
  - split; reflexivity.
  - reflexivity.
  - intros n req. eexists. split; [reflexivity |]. split; reflexivity.
  - exists reply. split; [exact E |]. apply N; [reflexivity | discriminate].
Defined.

(** *** From the audio route to the client *)

Lemma generateSpeech_defaults this amb text voiceId stability similarity :
  ElevenLabs.generateSpeech this amb text
    (defaulted voiceId (JStr ElevenLabs.defaultVoiceId)) stability similarity
  = ElevenLabs.generateSpeech this amb text voiceId stability similarity.
Proof.
  unfold ElevenLabs.generateSpeech. rewrite defaulted_idem. reflexivity.
Qed.

Lemma validSpeech_string text voiceId :
  validSpeech text voiceId -> exists t, text = JStr t.
Proof.
  intros Hv. destruct (speech_validateInput_ok _ _ Hv) as (t & v & Et & _).
  now exists t.
Qed.

(** Past its guards, the handler of [POST /tts] is the client, called
    with the normalised tuning parameters, followed by the status
    table. *)
Lemma postTts_reaches service ctx amb svcAmb reqBody tr :
  optSubstringOf (AudioRoute.text reqBody) = Ret tt ->
  passes ctx ->
  AudioRoute.postTts (Some service) ctx amb svcAmb reqBody tr []
  = match ElevenLabs.generateSpeech service svcAmb (AudioRoute.text reqBody)
            (AudioRoute.voiceId reqBody)
            (JNum (AudioRoute.normalizedStability (AudioRoute.stability reqBody)))
            (JNum (AudioRoute.normalizedSimilarity (AudioRoute.similarity reqBody)))
            tr [] with
    | (Ret (ElevenLabs.SpeechOk r), w) => (Ret (mkReply 200 (Succeeded r)), w)
    | (Ret (ElevenLabs.SpeechFailed f), w) =>
        (Ret (mkReply (AudioRoute._getStatusCodeForError (f_errorType f))
                (Failed (mkErrorReply (f_error f) (f_errorType f) (f_details f)
                           (requestId amb)
                           (Some (AudioRoute._getUserFriendlyMessage (f_errorType f)))))),
         w)
    | (Throw t, w) => systemError amb (NODE_ENV ctx) t tr w
    end.
Proof.
  intros Hp [He Hk]. unfold AudioRoute.postTts.
  unfold bind at 1. unfold lift at 1. rewrite Hp.
  unfold tryCatch. rewrite He, Hk. cbn [negb].
  unfold bind at 1. rewrite generateSpeech_defaults.
  destruct (ElevenLabs.generateSpeech service svcAmb _ _ _ _ tr []) as [[[r | f] | t] w];
    reflexivity.
Qed.

(** X5: the outward status of [POST /tts] as a function of the provider's
    failure status.  For an enabled client, an accepted body and a
    provider that fails the request with [status], the request is sent
    once and the reply has [success] false and HTTP status 400, 402 or
    429 for the same provider status, 503 for 500, 502, 503 and 504, and
    500 for every other status (401, 403 and 404 among them). *)
Theorem audio_outward_status_table service ctx amb svcAmb reqBody tr status :
  ElevenLabs.disabled service = false ->
  passes ctx ->
  validSpeech (AudioRoute.text reqBody) (AudioRoute.voiceId reqBody) ->
  alwaysFailsWith status tr ->
  exists reply,
    outcome (AudioRoute.postTts (Some service) ctx amb svcAmb reqBody) tr = Ret reply
    /\ statusCode reply = audioOutwardStatus status
    /\ replySuccess reply = false
    /\ calls (AudioRoute.postTts (Some service) ctx amb svcAmb reqBody) tr = 1%nat.
Proof.
  intros Hd Hc Hv Htr.
  destruct (validSpeech_string _ _ Hv) as (t & Et).
  destruct (generateSpeech_valid service svcAmb _ _
              (JNum (AudioRoute.normalizedStability (AudioRoute.stability reqBody)))
              (JNum (AudioRoute.normalizedSimilarity (AudioRoute.similarity reqBody)))
              Hd Hv) as (req & t' & _ & H).
  destruct (H tr []) as (S & Rj & _ & _).
  destruct (failsWith_inv _ _ (Htr (transportCalls []) req)) as (e & r & Eo & Er & Es).
  specialize (Rj e Eo).
  unfold outcome, calls, run.
  rewrite (postTts_reaches service ctx amb svcAmb reqBody tr) by
    (try exact Hc; rewrite Et; reflexivity).
  destruct (ElevenLabs.generateSpeech service svcAmb _ _ _ _ tr []) as [res w].
  cbn [fst snd] in S, Rj. subst res w. cbn [fst snd].
  eexists. split; [reflexivity |]. cbn [statusCode].
  rewrite (audioOutwardStatus_spec svcAmb e r Er), Es.
  split; [reflexivity |]. split; reflexivity.
Qed.

Lemma audio_outward_status_table_witness :
  exists reply,
    outcome (AudioRoute.postTts (AudioRoute.elevenLabsService demoKey) okContext
               someAmbient someAmbient
               (AudioRoute.mkBody (JStr "Hello world") JUndefined JUndefined JUndefined))
            (alwaysStatus 403) = Ret reply
    /\ statusCode reply = 500%Z
    /\ replySuccess reply = false
    /\ calls (AudioRoute.postTts (AudioRoute.elevenLabsService demoKey) okContext
                someAmbient someAmbient
                (AudioRoute.mkBody (JStr "Hello world") JUndefined JUndefined JUndefined))
             (alwaysStatus 403) = 1%nat.
Proof.
  apply (audio_outward_status_table (ElevenLabs.new demoKey) okContext someAmbient
           someAmbient
           (AudioRoute.mkBody (JStr "Hello world") JUndefined JUndefined JUndefined)
           (alwaysStatus 403) 403).
  - reflexivity.
  - split; reflexivity.
  - reflexivity.
  - intros n req. reflexivity.
Defined.

(** X6: a network failure behind [POST /tts].  For an enabled client and
    an accepted body, when the request fails without an answer and with
    error code [c], it is sent once, not retried, and the reply has
    [success] false; it is TIMEOUT with status 503 for ECONNABORTED,
    NETWORK_ERROR with status 503 for ENOTFOUND and ECONNREFUSED, and
    UNKNOWN_ERROR with status 500 for every other code and for none. *)
Theorem audio_network_failure service ctx amb svcAmb reqBody tr c :
  ElevenLabs.disabled service = false ->
  passes ctx ->
  validSpeech (AudioRoute.text reqBody) (AudioRoute.voiceId reqBody) ->
  networkFails c tr ->
  exists reply,
    outcome (AudioRoute.postTts (Some service) ctx amb svcAmb reqBody) tr = Ret reply
    /\ calls (AudioRoute.postTts (Some service) ctx amb svcAmb reqBody) tr = 1%nat
    /\ replySuccess reply = false
    /\ (c = Some "ECONNABORTED" ->
        replyErrorType reply = Some TIMEOUT /\ statusCode reply = 503%Z)
    /\ (c = Some "ENOTFOUND" \/ c = Some "ECONNREFUSED" ->
        replyErrorType reply = Some NETWORK_ERROR /\ statusCode reply = 503%Z)
    /\ (c <> Some "ECONNABORTED" -> c <> Some "ENOTFOUND" -> c <> Some "ECONNREFUSED" ->
        replyErrorType reply = Some UNKNOWN_ERROR /\ statusCode reply = 500%Z).
Proof.
  intros Hd Hc Hv Htr.
  destruct (validSpeech_string _ _ Hv) as (t & Et).
  destruct (generateSpeech_valid service svcAmb _ _
              (JNum (AudioRoute.normalizedStability (AudioRoute.stability reqBody)))
              (JNum (AudioRoute.normalizedSimilarity (AudioRoute.similarity reqBody)))
              Hd Hv) as (req & t' & _ & H).
  destruct (H tr []) as (S & Rj & _ & _).
  destruct (Htr (transportCalls []) req) as (e & Eo & Er & Ec).
  specialize (Rj e Eo).
  unfold outcome, calls, run.
  rewrite (postTts_reaches service ctx amb svcAmb reqBody tr) by
    (try exact Hc; rewrite Et; reflexivity).
  destruct (ElevenLabs.generateSpeech service svcAmb _ _ _ _ tr []) as [res w].
  cbn [fst snd] in S, Rj. subst res w. cbn [fst snd].
  eexists. split; [reflexivity |]. split; [reflexivity |]. split; [reflexivity |].
  unfold replyErrorType. cbn [body statusCode e_errorType].
  rewrite (classify_network svcAmb e Er), Ec.
  split; [| split].
  - intros ->. split; reflexivity.
  - intros [-> | ->]; split; reflexivity.
  - intros H1 H2 H3. destruct c as [s |]; [| split; reflexivity].
    destruct (String.eqb_spec s "ECONNABORTED"); [subst; congruence |].
    destruct (String.eqb_spec s "ENOTFOUND"); [subst; congruence |].
    destruct (String.eqb_spec s "ECONNREFUSED"); [subst; congruence |].
    split; reflexivity.
Qed.

Lemma audio_network_failure_witness :
  exists reply,
    outcome (AudioRoute.postTts (AudioRoute.elevenLabsService demoKey) okContext
               someAmbient someAmbient
               (AudioRoute.mkBody (JStr "Hello world") JUndefined JUndefined JUndefined))
            (alwaysCode "EAI_AGAIN") = Ret reply
    /\ replyErrorType reply = Some UNKNOWN_ERROR
    /\ statusCode reply = 500%Z.
Proof.
  destruct (audio_network_failure (ElevenLabs.new demoKey) okContext someAmbient
              someAmbient
              (AudioRoute.mkBody (JStr "Hello world") JUndefined JUndefined JUndefined)
              (alwaysCode "EAI_AGAIN") (Some "EAI_AGAIN"))
    as (reply & E & _ & _ & _ & _ & N).
  - reflexivity.
  - split; reflexivity.
  - reflexivity.
  - intros n req. eexists. split; [reflexivity |]. split; reflexivity.
  - exists reply. split; [exact E |]. apply N; discriminate.
Defined.

(** *** What the validators accept *)

Lemma trim_empty : trim "" = "".
Proof. reflexivity. Qed.

Lemma length_zero_iff (s : string) : (String.length s =? 0)%nat = false <-> s <> "".
Proof.
  destruct s as [| c s]; cbn; split.
  - discriminate.
  - intros H. now contradiction H.
  - intros _. discriminate.
  - reflexivity.
Qed.

Lemma truthy_string p : trim p <> "" -> truthy (JStr p) = true.
Proof.
  intros H. cbn. destruct (String.eqb_spec p ""); [| reflexivity].
  subst. now contradiction H.
Qed.

Lemma durationOutOfRange_false d :
  durationOutOfRange d = false <-> exists q, d = JNum q /\ (1 <= q <= 20)%Q.
Proof.
  unfold durationOutOfRange, Qgtb. split.
  - destruct d as [| | | q | |]; try discriminate.
    intros H. apply orb_false_iff in H. destruct H as [H1 H2].
    apply Qltb_false in H1, H2. exists q. now repeat split.
  - intros (q & -> & L & U). apply orb_false_iff. split; now apply Qltb_false.
Qed.

Lemma includesRatio_true a :
  includesRatio a = true <-> exists s, a = JStr s /\ In s validRatios.
Proof.
  unfold includesRatio. split.
  - destruct a as [| | | | s |]; try discriminate.
    intros H. apply existsb_exists in H. destruct H as (x & Hx & E).
    apply String.eqb_eq in E. subst x. now exists s.
  - intros (s & -> & H). apply existsb_exists. exists s. split; [exact H |].
    apply String.eqb_refl.
Qed.

Lemma undefined_or v : v = JUndefined \/ v <> JUndefined.
Proof. destruct v; (now left) || (right; discriminate). Qed.

Lemma isUndefined_false v :
  v <> JUndefined -> match v with JUndefined => true | _ => false end = false.
Proof. destruct v; congruence. Qed.

Lemma fal_validateInput_iff prompt duration aspectRatio :
  FalClient._validateInput prompt duration aspectRatio = Ret tt <->
  (exists p, prompt = JStr p /\ trim p <> "" /\ (String.length p <= 1000)%nat)
  /\ (duration = JUndefined \/ exists d, duration = JNum d /\ (1 <= d <= 20)%Q)
  /\ (aspectRatio = JUndefined \/ exists a, aspectRatio = JStr a /\ In a validRatios).
Proof.
  unfold FalClient._validateInput, throwNew. split.
  - intros H. destruct prompt as [| | | | p |]; try discriminate.
    destruct (negb (truthy (JStr p))); [discriminate |].
    destruct (String.length (trim p) =? 0)%nat eqn:Et; [discriminate |].
    destruct (1000 <? String.length p)%nat eqn:El; [discriminate |].
    apply length_zero_iff in Et. apply Nat.ltb_ge in El.
    split; [now exists p |].
    assert (Hd : duration = JUndefined \/ durationOutOfRange duration = false).
    { destruct (undefined_or duration) as [-> | Hd]; [now left |]. right.
      rewrite (isUndefined_false _ Hd) in H. cbn [negb andb] in H.
      destruct (durationOutOfRange duration); [discriminate | reflexivity]. }
    assert (Ha : aspectRatio = JUndefined \/ includesRatio aspectRatio = true).
    { destruct (undefined_or aspectRatio) as [-> | Ha]; [now left |]. right.
      rewrite (isUndefined_false _ Ha) in H. cbn [negb andb] in H.
      destruct (negb match duration with JUndefined => true | _ => false end
                && durationOutOfRange duration); [discriminate |].
      destruct (includesRatio aspectRatio); [reflexivity | discriminate]. }
    split.
    + destruct Hd as [Hd | Hd]; [now left | right; now apply durationOutOfRange_false].
    + destruct Ha as [Ha | Ha]; [now left | right; now apply includesRatio_true].
  - intros ((p & -> & Ht & Hl) & Hd & Ha).
    rewrite (truthy_string p Ht). cbn [negb].
    apply length_zero_iff in Ht. rewrite Ht.
    apply Nat.ltb_ge in Hl. rewrite Hl.
    assert (Ed : negb match duration with JUndefined => true | _ => false end
                 && durationOutOfRange duration = false).
    { destruct Hd as [-> | Hd]; [reflexivity |].
      apply durationOutOfRange_false in Hd. rewrite Hd. apply andb_false_r. }
    assert (Ea : negb match aspectRatio with JUndefined => true | _ => false end
                 && negb (includesRatio aspectRatio) = false).
    { destruct Ha as [-> | Ha]; [reflexivity |].
      apply includesRatio_true in Ha. rewrite Ha. apply andb_false_r. }
    rewrite Ed, Ea. reflexivity.
Qed.

(** X7: [FalClient._validateInput] accepts exactly the inputs whose prompt
    is a string of at most 1000 characters that is not blank, whose
    duration is left out or a number between 1 and 20 (bounds included,
    fractions allowed) and whose aspect ratio is left out or one of 16:9,
    9:16, 1:1, 4:3 and 21:9; every other input makes it throw. *)
Theorem fal_validation_accepts_exactly prompt duration aspectRatio :
  (FalClient._validateInput prompt duration aspectRatio = Ret tt <->
   (exists p, prompt = JStr p /\ trim p <> "" /\ (String.length p <= 1000)%nat)
   /\ (duration = JUndefined \/ exists d, duration = JNum d /\ (1 <= d <= 20)%Q)
   /\ (aspectRatio = JUndefined
       \/ exists a, aspectRatio = JStr a /\ In a ["16:9"; "9:16"; "1:1"; "4:3"; "21:9"]))
  /\ (FalClient._validateInput prompt duration aspectRatio <> Ret tt ->
      exists msg,
        FalClient._validateInput prompt duration aspectRatio
        = Throw (ThrowError (newError (text msg)))).
Proof.
  split; [apply fal_validateInput_iff |].
  intros H. destruct (FalClient._validateInput _ _ _) as [[] | th] eqn:E.
  - now contradiction H.
  - destruct (validateInput_throws _ _ _ _ E) as (msg & ->). now exists msg.
Qed.

Lemma speech_validateInput_iff text voiceId :
  ElevenLabs._validateInput text voiceId = Ret tt <->
  (exists t, text = JStr t /\ trim t <> "" /\ (String.length t <= 5000)%nat)
  /\ (exists v, voiceId = JStr v /\ (10 <= String.length v)%nat).
Proof.
  unfold ElevenLabs._validateInput, throwNew. split.
  - intros H. destruct text as [| | | | t |]; try discriminate.
    destruct (negb (truthy (JStr t))); [discriminate |].
    destruct (String.length (trim t) =? 0)%nat eqn:Et; [discriminate |].
    destruct (5000 <? String.length t)%nat eqn:El; [discriminate |].
    apply length_zero_iff in Et. apply Nat.ltb_ge in El.
    split; [now exists t |].
    destruct voiceId as [| | | | v |]; try discriminate.
    destruct (negb (truthy (JStr v))); [discriminate |].
    destruct (String.length v <? 10)%nat eqn:Ev; [discriminate |].
    apply Nat.ltb_ge in Ev. now exists v.
  - intros ((t & -> & Ht & Hl) & (v & -> & Hv)).
    rewrite (truthy_string t Ht). cbn [negb].
    apply length_zero_iff in Ht. rewrite Ht.
    apply Nat.ltb_ge in Hl. rewrite Hl.
    assert (Tv : truthy (JStr v) = true).
    { cbn. destruct v; [cbn in Hv; lia | reflexivity]. }
    rewrite Tv. cbn [negb]. apply Nat.ltb_ge in Hv. rewrite Hv. reflexivity.
Qed.

(** X8: [ElevenLabs._validateInput] accepts exactly a text that is a
    string of at most 5000 characters and not blank, together with a
    voice id that is a string of at least 10 characters; the length of
    the voice id is taken before trimming.  Every other input makes it
    throw. *)
Theorem speech_validation_accepts_exactly text voiceId :
  (ElevenLabs._validateInput text voiceId = Ret tt <->
   (exists t, text = JStr t /\ trim t <> "" /\ (String.length t <= 5000)%nat)
   /\ (exists v, voiceId = JStr v /\ (10 <= String.length v)%nat))
  /\ (ElevenLabs._validateInput text voiceId <> Ret tt ->
      exists msg,
        ElevenLabs._validateInput text voiceId
        = Throw (ThrowError (newError (JS.text msg)))).
Proof.
  split; [apply speech_validateInput_iff |].
  intros H. destruct (ElevenLabs._validateInput _ _) as [[] | th] eqn:E.
  - now contradiction H.
  - destruct (speech_validateInput_throws _ _ _ E) as (msg & ->). now exists msg.
Qed.

(** *** What is sent to the provider *)

Lemma length_trimStart s : (String.length (trimStart s) <= String.length s)%nat.
Proof.
  induction s as [| c s IH]; cbn; [lia |].
  destruct (isWhiteSpace c); cbn; lia.
Qed.

Lemma length_string_of_list l :
  String.length (string_of_list_ascii l) = List.length l.
Proof. induction l as [| c l IH]; cbn; congruence. Qed.

Lemma length_list_of_string s :
  List.length (list_ascii_of_string s) = String.length s.
Proof. induction s as [| c s IH]; cbn; congruence. Qed.

Lemma length_reverse s : String.length (reverse s) = String.length s.
Proof.
  unfold reverse. now rewrite length_string_of_list, length_rev, length_list_of_string.
Qed.

(** Trimming never lengthens a string. *)
Lemma length_trim s : (String.length (trim s) <= String.length s)%nat.
Proof.
  unfold trim, trimEnd. rewrite length_reverse.
  pose proof (length_trimStart (reverse (trimStart s))) as H1.
  rewrite length_reverse in H1.
  pose proof (length_trimStart s). lia.
Qed.

Lemma Qfloor_between (x : Q) (lo hi : Z) :
  (inject_Z lo <= x)%Q -> (x <= inject_Z hi)%Q -> (lo <= Qfloor x <= hi)%Z.
Proof.
  intros L U. split.
  - rewrite <- (Qfloor_Z lo). now apply Qfloor_resp_le.
  - rewrite <- (Qfloor_Z hi). now apply Qfloor_resp_le.
Qed.

Lemma Qfloor_below (x : Q) (hi : Z) :
  (x < inject_Z hi)%Q -> (Qfloor x < hi)%Z.
Proof.
  intros U. rewrite Zlt_Qlt. eapply Qle_lt_trans; [apply Qfloor_le | exact U].
Qed.

(** Every request of the retry loop is the request of the call. *)
Lemma makeRequest_sends_request this endpoint data tr rq out :
  In (Sent rq out) (snd (FalClient._makeRequestWithRetry this endpoint data tr [])) ->
  rq = FalClient.request this endpoint data.
Proof.
  unfold FalClient._makeRequestWithRetry. rewrite Nat.add_1_r.
  destruct (retryLoop_shape this (FalClient.request this endpoint data)
              (FalClient.maxRetries this) 1%nat ThrowNull tr [])
    as (evs & r & E & _ & _ & F & _); [lia |].
  rewrite E, app_nil_r. cbn [snd]. intros H.
  rewrite Forall_forall in F. exact (F _ H).
Qed.

(** *** Rounding to a double *)

Section Rounding.

Local Open Scope Q_scope.


Lemma nearestEven_comp x y : x == y -> Double.nearestEven x = Double.nearestEven y.
Proof.
  intros H. unfold Double.nearestEven.
  rewrite (Qfloor_comp x y H).
  assert (E : (x - inject_Z (Qfloor y) ?= 1 # 2) = (y - inject_Z (Qfloor y) ?= 1 # 2)).
  { apply Qcompare_comp; [| reflexivity]. rewrite H. reflexivity. }
  rewrite E. reflexivity.
Qed.

Lemma nearestEven_ge y (M : Z) : inject_Z M <= y -> (M <= Double.nearestEven y)%Z.
Proof.
  intros H. apply Qfloor_resp_le in H. rewrite Qfloor_Z in H.
  unfold Double.nearestEven.
  destruct (Qcompare _ _); [destruct (Z.even _) | |]; lia.
Qed.

Lemma nearestEven_le y (M : Z) : y <= inject_Z M -> (Double.nearestEven y <= M)%Z.
Proof.
  intros H. pose proof (Qfloor_le y) as F.
  assert (L : (Qfloor y <= M)%Z).
  { apply Qfloor_resp_le in H. now rewrite Qfloor_Z in H. }
  unfold Double.nearestEven.
  destruct (Qcompare_spec (y - inject_Z (Qfloor y)) (1 # 2)) as [E | E | E].
  - assert (S : inject_Z (Qfloor y) < inject_Z M) by lra.
    rewrite <- Zlt_Qlt in S. destruct (Z.even _); lia.
  - exact L.
  - assert (S : inject_Z (Qfloor y) < inject_Z M) by lra.
    rewrite <- Zlt_Qlt in S. lia.
Qed.

Lemma nearestEven_near y : inject_Z (Double.nearestEven y) <= y + (1 # 2).
Proof.
  pose proof (Qfloor_le y) as F. unfold Double.nearestEven.
  destruct (Qcompare_spec (y - inject_Z (Qfloor y)) (1 # 2)) as [E | E | E].
  - destruct (Z.even _); [lra |].
    rewrite inject_Z_plus. change (inject_Z 1) with 1. lra.
  - lra.
  - rewrite inject_Z_plus. change (inject_Z 1) with 1. lra.
Qed.

(** Below [2^c] the last bit of the double has an exponent of at most
    [c - 53]. *)
Lemma ilog2_lt x (c : Z) : (0 <= c)%Z -> x < inject_Z (2 ^ c) -> (Double.ilog2 x < c)%Z.
Proof.
  intros Hc Hx. unfold Double.ilog2.
  set (k := (Z.log2 (Qnum x) - Z.log2 (Zpos (Qden x)))%Z).
  assert (Hk : (k <= c)%Z).
  { assert (A : (Qnum x <= 2 ^ c * Zpos (Qden x))%Z).
    { unfold Qlt in Hx. cbn in Hx. lia. }
    apply Z.log2_le_mono in A.
    rewrite Z.mul_comm, Z.log2_mul_pow2 in A by lia. subst k. lia. }
  destruct (Qle_bool (Double.pow2 k) x) eqn:B; [| lia].
  apply Qle_bool_iff in B.
  assert (k <> c); [| lia].
  intros ->. unfold Double.pow2 in B.
  destruct (Z.leb_spec 0 c); [| lia]. lra.
Qed.

Lemma exponent_le x (c : Z) :
  (0 <= c)%Z -> Qabs x < inject_Z (2 ^ c) -> (Double.exponent x <= Z.max (c - 53) (-1074))%Z.
Proof.
  intros Hc Hx. pose proof (ilog2_lt _ c Hc Hx). unfold Double.exponent. lia.
Qed.

(** The value of [round] when the last bit has a negative or zero
    exponent: a multiple of [1 / 2^p]. *)
Lemma round_scaled x :
  ~ x == 0 ->
  (Double.exponent x <= 0)%Z ->
  let s := Z.to_pos (2 ^ (- Double.exponent x)) in
  Double.round x
  == inject_Z (Double.nearestEven (x * inject_Z (Zpos s))) / inject_Z (Zpos s).
Proof.
  intros Hx He s. unfold Double.round.
  destruct (Qeq_bool x 0) eqn:B; [apply Qeq_bool_iff in B; contradiction |].
  assert (P : Double.pow2 (Double.exponent x) == 1 # s).
  { unfold Double.pow2. destruct (Z.leb_spec 0 (Double.exponent x)); [| reflexivity].
    assert (Double.exponent x = 0%Z) as E0 by lia.
    subst s. rewrite E0. reflexivity. }
  rewrite (nearestEven_comp (x / Double.pow2 (Double.exponent x))
             (x * inject_Z (Zpos s))).
  - rewrite P. reflexivity.
  - rewrite P. reflexivity.
Qed.

Lemma inject_pos_nonneg s : 0 <= inject_Z (Zpos s).
Proof. change 0 with (inject_Z 0). rewrite <- Zle_Qle. lia. Qed.

Lemma inject_pos_pos s : 0 < inject_Z (Zpos s).
Proof. change 0 with (inject_Z 0). rewrite <- Zlt_Qlt. lia. Qed.

(** Rounding does not cross an integer, as long as the integers are
    doubles themselves (below [2^53]). *)
Lemma round_ge_Z x (N : Z) :
  Qabs x < inject_Z (2 ^ 53) -> inject_Z N <= x -> inject_Z N <= Double.round x.
Proof.
  intros Hb Hx. destruct (Qeq_dec x 0) as [Z0 | Z0].
  - unfold Double.round. apply Qeq_bool_iff in Z0 as B. rewrite B. lra.
  - pose proof (exponent_le x 53 ltac:(lia) Hb) as He.
    rewrite (round_scaled x Z0 ltac:(lia)).
    set (s := Z.to_pos _).
    assert (G : (N * Zpos s <= Double.nearestEven (x * inject_Z (Zpos s)))%Z).
    { apply nearestEven_ge. rewrite inject_Z_mult.
      apply Qmult_le_compat_r; [exact Hx |]. apply inject_pos_nonneg. }
    apply Qle_shift_div_l; [apply inject_pos_pos |].
    rewrite <- inject_Z_mult. now rewrite <- Zle_Qle.
Qed.

Lemma round_le_Z x (N : Z) :
  Qabs x < inject_Z (2 ^ 53) -> x <= inject_Z N -> Double.round x <= inject_Z N.
Proof.
  intros Hb Hx. destruct (Qeq_dec x 0) as [Z0 | Z0].
  - unfold Double.round. apply Qeq_bool_iff in Z0 as B. rewrite B. lra.
  - pose proof (exponent_le x 53 ltac:(lia) Hb) as He.
    rewrite (round_scaled x Z0 ltac:(lia)).
    set (s := Z.to_pos _).
    assert (G : (Double.nearestEven (x * inject_Z (Zpos s)) <= N * Zpos s)%Z).
    { apply nearestEven_le. rewrite inject_Z_mult.
      apply Qmult_le_compat_r; [exact Hx |]. apply inject_pos_nonneg. }
    apply Qle_shift_div_r; [apply inject_pos_pos |].
    rewrite <- inject_Z_mult. now rewrite <- Zle_Qle.
Qed.

(** The largest double below 1, times a million, rounds below a
    million. *)
Lemma round_below_million x :
  0 <= x -> x <= (1 - (1 # 9007199254740992)) * 1000000 -> Double.round x < 1000000.
Proof.
  intros H0 Hx. destruct (Qeq_dec x 0) as [Z0 | Z0].
  - unfold Double.round. apply Qeq_bool_iff in Z0 as B. rewrite B. reflexivity.
  - assert (Hb : Qabs x < inject_Z (2 ^ 20)).
    { rewrite Qabs_pos by exact H0.
      apply (Qle_lt_trans _ _ _ Hx). reflexivity. }
    pose proof (exponent_le x 20 ltac:(lia) Hb) as He.
    rewrite (round_scaled x Z0 ltac:(lia)).
    set (s := Z.to_pos _).
    assert (Hs : (2 ^ 33 <= Zpos s)%Z).
    { subst s. rewrite Z2Pos.id by (apply Z.pow_pos_nonneg; lia).
      apply Z.pow_le_mono_r; lia. }
    pose proof (nearestEven_near (x * inject_Z (Zpos s))) as N.
    assert (Sq : inject_Z (2 ^ 33) <= inject_Z (Zpos s)) by now rewrite <- Zle_Qle.
    assert (Xs : x * inject_Z (Zpos s) <= (1 - (1 # 9007199254740992)) * 1000000 * inject_Z (Zpos s)).
    { apply Qmult_le_compat_r; [exact Hx |]. apply inject_pos_nonneg. }
    apply Qlt_shift_div_r; [apply inject_pos_pos |].
    change (inject_Z (2 ^ 33)) with (8589934592 # 1) in Sq.
    lra.
Qed.

End Rounding.

(** X9: every request [generateVideo] sends for an accepted input is a
    POST to [/fal-ai/pika-1.0] under the base URL, authorised with the
    key as a bearer token, whose payload carries the trimmed prompt (not
    empty, at most 1000 characters), the aspect ratio, the frame count
    [Math.floor(duration * 24)] and the seed
    [Math.floor(Math.random() * 1000000)], both products being products
    of doubles.  The frame count lies between 24 and 480, and for a
    random draw in [0,1), that is at most [1 - 2^-53], the seed lies
    between 0 and 999999. *)
Theorem video_request_payload this amb params tr :
  validVideo params ->
  (0 <= random amb <= 1 - (1 # 9007199254740992))%Q ->
  exists p d,
    FalClient.prompt params = JStr p
    /\ defaulted (FalClient.duration params) (JNum 5) = JNum d
    /\ trim p <> "" /\ (String.length (trim p) <= 1000)%nat
    /\ (24 <= Qfloor (Double.mul d 24) <= 480)%Z
    /\ (0 <= Qfloor (Double.mul (random amb) 1000000) <= 999999)%Z
    /\ forall rq out,
         In (Sent rq out) (snd (run (FalClient.generateVideo this amb params) tr)) ->
         method rq = POST
         /\ url rq = FalClient.baseURL this ++ "/fal-ai/pika-1.0"
         /\ In ("Authorization", Some ("Bearer " ++ showEnv (FalClient.apiKey this)))
              (reqHeaders rq)
         /\ exists payload,
              reqData rq = Some payload
              /\ optGet payload "prompt" = JStr (trim p)
              /\ optGet payload "num_frames"
                 = JNum (inject_Z (Qfloor (Double.mul d 24)))
              /\ optGet payload "seed"
                 = JNum (inject_Z (Qfloor (Double.mul (random amb) 1000000)))
              /\ optGet payload "aspect_ratio"
                 = defaulted (FalClient.aspectRatio params) (JStr "16:9").
Proof.
  intros Hv [R0 R1].
  pose proof Hv as Hv'. unfold validVideo in Hv'.
  apply fal_validateInput_iff in Hv'.
  destruct Hv' as ((p & Ep & Ht & Hl) & Hd & _).
  assert (Ed : exists d, defaulted (FalClient.duration params) (JNum 5) = JNum d
                         /\ (1 <= d <= 20)%Q).
  { destruct Hd as [Hd | Hd]; [| exact Hd].
    exfalso. revert Hd. apply defaulted_defined. discriminate. }
  destruct Ed as (d & Ed & D1 & D20).
  exists p, d.
  split; [exact Ep |]. split; [exact Ed |]. split; [exact Ht |].
  split; [pose proof (length_trim p); lia |].
  split.
  { assert (B : (Qabs (d * 24) < inject_Z (2 ^ 53))%Q).
    { rewrite Qabs_pos by lra. apply (Qle_lt_trans _ (20 * 24)%Q); [lra | reflexivity]. }
    apply Qfloor_between; unfold Double.mul.
    - apply round_ge_Z; [exact B |]. change (inject_Z 24) with 24%Q. lra.
    - apply round_le_Z; [exact B |]. change (inject_Z 480) with 480%Q. lra. }
  split.
  { assert (B : (Qabs (random amb * 1000000) < inject_Z (2 ^ 53))%Q).
    { rewrite Qabs_pos by lra.
      apply (Qle_lt_trans _ (1 * 1000000)%Q); [lra | reflexivity]. }
    split.
    - apply (Qfloor_between _ 0 1000000); unfold Double.mul.
      + apply round_ge_Z; [exact B |]. change (inject_Z 0) with 0%Q. lra.
      + apply round_le_Z; [exact B |]. change (inject_Z 1000000) with 1000000%Q. lra.
    - assert (H : (Qfloor (Double.mul (random amb) 1000000) < 1000000)%Z); [| lia].
      apply Qfloor_below. unfold Double.mul.
      change (inject_Z 1000000) with 1000000%Q.
      apply round_below_million; lra. }
  destruct (generateVideo_valid this amb params Hv) as (payload & Epl & E).
  intros rq out Hin. unfold run in Hin. rewrite E in Hin.
  assert (Hin' : In (Sent rq out)
                   (snd (FalClient._makeRequestWithRetry this "/fal-ai/pika-1.0" payload
                           tr []))).
  { destruct (FalClient._makeRequestWithRetry _ _ _ tr []) as [[response | t] w'].
    - destruct (dataProp (data response) "video_url") as [u |];
        [destruct (dataProp (data response) "estimated_time");
           [destruct (interpolate u) as [[] |] |] |];
        try destruct (caught _); exact Hin.
    - destruct (caught t); exact Hin. }
  rewrite (makeRequest_sends_request _ _ _ _ _ _ Hin').
  cbn [FalClient.request method url reqHeaders reqData].
  split; [reflexivity |]. split; [reflexivity |]. split; [now left |].
  exists payload. split; [reflexivity |].
  rewrite Ep, Ed in Epl. cbn [FalClient.payload] in Epl. inversion Epl.
  repeat split.
Qed.

Lemma video_request_payload_witness :
  exists p d,
    FalClient.prompt sunset = JStr p
    /\ defaulted (FalClient.duration sunset) (JNum 5) = JNum d
    /\ (24 <= Qfloor (Double.mul d 24) <= 480)%Z
    /\ (0 <= Qfloor (Double.mul (random someAmbient) 1000000) <= 999999)%Z.
Proof.
  destruct (video_request_payload demoFal someAmbient sunset (alwaysStatus 500))
    as (p & d & Ep & Ed & _ & _ & Hf & Hs & _).
  - reflexivity.
  - split; [discriminate | discriminate].
  - exists p, d. now repeat split.
Defined.

(** *** The estimated duration *)

Lemma length_repeat_string n :
  String.length (string_of_list_ascii (repeat "a"%char n)) = n.
Proof. now rewrite length_string_of_list, repeat_length. Qed.

(** The estimate depends on the length of the text only. *)
Lemma estimate_by_length t :
  ElevenLabs._estimateAudioDuration t
  = ElevenLabs._estimateAudioDuration
      (string_of_list_ascii (repeat "a"%char (String.length t))).
Proof.
  unfold ElevenLabs._estimateAudioDuration. now rewrite length_repeat_string.
Qed.

Lemma estimateChecked_all n : (n <= 5000)%nat -> estimateChecked n = true.
Proof.
  intros H.
  assert (All : forallb estimateChecked (seq 0 (Z.to_nat 5001)) = true)
    by (vm_compute; reflexivity).
  rewrite forallb_forall in All. apply All. apply in_seq.
  change (Z.to_nat 5001) with (S (Z.to_nat 5000)). lia.
Qed.

(** X10: for a text of at most 5000 characters, the bound of the
    validator, the estimated duration is [ceil (0.08 * n)] seconds, [n]
    being the length, that is the least whole [d] with [25 * d >= 2 * n],
    except at the four lengths 775, 1550, 3100 and 3125, where the
    rounding of the double arithmetic makes it one second more (63, 125,
    249 and 251).  It is 0 for the empty text only, and at most 400. *)
Theorem estimated_duration_bounds t :
  (String.length t <= 5000)%nat ->
  let n := Z.of_nat (String.length t) in
  let d := ElevenLabs._estimateAudioDuration t in
  (~ In (String.length t) liftedLengths -> (2 * n <= 25 * d < 2 * n + 25)%Z)
  /\ (In (String.length t) liftedLengths -> (25 * d = 2 * n + 25)%Z)
  /\ (d = 0%Z <-> t = "")
  /\ (d <= 400)%Z.
Proof.
  intros Hl. cbn zeta. rewrite (estimate_by_length t).
  pose proof (estimateChecked_all _ Hl) as C. unfold estimateChecked in C.
  set (d := ElevenLabs._estimateAudioDuration _) in *.
  apply andb_true_iff in C. destruct C as [C C0].
  apply andb_true_iff in C. destruct C as [C C400].
  apply Z.leb_le in C400. apply Bool.eqb_prop in C0.
  assert (L : existsb (Nat.eqb (String.length t)) liftedLengths = true
              <-> In (String.length t) liftedLengths).
  { rewrite existsb_exists. split.
    - intros (m & Hin & E). apply Nat.eqb_eq in E. now subst m.
    - intros Hin. exists (String.length t). split; [exact Hin | apply Nat.eqb_refl]. }
  split; [| split; [| split]].
  - intros N. destruct (existsb _ _); [exfalso; apply N; now apply L |].
    apply andb_true_iff in C. destruct C as [C1 C2].
    apply Z.leb_le in C1. apply Z.ltb_lt in C2. lia.
  - intros Hin. apply L in Hin. rewrite Hin in C. now apply Z.eqb_eq in C.
  - split.
    + intros E. apply Z.eqb_eq in E. rewrite E in C0. symmetry in C0.
      apply Nat.eqb_eq in C0. destruct t; [reflexivity | discriminate].
    + intros Et. assert (E0 : String.length t = 0%nat) by (rewrite Et; reflexivity).
      rewrite E0 in C0. cbn [Nat.eqb] in C0. now apply Z.eqb_eq in C0.
  - exact C400.
Qed.

Lemma estimated_duration_bounds_witness :
  ElevenLabs._estimateAudioDuration "Hello world" = 1%Z
  /\ ElevenLabs._estimateAudioDuration (string_of_list_ascii (repeat "a"%char 775))
     = 63%Z.
Proof.
  split.
  - destruct (estimated_duration_bounds "Hello world") as (B & _ & _ & _).
    + cbn. lia.
    + assert (N : ~ In (String.length "Hello world") liftedLengths).
      { cbn. intros [H | [H | [H | [H | []]]]]; discriminate. }
      specialize (B N). cbn [String.length Z.of_nat] in B.
      change (Z.of_nat 11) with 11%Z in B. lia.
  - destruct (estimated_duration_bounds (string_of_list_ascii (repeat "a"%char 775)))
      as (_ & L & _ & _).
    + rewrite length_repeat_string. lia.
    + rewrite length_repeat_string in L.
      assert (I : In 775%nat liftedLengths) by (left; reflexivity).
      specialize (L I). change (Z.of_nat 775) with 775%Z in L. lia.
Defined.

(** *** The request of the speech client *)

Lemma validVoiceId_not_empty v : ElevenLabs.validVoiceId v <> "".
Proof.
  unfold ElevenLabs.validVoiceId.
  destruct (String.eqb_spec (trim v) ""); cbn [negb]; [discriminate | assumption].
Qed.

(** The trace of an accepted call of an enabled client: its one request. *)
Lemma generateSpeech_trace this amb t voiceId v stability similarity tr w :
  ElevenLabs.disabled this = false ->
  defaulted voiceId (JStr ElevenLabs.defaultVoiceId) = JStr v ->
  validSpeech (JStr t) voiceId ->
  let req :=
    ElevenLabs.request this (ElevenLabs.validVoiceId v)
      (ElevenLabs.payload t (ElevenLabs.validVoiceId v)
         (defaulted stability (JNum (5 # 10))) (defaulted similarity (JNum (8 # 10)))) in
  snd (ElevenLabs.generateSpeech this amb (JStr t) voiceId stability similarity tr w)
  = Sent req (tr (transportCalls w) req) :: w.
Proof.
  intros Hd Ev Hv req. unfold validSpeech in Hv.
  destruct (speech_validateInput_ok _ _ Hv) as (t' & v' & _ & Ev' & Tv).
  unfold ElevenLabs.generateSpeech. rewrite Hd, Hv, Ev. rewrite Ev in Tv.
  cbn [isString negb orb]. rewrite Tv.
  unfold bind, lift, tryCatch, ret, axios, send, throw. cbn.
  fold req. destruct (tr _ req) as [resp | e]; [| reflexivity].
  destruct resp as [st hs [j | bytes]]; [destruct j |]; reflexivity.
Qed.

(** A call that is not both enabled and accepted leaves the trace as it
    was. *)
Lemma generateSpeech_silent this amb text voiceId stability similarity tr w :
  ElevenLabs.disabled this = true \/ ~ validSpeech text voiceId ->
  snd (ElevenLabs.generateSpeech this amb text voiceId stability similarity tr w) = w.
Proof.
  intros H. destruct (isString text) eqn:Hs.
  - destruct text as [| | | | t |]; try discriminate.
    destruct (printable_dec voiceId) as [P | P];
      [| now rewrite (generateSpeech_not_printable this amb t voiceId stability
                        similarity tr w P)].
    destruct (ElevenLabs.disabled this) eqn:Hd.
    + now rewrite (generateSpeech_disabled this amb t voiceId stability similarity tr w
                     Hd P).
    + destruct H as [H | H]; [discriminate |].
      destruct (generateSpeech_invalid this amb t voiceId stability similarity tr w Hd
                  P H) as (f & E & _).
      now rewrite E.
  - destruct (generateSpeech_not_string this amb text voiceId stability similarity tr w
                Hs) as (msg & E).
    now rewrite E.
Qed.

Lemma speech_ready_dec this text voiceId :
  (ElevenLabs.disabled this = false /\ validSpeech text voiceId)
  \/ (ElevenLabs.disabled this = true \/ ~ validSpeech text voiceId).
Proof.
  destruct (ElevenLabs.disabled this); [right; now left |].
  destruct (validSpeech_dec text voiceId); [left | right]; tauto.
Qed.

(** Every request of [generateSpeech], with what made the call send it. *)
Lemma generateSpeech_sends this amb text voiceId stability similarity tr rq out :
  In (Sent rq out)
     (snd (ElevenLabs.generateSpeech this amb text voiceId stability similarity tr [])) ->
  exists t v,
    text = JStr t
    /\ defaulted voiceId (JStr ElevenLabs.defaultVoiceId) = JStr v
    /\ ElevenLabs.disabled this = false
    /\ validSpeech text voiceId
    /\ rq = ElevenLabs.request this (ElevenLabs.validVoiceId v)
              (ElevenLabs.payload t (ElevenLabs.validVoiceId v)
                 (defaulted stability (JNum (5 # 10)))
                 (defaulted similarity (JNum (8 # 10))))
    /\ snd (ElevenLabs.generateSpeech this amb text voiceId stability similarity tr [])
       = [Sent rq out].
Proof.
  intros Hin. destruct (speech_ready_dec this text voiceId) as [[Hd Hv] | H].
  - pose proof Hv as Hv'. unfold validSpeech in Hv'.
    destruct (speech_validateInput_ok _ _ Hv') as (t & v & -> & Ev & _).
    rewrite (generateSpeech_trace this amb t voiceId v stability similarity tr []
               Hd Ev Hv) in Hin |- *.
    destruct Hin as [Hin | []]. inversion Hin; subst rq out.
    exists t, v. split; [reflexivity |]. split; [exact Ev |]. split; [exact Hd |].
    split; [exact Hv |]. split; reflexivity.
  - rewrite (generateSpeech_silent this amb text voiceId stability similarity tr [] H)
      in Hin.
    destruct Hin.
Qed.

(** X11: [generateSpeech] sends at most one request, whatever the input
    and the transport, and only from an enabled client with an input its
    validator accepts: a text of at most 5000 characters that is not
    blank and a voice id of at least 10 characters.  That request is a
    POST to [/text-to-speech/<id>] under the base URL, where [id] is the
    trimmed voice id, or the default voice when the voice id is blank,
    and is never empty; it carries the key in [xi-api-key], asks for an
    [arraybuffer], and its payload holds the trimmed text and the model
    [eleven_multilingual_v2]. *)
Theorem speech_request_shape this amb text voiceId stability similarity tr :
  (calls (ElevenLabs.generateSpeech this amb text voiceId stability similarity) tr <= 1)%nat
  /\ forall rq out,
       In (Sent rq out)
          (snd (run (ElevenLabs.generateSpeech this amb text voiceId stability
                       similarity) tr)) ->
       ElevenLabs.disabled this = false
       /\ validSpeech text voiceId
       /\ exists t v id payload,
            text = JStr t
            /\ defaulted voiceId (JStr ElevenLabs.defaultVoiceId) = JStr v
            /\ (String.length t <= 5000)%nat
            /\ (10 <= String.length v)%nat
            /\ id = (if String.eqb (trim v) "" then ElevenLabs.defaultVoiceId else trim v)
            /\ id <> ""
            /\ method rq = POST
            /\ url rq = ElevenLabs.baseURL this ++ "/text-to-speech/" ++ id
            /\ In ("xi-api-key", ElevenLabs.apiKey this) (reqHeaders rq)
            /\ responseType rq = Some "arraybuffer"
            /\ reqData rq = Some payload
            /\ optGet payload "text" = JStr (trim t)
            /\ trim t <> "" /\ (String.length (trim t) <= 5000)%nat
            /\ optGet payload "voice_id" = JStr id
            /\ optGet payload "model_id" = JStr "eleven_multilingual_v2".
Proof.
  unfold calls, run. split.
  - destruct (speech_ready_dec this text voiceId) as [[Hd Hv] | H].
    + pose proof Hv as Hv'. unfold validSpeech in Hv'.
      destruct (speech_validateInput_ok _ _ Hv') as (t & v & -> & Ev & _).
      rewrite (generateSpeech_trace this amb t voiceId v stability similarity tr []
                 Hd Ev Hv).
      cbn. lia.
    + rewrite (generateSpeech_silent this amb text voiceId stability similarity tr [] H).
      cbn. lia.
  - intros rq out Hin.
    destruct (generateSpeech_sends _ _ _ _ _ _ _ _ _ Hin)
      as (t & v & Et & Ev & Hd & Hv & -> & _).
    split; [exact Hd |]. split; [exact Hv |].
    unfold validSpeech in Hv. apply speech_validateInput_iff in Hv.
    destruct Hv as ((t' & Et' & Ht & Hl) & (v' & Ev' & Hlv)).
    rewrite Et in Et'. inversion Et'; subst t'.
    rewrite Ev in Ev'. inversion Ev'; subst v'.
    exists t, v, (ElevenLabs.validVoiceId v),
      (ElevenLabs.payload t (ElevenLabs.validVoiceId v)
         (defaulted stability (JNum (5 # 10))) (defaulted similarity (JNum (8 # 10)))).
    split; [exact Et |]. split; [exact Ev |].
    split; [exact Hl |]. split; [exact Hlv |].
    split.
    { unfold ElevenLabs.validVoiceId. destruct (String.eqb (trim v) ""); reflexivity. }
    split; [apply validVoiceId_not_empty |].
    cbn [ElevenLabs.request method url reqHeaders responseType reqData].
    repeat split; try assumption.
    + now left.
    + pose proof (length_trim t). lia.
Qed.

(** *** The replies of the two generation routes *)

Lemma systemError_replies {A} amb env t tr w :
  t <> ThrowNull ->
  exists reply : Reply A,
    systemError amb env t tr w = (Ret reply, w)
    /\ statusCode reply = 500%Z
    /\ replySuccess reply = false
    /\ replyErrorType reply = Some SYSTEM_ERROR.
Proof.
  intros H. destruct t as [e |]; [| now contradiction H].
  eexists. split; [reflexivity |]. repeat split.
Qed.

(** What [generateVideo] throws is never [null]. *)
Lemma generateVideo_not_null this amb params tr w :
  fst (FalClient.generateVideo this amb params tr w) <> Throw ThrowNull.
Proof.
  intros H. destruct (generateVideo_throws this amb params tr w _ H) as ((msg & E) & _).
  discriminate.
Qed.

(** What [generateSpeech] throws is never [null]. *)
Lemma generateSpeech_not_null this amb text voiceId stability similarity tr w :
  fst (ElevenLabs.generateSpeech this amb text voiceId stability similarity tr w)
  <> Throw ThrowNull.
Proof.
  intros H.
  destruct (generateSpeech_throws this amb text voiceId stability similarity tr w _ H)
    as ((msg & E) & _).
  discriminate.
Qed.

(** The handler of [POST /generate] either reaches the client, and then
    its trace is the trace of the client, or sends nothing. *)
Lemma postGenerate_world falClient ctx amb svcAmb reqBody tr :
  (exists client,
      falClient = Some client
      /\ optSubstringOf (FalClient.prompt reqBody) = Ret tt
      /\ passes ctx
      /\ snd (VideoRoute.postGenerate falClient ctx amb svcAmb reqBody tr [])
         = snd (FalClient.generateVideo client svcAmb reqBody tr []))
  \/ snd (VideoRoute.postGenerate falClient ctx amb svcAmb reqBody tr []) = [].
Proof.
  destruct (optSubstringOf (FalClient.prompt reqBody)) as [[] | t] eqn:Hp.
  - destruct (errorsEmpty ctx) eqn:He.
    + destruct falClient as [client |].
      * destruct (envTruthy (API_KEY ctx)) eqn:Hk.
        -- left. exists client. split; [reflexivity |]. split; [reflexivity |].
           split; [now split |].
           rewrite (postGenerate_reaches client ctx amb svcAmb reqBody tr Hp
                      (conj He Hk)).
           pose proof (generateVideo_not_null client svcAmb reqBody tr []) as N.
           destruct (FalClient.generateVideo client svcAmb reqBody tr [])
             as [[[r | f] | t] w]; try reflexivity.
           destruct (@systemError_replies FalClient.VideoSuccess amb (NODE_ENV ctx)
                       t tr w) as (reply & E & _).
           { intros ->. now apply N. }
           now rewrite E.
        -- right. unfold VideoRoute.postGenerate, bind, lift, tryCatch, ret.
           rewrite Hp, He, Hk. reflexivity.
      * right. unfold VideoRoute.postGenerate, bind, lift, tryCatch, ret.
        rewrite Hp, He. reflexivity.
    + right. unfold VideoRoute.postGenerate, bind, lift, tryCatch, ret.
      rewrite Hp, He. reflexivity.
  - right. unfold VideoRoute.postGenerate, bind, lift. rewrite Hp. reflexivity.
Qed.

(** The same for [POST /tts]. *)
Lemma postTts_world service ctx amb svcAmb reqBody tr :
  (exists svc,
      service = Some svc
      /\ optSubstringOf (AudioRoute.text reqBody) = Ret tt
      /\ passes ctx
      /\ snd (AudioRoute.postTts service ctx amb svcAmb reqBody tr [])
         = snd (ElevenLabs.generateSpeech svc svcAmb (AudioRoute.text reqBody)
                  (AudioRoute.voiceId reqBody)
                  (JNum (AudioRoute.normalizedStability (AudioRoute.stability reqBody)))
                  (JNum (AudioRoute.normalizedSimilarity (AudioRoute.similarity reqBody)))
                  tr []))
  \/ snd (AudioRoute.postTts service ctx amb svcAmb reqBody tr []) = [].
Proof.
  destruct (optSubstringOf (AudioRoute.text reqBody)) as [[] | t] eqn:Hp.
  - destruct (errorsEmpty ctx) eqn:He.
    + destruct service as [svc |].
      * destruct (envTruthy (API_KEY ctx)) eqn:Hk.
        -- left. exists svc. split; [reflexivity |]. split; [reflexivity |].
           split; [now split |].
           rewrite (postTts_reaches svc ctx amb svcAmb reqBody tr Hp (conj He Hk)).
           pose proof (generateSpeech_not_null svc svcAmb (AudioRoute.text reqBody)
                         (AudioRoute.voiceId reqBody)
                         (JNum (AudioRoute.normalizedStability
                                  (AudioRoute.stability reqBody)))
                         (JNum (AudioRoute.normalizedSimilarity
                                  (AudioRoute.similarity reqBody))) tr []) as N.
           destruct (ElevenLabs.generateSpeech svc svcAmb _ _ _ _ tr [])
             as [[[r | f] | t] w]; try reflexivity.
           destruct (@systemError_replies ElevenLabs.SpeechSuccess amb (NODE_ENV ctx)
                       t tr w) as (reply & E & _).
           { intros ->. now apply N. }
           now rewrite E.
        -- right. unfold AudioRoute.postTts, bind, lift, tryCatch, ret.
           rewrite Hp, He, Hk. reflexivity.
      * right. unfold AudioRoute.postTts, bind, lift, tryCatch, ret.
        rewrite Hp, He. reflexivity.
    + right. unfold AudioRoute.postTts, bind, lift, tryCatch, ret.
      rewrite Hp, He. reflexivity.
  - right. unfold AudioRoute.postTts, bind, lift. rewrite Hp. reflexivity.
Qed.

(** X12: a request reaches the provider only past every guard.  If
    [POST /generate] invokes the transport, then validation left no
    error, the client was built, the key is in the environment and the
    body passes the client's own validation; if [POST /tts] invokes it,
    then validation left no error, the key is in the environment, the
    client is enabled and the text and voice id pass the client's
    validation. *)
Theorem transport_only_past_the_guards :
  (forall falClient ctx amb svcAmb reqBody tr,
      (1 <= calls (VideoRoute.postGenerate falClient ctx amb svcAmb reqBody) tr)%nat ->
      exists client,
        falClient = Some client /\ passes ctx /\ validVideo reqBody)
  /\ (forall service ctx amb svcAmb reqBody tr,
        (1 <= calls (AudioRoute.postTts service ctx amb svcAmb reqBody) tr)%nat ->
        exists svc,
          service = Some svc /\ passes ctx
          /\ ElevenLabs.disabled svc = false
          /\ validSpeech (AudioRoute.text reqBody) (AudioRoute.voiceId reqBody)).
Proof.
  split.
  - intros falClient ctx amb svcAmb reqBody tr. unfold calls, run.
    destruct (postGenerate_world falClient ctx amb svcAmb reqBody tr)
      as [(client & -> & _ & Hc & E) | E]; rewrite E.
    + intros H. exists client. split; [reflexivity |]. split; [exact Hc |].
      destruct (validVideo_dec reqBody) as [Hv | Hv]; [exact Hv |].
      rewrite (generateVideo_invalid client svcAmb reqBody tr [] Hv) in H.
      cbn in H. lia.
    + cbn. lia.
  - intros service ctx amb svcAmb reqBody tr. unfold calls, run.
    destruct (postTts_world service ctx amb svcAmb reqBody tr)
      as [(svc & -> & _ & Hc & E) | E]; rewrite E.
    + intros H. exists svc. split; [reflexivity |]. split; [exact Hc |].
      destruct (speech_ready_dec svc (AudioRoute.text reqBody)
                  (AudioRoute.voiceId reqBody)) as [Hr | Hr]; [exact Hr |].
      rewrite (generateSpeech_silent svc svcAmb _ _ _ _ tr [] Hr) in H.
      cbn in H. lia.
    + cbn. lia.
Qed.

Lemma normalizedStability_range v :
  (0 <= AudioRoute.normalizedStability v <= 1)%Q.
Proof.
  destruct v as [| | | q | |]; try (cbn; split; discriminate).
  rewrite normalizedStability_spec. unfold specNormalize.
  destruct (Qgtb q 1); apply clamp01_range.
Qed.

Lemma normalizedSimilarity_range v :
  (0 <= AudioRoute.normalizedSimilarity v <= 1)%Q.
Proof.
  destruct v as [| | | q | |]; try (cbn; split; discriminate).
  rewrite normalizedSimilarity_spec. unfold specNormalize.
  destruct (Qgtb q 1); apply clamp01_range.
Qed.

(** X13: whatever the body of [POST /tts] holds for [stability] and
    [similarity] (a number of any size, a value that is not a number,
    nothing), every request the route sends to the provider carries, in
    [voice_settings], a stability and a similarity boost that are numbers
    in [0,1], with style 0 and the speaker boost on. *)
Theorem tuning_sent_in_unit_range service ctx amb svcAmb reqBody tr rq out :
  In (Sent rq out) (snd (run (AudioRoute.postTts service ctx amb svcAmb reqBody) tr)) ->
  exists payload stability similarity,
    reqData rq = Some payload
    /\ optGet (optGet payload "voice_settings") "stability" = JNum stability
    /\ optGet (optGet payload "voice_settings") "similarity_boost" = JNum similarity
    /\ (0 <= stability <= 1)%Q /\ (0 <= similarity <= 1)%Q
    /\ optGet (optGet payload "voice_settings") "style" = JNum 0
    /\ optGet (optGet payload "voice_settings") "use_speaker_boost" = JBool true.
Proof.
  unfold run.
  destruct (postTts_world service ctx amb svcAmb reqBody tr)
    as [(svc & -> & _ & Hc & E) | E]; rewrite E; [| intros []].
  intros Hin.
  destruct (generateSpeech_sends _ _ _ _ _ _ _ _ _ Hin)
    as (t & v & _ & _ & _ & _ & -> & _).
  eexists. exists (AudioRoute.normalizedStability (AudioRoute.stability reqBody)),
    (AudioRoute.normalizedSimilarity (AudioRoute.similarity reqBody)).
  split; [reflexivity |]. split; [reflexivity |]. split; [reflexivity |].
  split; [apply normalizedStability_range |].
  split; [apply normalizedSimilarity_range |]. split; reflexivity.
Qed.

Lemma tuning_sent_in_unit_range_witness :
  exists payload stability similarity,
    reqData (ElevenLabs.request (ElevenLabs.new demoKey)
               (ElevenLabs.validVoiceId ElevenLabs.defaultVoiceId)
               (ElevenLabs.payload "Hello world"
                  (ElevenLabs.validVoiceId ElevenLabs.defaultVoiceId)
                  (JNum (AudioRoute.normalizedStability (JNum 250)))
                  (JNum (AudioRoute.normalizedSimilarity (JStr "high")))))
    = Some payload
    /\ optGet (optGet payload "voice_settings") "stability" = JNum stability
    /\ optGet (optGet payload "voice_settings") "similarity_boost" = JNum similarity
    /\ (0 <= stability <= 1)%Q /\ (0 <= similarity <= 1)%Q.
Proof.
  destruct (tuning_sent_in_unit_range (AudioRoute.elevenLabsService demoKey) okContext
              someAmbient someAmbient
              (AudioRoute.mkBody (JStr "Hello world") JUndefined (JNum 250) (JStr "high"))
              alwaysAudio
              (ElevenLabs.request (ElevenLabs.new demoKey)
                 (ElevenLabs.validVoiceId ElevenLabs.defaultVoiceId)
                 (ElevenLabs.payload "Hello world"
                    (ElevenLabs.validVoiceId ElevenLabs.defaultVoiceId)
                    (JNum (AudioRoute.normalizedStability (JNum 250)))
                    (JNum (AudioRoute.normalizedSimilarity (JStr "high")))))
              (Fulfilled (mkResponse 200 [] (Binary ["I"%byte; "D"%byte; "3"%byte]))))
    as (payload & st & si & E & S1 & S2 & R1 & R2 & _).
  - left. reflexivity.
  - exists payload, st, si. repeat split; assumption || apply R1 || apply R2.
Defined.

Lemma video_status_in errorType :
  In (VideoRoute._getStatusCodeForError errorType) [200; 400; 402; 403; 429; 500; 503]%Z.
Proof. destruct errorType; cbn; tauto. Qed.

Lemma audio_status_in errorType :
  errorType <> ACCESS_DENIED ->
  In (AudioRoute._getStatusCodeForError errorType) [200; 400; 402; 429; 500; 503]%Z.
Proof. destruct errorType; cbn; tauto. Qed.

Lemma video_status_not_200 errorType : VideoRoute._getStatusCodeForError errorType <> 200%Z.
Proof. destruct errorType; discriminate. Qed.

Lemma audio_status_not_200 errorType : AudioRoute._getStatusCodeForError errorType <> 200%Z.
Proof. destruct errorType; discriminate. Qed.

(** The [catch] block of [generateSpeech] has no branch for
    ACCESS_DENIED. *)
Lemma classify_not_access_denied amb e :
  f_errorType (ElevenLabs.classify amb e) <> ACCESS_DENIED.
Proof.
  unfold ElevenLabs.classify.
  repeat match goal with
         | |- context [match ?x with _ => _ end] => destruct x; try discriminate
         end.
Qed.

(** A failure of [generateSpeech] comes from the disabled test or from the
    [catch] block. *)
Lemma generateSpeech_failure this amb text voiceId stability similarity tr w f :
  fst (ElevenLabs.generateSpeech this amb text voiceId stability similarity tr w)
  = Ret (ElevenLabs.SpeechFailed f) ->
  f_errorType f = SERVICE_DISABLED \/ exists e, f = ElevenLabs.classify amb e.
Proof.
  destruct (isString text) eqn:Hs.
  - destruct text as [| | | | t |]; try discriminate.
    destruct (printable_dec voiceId) as [P | P];
      [| rewrite (generateSpeech_not_printable this amb t voiceId stability
                    similarity tr w P); discriminate].
    destruct (ElevenLabs.disabled this) eqn:Hd.
    + rewrite (generateSpeech_disabled this amb t voiceId stability similarity tr w Hd
                 P).
      intros H. inversion H. now left.
    + destruct (validSpeech_dec (JStr t) voiceId) as [Hv | Hv].
      * unfold validSpeech in Hv.
        destruct (speech_validateInput_ok _ _ Hv) as (t' & v & _ & Ev & Tv).
        unfold ElevenLabs.generateSpeech. rewrite Hd, Hv, Ev. rewrite Ev in Tv.
        cbn [isString negb orb]. rewrite Tv.
        unfold bind, lift, tryCatch, ret, axios, send, throw. cbn.
        destruct (tr _ _) as [resp | e].
        -- destruct resp as [st hs [j | bytes]]; [destruct j |]; cbn;
             intros H; inversion H; right;
             exists (typeError "The first argument must be of type string or an instance of Buffer, ArrayBuffer, or Array or an Array-like Object.");
             reflexivity.
        -- cbn. intros H. inversion H. right. now exists e.
      * unfold validSpeech in Hv. unfold ElevenLabs.generateSpeech.
        rewrite (interpolate_defaulted voiceId (JStr ElevenLabs.defaultVoiceId)
                   eq_refl), P, Hd.
        unfold bind, lift, tryCatch, ret. cbn [substringOf].
        destruct (ElevenLabs._validateInput _ _) as [[] | th] eqn:E; [congruence |].
        destruct (speech_validateInput_throws _ _ _ E) as (msg & ->).
        cbn. intros H. inversion H. right.
        exists (newError (JS.text msg)). reflexivity.
  - destruct (generateSpeech_not_string this amb text voiceId stability similarity tr w
                Hs) as (msg & E).
    rewrite E. discriminate.
Qed.

(** A success of [generateVideo] has invoked the transport. *)
Lemma generateVideo_success_called this amb params tr r :
  fst (FalClient.generateVideo this amb params tr []) = Ret (FalClient.VideoOk r) ->
  (1 <= transportCalls (snd (FalClient.generateVideo this amb params tr [])))%nat.
Proof.
  intros H. destruct (validVideo_dec params) as [Hv | Hv].
  - destruct (generateVideo_trace this amb params Hv) as (payload & E).
    rewrite E. unfold FalClient._makeRequestWithRetry. rewrite Nat.add_1_r.
    destruct (retryLoop_shape this (FalClient.request this "/fal-ai/pika-1.0" payload)
                (FalClient.maxRetries this) 1%nat ThrowNull tr [])
      as (evs & r0 & E0 & C & _); [lia |].
    rewrite E0, app_nil_r. cbn [snd]. lia.
  - exfalso. destruct params as [prompt duration aspectRatio].
    destruct (isString prompt) eqn:Hs.
    + destruct prompt as [| | | | p |]; try discriminate.
      destruct (printable_dec duration) as [Pd | Pd];
        [destruct (printable_dec aspectRatio) as [Pa | Pa] |].
      * destruct (generateVideo_rejects this amb p duration aspectRatio tr [] Pd Pa Hv)
          as (msg & E).
        rewrite E in H. discriminate.
      * rewrite (generateVideo_not_printable this amb p duration aspectRatio tr []
                   (or_intror Pa)) in H.
        discriminate.
      * rewrite (generateVideo_not_printable this amb p duration aspectRatio tr []
                   (or_introl Pd)) in H.
        discriminate.
    + unfold FalClient.generateVideo in H. cbn [FalClient.prompt] in H.
      destruct prompt; try discriminate; cbn in H; discriminate.
Qed.

(** A success of [generateSpeech] has invoked the transport. *)
Lemma generateSpeech_success_called this amb text voiceId stability similarity tr r :
  fst (ElevenLabs.generateSpeech this amb text voiceId stability similarity tr [])
  = Ret (ElevenLabs.SpeechOk r) ->
  (1 <= transportCalls
          (snd (ElevenLabs.generateSpeech this amb text voiceId stability similarity
                  tr [])))%nat.
Proof.
  intros H. destruct (speech_ready_dec this text voiceId) as [[Hd Hv] | Hr].
  - pose proof Hv as Hv'. unfold validSpeech in Hv'.
    destruct (speech_validateInput_ok _ _ Hv') as (t & v & -> & Ev & _).
    rewrite (generateSpeech_trace this amb t voiceId v stability similarity tr []
               Hd Ev Hv).
    cbn. lia.
  - exfalso. destruct (isString text) eqn:Hs.
    + destruct text as [| | | | t |]; try discriminate.
      destruct (printable_dec voiceId) as [P | P];
        [| rewrite (generateSpeech_not_printable this amb t voiceId stability
                      similarity tr [] P) in H; discriminate].
      destruct (ElevenLabs.disabled this) eqn:Hd.
      * rewrite (generateSpeech_disabled this amb t voiceId stability similarity tr []
                   Hd P) in H.
        discriminate.
      * destruct Hr as [Hr | Hr]; [discriminate |].
        destruct (generateSpeech_invalid this amb t voiceId stability similarity tr []
                    Hd P Hr) as (f & E & _).
        rewrite E in H. discriminate.
    + destruct (generateSpeech_not_string this amb text voiceId stability similarity
                  tr [] Hs) as (msg & E).
      rewrite E in H. discriminate.
Qed.

(** X14: the handler of [POST /generate], for a body whose prompt is a
    string or absent, always replies and never throws, whatever the
    client, the context and the transport; the reply has status 200
    exactly when [success] is true, its status is one of 200, 400, 402,
    403, 429, 500 and 503, and a success is never reported without a
    request to the provider. *)
Theorem video_reply_invariants falClient ctx amb svcAmb reqBody tr :
  optSubstringOf (FalClient.prompt reqBody) = Ret tt ->
  exists reply,
    outcome (VideoRoute.postGenerate falClient ctx amb svcAmb reqBody) tr = Ret reply
    /\ (statusCode reply = 200%Z <-> replySuccess reply = true)
    /\ In (statusCode reply) [200; 400; 402; 403; 429; 500; 503]%Z
    /\ (replySuccess reply = true ->
        (1 <= calls (VideoRoute.postGenerate falClient ctx amb svcAmb reqBody) tr)%nat).
Proof.
  intros Hp. unfold outcome, calls, run.
  destruct (errorsEmpty ctx) eqn:He;
    [destruct falClient as [client |];
     [destruct (envTruthy (API_KEY ctx)) eqn:Hk |] |].
  - rewrite (postGenerate_reaches client ctx amb svcAmb reqBody tr Hp (conj He Hk)).
    pose proof (generateVideo_not_null client svcAmb reqBody tr []) as N.
    pose proof (generateVideo_success_called client svcAmb reqBody tr) as S.
    destruct (FalClient.generateVideo client svcAmb reqBody tr []) as [[[r | f] | t] w].
    + eexists. split; [reflexivity |]. cbn. split; [tauto |]. split; [tauto |].
      intros _. exact (S r eq_refl).
    + eexists. split; [reflexivity |]. cbn [statusCode fst snd].
      unfold replySuccess. cbn [body].
      split; [| split; [apply video_status_in | discriminate]].
      split; [intros H; now apply video_status_not_200 in H | discriminate].
    + destruct (@systemError_replies FalClient.VideoSuccess amb (NODE_ENV ctx) t tr w)
        as (reply & E & Es & Eb & _).
      { intros ->. now apply N. }
      rewrite E. exists reply. split; [reflexivity |]. rewrite Es, Eb.
      split; [split; discriminate |]. split; [cbn; tauto | discriminate].
  - unfold VideoRoute.postGenerate, bind, lift, tryCatch, ret. rewrite Hp, He, Hk.
    eexists. split; [reflexivity |]. cbn.
    split; [split; discriminate |]. split; [tauto | discriminate].
  - unfold VideoRoute.postGenerate, bind, lift, tryCatch, ret. rewrite Hp, He.
    eexists. split; [reflexivity |]. cbn.
    split; [split; discriminate |]. split; [tauto | discriminate].
  - unfold VideoRoute.postGenerate, bind, lift, tryCatch, ret. rewrite Hp, He.
    eexists. split; [reflexivity |]. cbn.
    split; [split; discriminate |]. split; [tauto | discriminate].
Qed.

Lemma video_reply_invariants_witness :
  exists reply,
    outcome (VideoRoute.postGenerate None okContext someAmbient someAmbient sunset)
            alwaysAudio = Ret reply
    /\ In (statusCode reply) [200; 400; 402; 403; 429; 500; 503]%Z.
Proof.
  destruct (video_reply_invariants None okContext someAmbient someAmbient sunset
              alwaysAudio) as (reply & E & _ & I & _).
  - reflexivity.
  - exists reply. split; [exact E | exact I].
Defined.

(** X15: the handler of [POST /tts], for a body whose text is a string or
    absent, always replies and never throws; the reply has status 200
    exactly when [success] is true, its status is one of 200, 400, 402,
    429, 500 and 503 (never 403: the speech client has no ACCESS_DENIED
    failure), and a success is never reported without a request to the
    provider. *)
Theorem audio_reply_invariants service ctx amb svcAmb reqBody tr :
  optSubstringOf (AudioRoute.text reqBody) = Ret tt ->
  exists reply,
    outcome (AudioRoute.postTts service ctx amb svcAmb reqBody) tr = Ret reply
    /\ (statusCode reply = 200%Z <-> replySuccess reply = true)
    /\ In (statusCode reply) [200; 400; 402; 429; 500; 503]%Z
    /\ (replySuccess reply = true ->
        (1 <= calls (AudioRoute.postTts service ctx amb svcAmb reqBody) tr)%nat).
Proof.
  intros Hp. unfold outcome, calls, run.
  destruct (errorsEmpty ctx) eqn:He;
    [destruct service as [svc |];
     [destruct (envTruthy (API_KEY ctx)) eqn:Hk |] |].
  - rewrite (postTts_reaches svc ctx amb svcAmb reqBody tr Hp (conj He Hk)).
    pose proof (generateSpeech_not_null svc svcAmb (AudioRoute.text reqBody)
                  (AudioRoute.voiceId reqBody)
                  (JNum (AudioRoute.normalizedStability (AudioRoute.stability reqBody)))
                  (JNum (AudioRoute.normalizedSimilarity (AudioRoute.similarity reqBody)))
                  tr []) as N.
    pose proof (generateSpeech_success_called svc svcAmb (AudioRoute.text reqBody)
                  (AudioRoute.voiceId reqBody)
                  (JNum (AudioRoute.normalizedStability (AudioRoute.stability reqBody)))
                  (JNum (AudioRoute.normalizedSimilarity (AudioRoute.similarity reqBody)))
                  tr) as S.
    pose proof (generateSpeech_failure svc svcAmb (AudioRoute.text reqBody)
                  (AudioRoute.voiceId reqBody)
                  (JNum (AudioRoute.normalizedStability (AudioRoute.stability reqBody)))
                  (JNum (AudioRoute.normalizedSimilarity (AudioRoute.similarity reqBody)))
                  tr []) as F.
    destruct (ElevenLabs.generateSpeech svc svcAmb _ _ _ _ tr []) as [[[r | f] | t] w].
    + eexists. split; [reflexivity |]. cbn. split; [tauto |]. split; [tauto |].
      intros _. exact (S r eq_refl).
    + eexists. split; [reflexivity |]. cbn [statusCode fst snd].
      unfold replySuccess. cbn [body].
      split; [split; [intros H; now apply audio_status_not_200 in H | discriminate] |].
      split; [| discriminate].
      apply audio_status_in. destruct (F f eq_refl) as [E | (e & ->)].
      * rewrite E. discriminate.
      * apply classify_not_access_denied.
    + destruct (@systemError_replies ElevenLabs.SpeechSuccess amb (NODE_ENV ctx) t tr w)
        as (reply & E & Es & Eb & _).
      { intros ->. now apply N. }
      rewrite E. exists reply. split; [reflexivity |]. rewrite Es, Eb.
      split; [split; discriminate |]. split; [cbn; tauto | discriminate].
  - unfold AudioRoute.postTts, bind, lift, tryCatch, ret. rewrite Hp, He, Hk.
    eexists. split; [reflexivity |]. cbn.
    split; [split; discriminate |]. split; [tauto | discriminate].
  - unfold AudioRoute.postTts, bind, lift, tryCatch, ret. rewrite Hp, He.
    eexists. split; [reflexivity |]. cbn.
    split; [split; discriminate |]. split; [tauto | discriminate].
  - unfold AudioRoute.postTts, bind, lift, tryCatch, ret. rewrite Hp, He.
    eexists. split; [reflexivity |]. cbn.
    split; [split; discriminate |]. split; [tauto | discriminate].
Qed.

Lemma audio_reply_invariants_witness :
  exists reply,
    outcome (AudioRoute.postTts (AudioRoute.elevenLabsService demoKey) okContext
               someAmbient someAmbient
               (AudioRoute.mkBody (JStr "Hello world") JUndefined JUndefined JUndefined))
            (alwaysStatus 403) = Ret reply
    /\ In (statusCode reply) [200; 400; 402; 429; 500; 503]%Z.
Proof.
  destruct (audio_reply_invariants (AudioRoute.elevenLabsService demoKey) okContext
              someAmbient someAmbient
              (AudioRoute.mkBody (JStr "Hello world") JUndefined JUndefined JUndefined)
              (alwaysStatus 403)) as (reply & E & _ & I & _).
  - reflexivity.
  - exists reply. split; [exact E | exact I].
Defined.

(** *** The audio of a reply *)

Lemma length_encode bs :
  String.length (Base64.encode bs) = (4 * ((List.length bs + 2) / 3))%nat.
Proof.
  induction bs as [| a | a b | a b c l IH] using list_ind3; try reflexivity.
  cbn [Base64.encode String.length List.length]. rewrite IH.
  replace (S (S (S (List.length l))) + 2)%nat with ((List.length l + 2) + 1 * 3)%nat
    by lia.
  rewrite Nat.div_add by lia. lia.
Qed.

Lemma isBase64Char_digit s : isBase64Char (Base64.digit s) = true.
Proof. unfold isBase64Char. rewrite unDigit_digit. apply orb_true_r. Qed.

Lemma encode_alphabet bs :
  Forall (fun c => isBase64Char c = true) (list_ascii_of_string (Base64.encode bs)).
Proof.
  induction bs as [| a | a b | a b c l IH] using list_ind3;
    cbn [Base64.encode list_ascii_of_string];
    repeat (constructor; [apply isBase64Char_digit || reflexivity |]);
    try constructor.
  exact IH.
Qed.

(** A success of [generateSpeech] holds the encoding of the bytes
    [Buffer.from] made of the answer to its request. *)
Lemma generateSpeech_success this amb text voiceId stability similarity tr r :
  fst (ElevenLabs.generateSpeech this amb text voiceId stability similarity tr [])
  = Ret (ElevenLabs.SpeechOk r) ->
  exists rq response bytes,
    snd (ElevenLabs.generateSpeech this amb text voiceId stability similarity tr [])
    = [Sent rq (Fulfilled response)]
    /\ Buffer.from (data response) = Ret bytes
    /\ ElevenLabs.audioBase64 r = Base64.encode bytes
    /\ ElevenLabs.audioSize r = List.length bytes
    /\ ElevenLabs.audioFormat r = "audio/mpeg".
Proof.
  destruct (speech_ready_dec this text voiceId) as [[Hd Hv] | Hr].
  - unfold validSpeech in Hv.
    destruct (speech_validateInput_ok _ _ Hv) as (t & v & -> & Ev & Tv).
    unfold ElevenLabs.generateSpeech. rewrite Hd, Hv, Ev. rewrite Ev in Tv.
    cbn [isString negb orb]. rewrite Tv.
    unfold bind, lift, tryCatch, ret, axios, send, throw. cbn.
    destruct (tr _ _) as [resp | e]; [| discriminate].
    destruct resp as [st hs [j | bytes]]; [destruct j |]; cbn;
      intros H; inversion H; subst r;
      eexists; eexists; eexists; (split; [reflexivity |]); cbn;
      (split; [reflexivity |]); repeat split.
  - intros H. exfalso.
    pose proof (generateSpeech_success_called this amb text voiceId stability
                  similarity tr r H) as C.
    rewrite (generateSpeech_silent this amb text voiceId stability similarity tr []
               Hr) in C.
    cbn in C. lia.
Qed.

Lemma generateSpeech_calls_le this amb text voiceId stability similarity tr :
  (transportCalls
     (snd (ElevenLabs.generateSpeech this amb text voiceId stability similarity tr []))
   <= 1)%nat.
Proof.
  destruct (speech_ready_dec this text voiceId) as [[Hd Hv] | H].
  - pose proof Hv as Hv'. unfold validSpeech in Hv'.
    destruct (speech_validateInput_ok _ _ Hv') as (t & v & -> & Ev & _).
    rewrite (generateSpeech_trace this amb t voiceId v stability similarity tr []
               Hd Ev Hv).
    cbn. lia.
  - rewrite (generateSpeech_silent this amb text voiceId stability similarity tr [] H).
    cbn. lia.
Qed.

(** X16: every success reply of [POST /tts] is consistent with what the
    provider answered.  The one request of the call was fulfilled; the
    [audioBase64] of the reply decodes to exactly the bytes of that
    answer; [audioSize] is their number; the base64 text has
    [4 * ceil(audioSize / 3)] characters, all from the base64 alphabet
    or [=]; and the format is [audio/mpeg]. *)
Theorem tts_success_reply_is_consistent service ctx amb svcAmb reqBody tr reply r :
  outcome (AudioRoute.postTts service ctx amb svcAmb reqBody) tr = Ret reply ->
  body reply = Succeeded r ->
  exists rq response bytes,
    snd (run (AudioRoute.postTts service ctx amb svcAmb reqBody) tr)
    = [Sent rq (Fulfilled response)]
    /\ Buffer.from (data response) = Ret bytes
    /\ Base64.decode (ElevenLabs.audioBase64 r) = Some bytes
    /\ ElevenLabs.audioSize r = List.length bytes
    /\ String.length (ElevenLabs.audioBase64 r)
       = (4 * ((ElevenLabs.audioSize r + 2) / 3))%nat
    /\ Forall (fun c => isBase64Char c = true)
         (list_ascii_of_string (ElevenLabs.audioBase64 r))
    /\ ElevenLabs.audioFormat r = "audio/mpeg"
    /\ statusCode reply = 200%Z.
Proof.
  unfold outcome, run. intros Ho Hb.
  assert (Hr : exists svc,
             service = Some svc /\ optSubstringOf (AudioRoute.text reqBody) = Ret tt
             /\ passes ctx).
  { destruct (optSubstringOf (AudioRoute.text reqBody)) as [[] | t] eqn:Hp.
    - destruct (errorsEmpty ctx) eqn:He.
      + destruct service as [svc |].
        * destruct (envTruthy (API_KEY ctx)) eqn:Hk.
          -- exists svc. repeat split; assumption.
          -- exfalso. unfold AudioRoute.postTts, bind, lift, tryCatch, ret in Ho.
             rewrite Hp, He, Hk in Ho. cbn in Ho. inversion Ho; subst reply.
             discriminate.
        * exfalso. unfold AudioRoute.postTts, bind, lift, tryCatch, ret in Ho.
          rewrite Hp, He in Ho. cbn in Ho. inversion Ho; subst reply. discriminate.
      + exfalso. unfold AudioRoute.postTts, bind, lift, tryCatch, ret in Ho.
        rewrite Hp, He in Ho. cbn in Ho. inversion Ho; subst reply. discriminate.
    - exfalso. unfold AudioRoute.postTts, bind, lift in Ho. rewrite Hp in Ho.
      discriminate. }
  destruct Hr as (svc & -> & Hp & Hc).
  rewrite (postTts_reaches svc ctx amb svcAmb reqBody tr Hp Hc) in Ho |- *.
  pose proof (generateSpeech_success svc svcAmb (AudioRoute.text reqBody)
                (AudioRoute.voiceId reqBody)
                (JNum (AudioRoute.normalizedStability (AudioRoute.stability reqBody)))
                (JNum (AudioRoute.normalizedSimilarity (AudioRoute.similarity reqBody)))
                tr) as S.
  pose proof (generateSpeech_not_null svc svcAmb (AudioRoute.text reqBody)
                (AudioRoute.voiceId reqBody)
                (JNum (AudioRoute.normalizedStability (AudioRoute.stability reqBody)))
                (JNum (AudioRoute.normalizedSimilarity (AudioRoute.similarity reqBody)))
                tr []) as N.
  destruct (ElevenLabs.generateSpeech svc svcAmb _ _ _ _ tr []) as [[[r' | f] | t] w].
  - cbn in Ho. inversion Ho; subst reply. cbn in Hb. inversion Hb; subst r'.
    destruct (S r eq_refl) as (rq & response & bytes & Ew & Eb & E64 & Es & Ef).
    exists rq, response, bytes. cbn [snd] in Ew |- *.
    split; [exact Ew |]. split; [exact Eb |].
    split; [rewrite E64; apply decode_encode |]. split; [exact Es |].
    split; [rewrite E64, Es; apply length_encode |].
    split; [rewrite E64; apply encode_alphabet |]. split; [exact Ef | reflexivity].
  - cbn in Ho. inversion Ho; subst reply. discriminate.
  - destruct (@systemError_replies ElevenLabs.SpeechSuccess amb (NODE_ENV ctx) t tr w)
      as (reply' & E & _ & Eb & _).
    { intros ->. now apply N. }
    rewrite E in Ho. cbn in Ho. inversion Ho; subst reply'.
    unfold replySuccess in Eb. rewrite Hb in Eb. discriminate.
Qed.

Lemma tts_success_reply_is_consistent_witness :
  exists rq response bytes,
    snd (run (AudioRoute.postTts (AudioRoute.elevenLabsService demoKey) okContext
                someAmbient someAmbient
                (AudioRoute.mkBody (JStr "Hello world") JUndefined JUndefined JUndefined))
             alwaysAudio)
    = [Sent rq (Fulfilled response)]
    /\ Buffer.from (data response) = Ret bytes
    /\ Base64.decode "SUQz" = Some bytes.
Proof.
  destruct (tts_success_reply_is_consistent (AudioRoute.elevenLabsService demoKey)
              okContext someAmbient someAmbient
              (AudioRoute.mkBody (JStr "Hello world") JUndefined JUndefined JUndefined)
              alwaysAudio
              (mkReply 200
                 (Succeeded
                    (ElevenLabs.mkSuccess "req_1_abc" "SUQz" "audio/mpeg" 3 1
                       (JStr "Hello world") (JStr ElevenLabs.defaultVoiceId)
                       "2024-02-27T21:00:00.000Z")))
              (ElevenLabs.mkSuccess "req_1_abc" "SUQz" "audio/mpeg" 3 1
                 (JStr "Hello world") (JStr ElevenLabs.defaultVoiceId)
                 "2024-02-27T21:00:00.000Z"))
    as (rq & response & bytes & Ew & Eb & Ed & _).
  - reflexivity.
  - reflexivity.
  - exists rq, response, bytes. split; [exact Ew |]. split; [exact Eb | exact Ed].
Defined.

(** *** The two classifiers of the speech client *)

Lemma speech_handleError_status this e r :
  response e = Some r ->
  ElevenLabs.type (ElevenLabs._handleError this e)
  = let s := JS.status r in
    if (s =? 401)%Z then INVALID_API_KEY
    else if (s =? 403)%Z then ACCESS_DENIED
    else if (s =? 429)%Z then RATE_LIMITED
    else if (s =? 400)%Z then BAD_REQUEST
    else if (s =? 402)%Z then PAYMENT_REQUIRED
    else if (s =? 500)%Z || (s =? 502)%Z || (s =? 503)%Z || (s =? 504)%Z
    then SERVER_ERROR
    else API_ERROR.
Proof.
  intros H. unfold ElevenLabs._handleError. rewrite H. cbn zeta.
  repeat match goal with
         | |- context [if ?b then _ else _] => destruct b; try reflexivity
         end.
Qed.

Lemma speech_handleError_network this e :
  response e = None ->
  ElevenLabs.type (ElevenLabs._handleError this e)
  = match code e with
    | Some s =>
        if String.eqb s "" then UNKNOWN_ERROR
        else if String.eqb s "ECONNABORTED" then TIMEOUT
        else NETWORK_ERROR
    | None => UNKNOWN_ERROR
    end.
Proof.
  intros H. unfold ElevenLabs._handleError. rewrite H, code_switch.
  destruct (code e) as [s |]; cbn [envTruthy]; [| reflexivity].
  destruct (String.eqb s ""); cbn [negb]; [reflexivity |].
  destruct (String.eqb s "ECONNABORTED"); [reflexivity |].
  destruct (String.eqb s "ENOTFOUND" || String.eqb s "ECONNREFUSED"); reflexivity.
Qed.

(** X17: the method [_handleError] of the speech client and the [catch]
    block [generateSpeech] really runs give a failure the same error type,
    except in three cases: an answer with status 403 (ACCESS_DENIED by
    the method, API_ERROR by the block), an answer with status 404
    (API_ERROR by the method, INVALID_VOICE_OR_URL by the block), and a
    network failure whose code is none of ECONNABORTED, ENOTFOUND and
    ECONNREFUSED (NETWORK_ERROR by the method, UNKNOWN_ERROR by the
    block). *)
Theorem speech_classifiers_agree_except this amb e :
  ElevenLabs.type (ElevenLabs._handleError this e)
  = f_errorType (ElevenLabs.classify amb e)
  <-> ~ classifiedDifferently e.
Proof.
  unfold classifiedDifferently.
  destruct (response e) as [r |] eqn:Er.
  - rewrite (speech_handleError_status this e r Er), (classify_status amb e r Er).
    cbn zeta. generalize (JS.status r). intros s. split.
    + intros H [-> | ->]; discriminate.
    + intros H.
      destruct (Z.eqb_spec s 403); [exfalso; apply H; now left |].
      destruct (Z.eqb_spec s 404); [exfalso; apply H; now right |].
      reflexivity.
  - rewrite (speech_handleError_network this e Er), (classify_network amb e Er).
    destruct (code e) as [s |]; [| tauto]. unfold knownCode.
    destruct (String.eqb_spec s ""); [subst; cbn; tauto |].
    destruct (String.eqb s "ECONNABORTED"); cbn [orb]; [intuition congruence |].
    destruct (String.eqb s "ENOTFOUND" || String.eqb s "ECONNREFUSED");
      [intuition congruence |].
    split; [discriminate | intros H; exfalso; apply H; now split].
Qed.

(** *** A missing or malformed key *)

Lemma falClient_none_iff key :
  VideoRoute.falClient key = None <-> credentialRejected key.
Proof.
  unfold VideoRoute.falClient, FalClient.new, FalClient._validateApiKey,
    credentialRejected, throwNew.
  cbn [FalClient.apiKey].
  destruct key as [k |]; cbn [envTruthy negb]; [| tauto].
  destruct (String.eqb_spec k "") as [-> | Hk]; cbn [negb].
  - cbn. split; [lia | reflexivity].
  - destruct (Nat.ltb_spec (String.length k) 10).
    + tauto.
    + split; [discriminate | lia].
Qed.

(** X18: the video client and a rejected key.  The constructor of the Fal
    client throws exactly when the key is absent or shorter than ten
    characters; the route then holds no client and [POST /generate]
    answers a body that passed validation with 503 SERVICE_UNAVAILABLE,
    without a request to the provider.  For any other key the route holds
    the client for [https://fal.run] with a timeout of 60000 ms and one
    retry, whose configuration reports the key as present with its length,
    at least ten. *)
Theorem video_client_and_key key :
  (credentialRejected key ->
   VideoRoute.falClient key = None
   /\ forall ctx amb svcAmb reqBody tr,
        optSubstringOf (FalClient.prompt reqBody) = Ret tt ->
        errorsEmpty ctx = true ->
        exists reply,
          outcome (VideoRoute.postGenerate (VideoRoute.falClient key) ctx amb svcAmb
                     reqBody) tr = Ret reply
          /\ statusCode reply = 503%Z
          /\ replyErrorType reply = Some SERVICE_UNAVAILABLE
          /\ calls (VideoRoute.postGenerate (VideoRoute.falClient key) ctx amb svcAmb
                      reqBody) tr = 0%nat)
  /\ (~ credentialRejected key ->
      exists k,
        key = Some k /\ (10 <= String.length k)%nat
        /\ VideoRoute.falClient key
           = Some (FalClient.mkService "https://fal.run" (Some k) 60000 1)
        /\ FalClient.getConfig (FalClient.mkService "https://fal.run" (Some k) 60000 1)
           = FalClient.mkConfig "https://fal.run" 60000 1 true (String.length k)).
Proof.
  split.
  - intros Hk. apply falClient_none_iff in Hk. split; [exact Hk |].
    intros ctx amb svcAmb reqBody tr Hp He. rewrite Hk.
    unfold outcome, calls, run, VideoRoute.postGenerate, bind, lift, tryCatch, ret.
    rewrite Hp, He. eexists. repeat split.
  - intros Hk.
    destruct (VideoRoute.falClient key) as [client |] eqn:E;
      [| apply falClient_none_iff in E; contradiction].
    unfold credentialRejected in Hk. destruct key as [k |]; [| now contradiction Hk].
    exists k. split; [reflexivity |]. split; [lia |].
    unfold VideoRoute.falClient in E.
    destruct (FalClient.new (Some k)) as [c |] eqn:En; [| discriminate].
    apply FalClient_new_inv in En. inversion E; subst. split; [reflexivity |].
    unfold FalClient.getConfig. cbn [FalClient.apiKey FalClient.baseURL
      FalClient.timeout FalClient.maxRetries envTruthy].
    destruct (String.eqb_spec k "") as [-> | _]; [cbn in Hk; lia | reflexivity].
Qed.

Lemma video_client_and_key_witness :
  VideoRoute.falClient (Some "short") = None /\ VideoRoute.falClient None = None.
Proof.
  split.
  - apply (proj1 (video_client_and_key (Some "short"))). cbn. lia.
  - apply (proj1 (video_client_and_key None)). exact I.
Defined.

(** X19: the speech client and a rejected key.  The constructor never
    throws, so the route always holds a service.  With a key that is
    absent or shorter than ten characters, [POST /tts] answers a body
    that passed validation with status 500 and sends nothing to the
    provider.  When the key is absent or empty the service is not called
    and the error type is MISSING_API_KEY; when the key is there but too
    short, the service is called: it finds itself disabled and the reply
    is SERVICE_DISABLED, unless the voice id cannot be printed (the
    validators of the route let only a string or an absent voice id
    through), in which case the logging line of the service throws and
    the reply is SYSTEM_ERROR. *)
Theorem speech_client_and_key key ctx amb svcAmb reqBody tr t :
  credentialRejected key ->
  API_KEY ctx = key ->
  errorsEmpty ctx = true ->
  AudioRoute.text reqBody = JStr t ->
  exists reply,
    outcome (AudioRoute.postTts (AudioRoute.elevenLabsService key) ctx amb svcAmb
               reqBody) tr = Ret reply
    /\ statusCode reply = 500%Z
    /\ calls (AudioRoute.postTts (AudioRoute.elevenLabsService key) ctx amb svcAmb
                reqBody) tr = 0%nat
    /\ (envTruthy key = false -> replyErrorType reply = Some MISSING_API_KEY)
    /\ (envTruthy key = true ->
        (printable (AudioRoute.voiceId reqBody) ->
         replyErrorType reply = Some SERVICE_DISABLED)
        /\ (~ printable (AudioRoute.voiceId reqBody) ->
            replyErrorType reply = Some SYSTEM_ERROR)).
Proof.
  intros Hk Ek He Et. unfold AudioRoute.elevenLabsService.
  destruct (envTruthy key) eqn:Hn.
  - unfold outcome, calls, run.
    assert (Hs : optSubstringOf (AudioRoute.text reqBody) = Ret tt)
      by (rewrite Et; reflexivity).
    assert (Hp : passes ctx) by (split; [exact He | now rewrite Ek]).
    rewrite (postTts_reaches (ElevenLabs.new key) ctx amb svcAmb reqBody tr Hs Hp).
    rewrite Et.
    destruct (printable_dec (AudioRoute.voiceId reqBody)) as [P | P].
    + rewrite (generateSpeech_disabled (ElevenLabs.new key) svcAmb t _ _ _ tr [])
        by (now apply new_disabled_iff || exact P).
      eexists. split; [reflexivity |]. split; [reflexivity |].
      split; [reflexivity |]. split; [discriminate |].
      intros _. split; [reflexivity | intros N; contradiction].
    + rewrite (generateSpeech_not_printable (ElevenLabs.new key) svcAmb t _ _ _ tr []
                 P).
      eexists. split; [reflexivity |]. split; [reflexivity |].
      split; [reflexivity |]. split; [discriminate |].
      intros _. split; [intros N; contradiction | reflexivity].
  - unfold outcome, calls, run, AudioRoute.postTts, bind, lift, tryCatch, ret.
    rewrite Et, He, Ek, Hn. eexists. split; [reflexivity |].
    split; [reflexivity |]. split; [reflexivity |].
    split; [reflexivity | discriminate].
Qed.

Lemma speech_client_and_key_witness :
  (exists reply,
     outcome (AudioRoute.postTts (AudioRoute.elevenLabsService (Some "short"))
                (mkContext (Some "short") None true JUndefined) someAmbient someAmbient
                (AudioRoute.mkBody (JStr "Hello world") JUndefined JUndefined JUndefined))
             alwaysAudio = Ret reply
     /\ statusCode reply = 500%Z
     /\ replyErrorType reply = Some SERVICE_DISABLED)
  /\ (exists reply,
        outcome (AudioRoute.postTts (AudioRoute.elevenLabsService (Some "short"))
                   (mkContext (Some "short") None true JUndefined) someAmbient
                   someAmbient
                   (AudioRoute.mkBody (JStr "Hello world")
                      (JObj [("toString", JNum 1)]) JUndefined JUndefined))
                alwaysAudio = Ret reply
        /\ statusCode reply = 500%Z
        /\ replyErrorType reply = Some SYSTEM_ERROR)
  /\ (exists reply,
        outcome (AudioRoute.postTts (AudioRoute.elevenLabsService None)
                   (mkContext None None true JUndefined) someAmbient someAmbient
                   (AudioRoute.mkBody (JStr "Hello world") JUndefined JUndefined
                      JUndefined))
                alwaysAudio = Ret reply
        /\ statusCode reply = 500%Z
        /\ replyErrorType reply = Some MISSING_API_KEY).
Proof.
  split; [| split].
  - destruct (speech_client_and_key (Some "short")
                (mkContext (Some "short") None true JUndefined) someAmbient someAmbient
                (AudioRoute.mkBody (JStr "Hello world") JUndefined JUndefined JUndefined)
                alwaysAudio "Hello world") as (reply & E & S & _ & _ & T).
    + cbn. lia.
    + reflexivity.
    + reflexivity.
    + reflexivity.
    + exists reply. split; [exact E |]. split; [exact S |].
      apply (T eq_refl). reflexivity.
  - destruct (speech_client_and_key (Some "short")
                (mkContext (Some "short") None true JUndefined) someAmbient someAmbient
                (AudioRoute.mkBody (JStr "Hello world") (JObj [("toString", JNum 1)])
                   JUndefined JUndefined)
                alwaysAudio "Hello world") as (reply & E & S & _ & _ & T).
    + cbn. lia.
    + reflexivity.
    + reflexivity.
    + reflexivity.
    + exists reply. split; [exact E |]. split; [exact S |].
      apply (T eq_refl). unfold printable. cbn. discriminate.
  - destruct (speech_client_and_key None (mkContext None None true JUndefined)
                someAmbient someAmbient
                (AudioRoute.mkBody (JStr "Hello world") JUndefined JUndefined JUndefined)
                alwaysAudio "Hello world") as (reply & E & S & _ & M & _).
    + exact I.
    + reflexivity.
    + reflexivity.
    + reflexivity.
    + exists reply. split; [exact E |]. split; [exact S |]. apply M. reflexivity.
Defined.

(** *** The health routes *)

Lemma fal_checkHealth_run this tr w :
  FalClient.checkHealth this tr w
  = (Ret (match tr (transportCalls w) (falProbe this) with
          | Fulfilled response =>
              FalClient.mkHealth "healthy" true
                (Some (orUnknown (header "x-response-time" (headers response)))) None
          | Rejected error =>
              FalClient.mkHealth "unhealthy" false None (Some (message error))
          end),
     Sent (falProbe this) (tr (transportCalls w) (falProbe this)) :: w).
Proof.
  unfold FalClient.checkHealth, falProbe, axios.
  unfold bind, lift, tryCatch, ret, send, throw.
  destruct (tr _ _); reflexivity.
Qed.

Lemma speech_checkHealth_run this tr w :
  ElevenLabs.checkHealth this tr w
  = (Ret (match tr (transportCalls w) (speechProbe this) with
          | Fulfilled response =>
              ElevenLabs.mkHealth "healthy" true
                (Some (orUnknown (header "x-response-time" (headers response)))) None
          | Rejected error =>
              ElevenLabs.mkHealth "unhealthy" false None (Some (message error))
          end),
     Sent (speechProbe this) (tr (transportCalls w) (speechProbe this)) :: w).
Proof.
  unfold ElevenLabs.checkHealth, speechProbe, axios.
  unfold bind, lift, tryCatch, ret, send, throw.
  destruct (tr _ _); reflexivity.
Qed.

(** X20: [GET /health] of the video route.  The handler never throws and
    never answers 500: without a client it answers 503 and sends nothing;
    with a client it sends exactly one probe, [GET <baseURL>/health]
    without a credential, and answers 200 exactly when the probe was
    fulfilled, 503 otherwise.  In every case the body says [success: true],
    also on 503, and [hasApiKey] tells whether [FAL_KEY] is set. *)
Theorem video_health_route falClient FAL_KEY amb tr :
  exists code svc,
    outcome (VideoRoute.getHealth falClient FAL_KEY amb) tr
    = Ret (code, VideoRoute.HealthReport true svc)
    /\ VideoRoute.sh_hasApiKey svc = envTruthy FAL_KEY
    /\ match falClient with
       | None =>
           code = 503%Z
           /\ VideoRoute.sh_initialized svc = false
           /\ VideoRoute.sh_reachable svc = false
           /\ snd (run (VideoRoute.getHealth falClient FAL_KEY amb) tr) = []
       | Some client =>
           snd (run (VideoRoute.getHealth falClient FAL_KEY amb) tr)
           = [Sent (falProbe client) (tr 0%nat (falProbe client))]
           /\ (code = 200%Z <-> fulfilled (tr 0%nat (falProbe client)))
           /\ (code = 503%Z <-> ~ fulfilled (tr 0%nat (falProbe client)))
           /\ (VideoRoute.sh_reachable svc = true <-> code = 200%Z)
           /\ VideoRoute.sh_initialized svc = true
           /\ VideoRoute.sh_config svc = Some (FalClient.getConfig client)
       end.
Proof.
  destruct falClient as [client |].
  - unfold outcome, run, VideoRoute.getHealth, tryCatch, bind, ret.
    rewrite fal_checkHealth_run. cbn [transportCalls filter List.length].
    destruct (tr 0%nat (falProbe client)) as [r | e];
      eexists; eexists; (split; [reflexivity |]); cbn;
      repeat split; try tauto; try discriminate; try (intros H; now contradiction H).
  - eexists. eexists. split; [reflexivity |]. cbn. repeat split.
Qed.

(** X21: [GET /health] of the audio route.  Its service object is always
    there (the constructor of the speech client never throws), so the
    handler always sends exactly one probe, [GET <baseURL>/voices] with
    the key as it is in the [xi-api-key] header, also when the key was
    rejected and the service is disabled.  It answers 200 exactly when
    the probe was fulfilled and 503 otherwise, never 500, with
    [success: true] in the body in both cases. *)
Theorem audio_health_route key amb tr :
  let service := ElevenLabs.new key in
  let m := AudioRoute.getHealth (AudioRoute.elevenLabsService key) key amb in
  exists code svc,
    outcome m tr = Ret (code, AudioRoute.HealthReport true svc)
    /\ snd (run m tr) = [Sent (speechProbe service) (tr 0%nat (speechProbe service))]
    /\ url (speechProbe service) = "https://api.elevenlabs.io/v1/voices"
    /\ In ("xi-api-key", key) (reqHeaders (speechProbe service))
    /\ (code = 200%Z <-> fulfilled (tr 0%nat (speechProbe service)))
    /\ (code = 503%Z <-> ~ fulfilled (tr 0%nat (speechProbe service)))
    /\ (AudioRoute.sh_reachable svc = true <-> code = 200%Z)
    /\ AudioRoute.sh_hasApiKey svc = envTruthy key
    /\ AudioRoute.sh_initialized svc = true.
Proof.
  intros service m. subst m.
  unfold outcome, run, AudioRoute.elevenLabsService, AudioRoute.getHealth,
    tryCatch, bind, ret.
  fold service. rewrite speech_checkHealth_run. cbn [transportCalls filter List.length].
  destruct (tr 0%nat (speechProbe service)) as [r | e];
    eexists; eexists; (split; [reflexivity |]); cbn;
    repeat split; try tauto; try discriminate; try (intros H; now contradiction H).
Qed.

(** *** The test route *)

Lemma testAccepts_string t :
  testAccepts (JStr t) <-> t <> "" /\ (String.length t <= 5000)%nat.
Proof.
  split.
  - intros (t' & E & H). inversion E; subst. exact H.
  - intros H. now exists t.
Qed.

(** X22: [POST /tts] of the test route.  The handler never throws.  It
    answers 400 exactly when the text is not a string, is empty or has
    more than 5000 characters, 503 exactly when an accepted text meets a
    missing service, and otherwise 200 or 500; 200 goes with
    [success: true] and nothing else does.  At most one request reaches
    the provider, none on 400 and 503.  Unlike the main route, a call the
    provider answered with status 429 is replied to with 500, with
    RATE_LIMITED left in [errorType]. *)
Theorem test_route_reply service amb svcAmb text voiceId tr :
  let m := TestRoute.postTts service amb svcAmb text voiceId in
  exists code body,
    outcome m tr = Ret (code, body)
    /\ (code = 200%Z <-> TestRoute.success body = true)
    /\ (code = 400%Z <-> ~ testAccepts text)
    /\ (code = 503%Z <-> testAccepts text /\ service = None)
    /\ (code = 200%Z \/ code = 400%Z \/ code = 500%Z \/ code = 503%Z)
    /\ (calls m tr <= 1)%nat
    /\ (code = 400%Z \/ code = 503%Z -> calls m tr = 0%nat)
    /\ (answered 429 (snd (run m tr)) ->
        code = 500%Z
        /\ exists e, body = TestRoute.TestFailed e
                     /\ TestRoute.t_errorType e = Some RATE_LIMITED).
Proof.
  intros m. subst m. unfold outcome, calls, run.
  assert (Refused : forall msg,
    ~ testAccepts text ->
    TestRoute.postTts service amb svcAmb text voiceId tr []
    = (Ret (400%Z, TestRoute.TestFailed
                     (TestRoute.mkTestError (JS.text msg) None DAbsent (requestId amb))),
       []) ->
    exists code body,
      fst (TestRoute.postTts service amb svcAmb text voiceId tr []) = Ret (code, body)
      /\ (code = 200%Z <-> TestRoute.success body = true)
      /\ (code = 400%Z <-> ~ testAccepts text)
      /\ (code = 503%Z <-> testAccepts text /\ service = None)
      /\ (code = 200%Z \/ code = 400%Z \/ code = 500%Z \/ code = 503%Z)
      /\ (transportCalls (snd (TestRoute.postTts service amb svcAmb text voiceId tr []))
          <= 1)%nat
      /\ (code = 400%Z \/ code = 503%Z ->
          transportCalls (snd (TestRoute.postTts service amb svcAmb text voiceId tr []))
          = 0%nat)
      /\ (answered 429 (snd (TestRoute.postTts service amb svcAmb text voiceId tr [])) ->
          code = 500%Z
          /\ exists e, body = TestRoute.TestFailed e
                       /\ TestRoute.t_errorType e = Some RATE_LIMITED)).
  { intros msg Hn E. rewrite E. eexists. eexists. split; [reflexivity |].
    cbn [fst snd TestRoute.success transportCalls filter List.length].
    split; [split; discriminate |].
    split; [tauto |].
    split; [split; [discriminate | tauto] |].
    split; [tauto |].
    split; [lia |].
    split; [reflexivity |].
    intros A. now apply answered_nil in A. }
  destruct text as [| | b | q | t | o];
    try (apply (Refused "Text is required and must be a string");
         [intros (t' & E & _); discriminate | reflexivity]).
  destruct (String.eqb_spec t "") as [-> | Hne].
  { apply (Refused "Text is required and must be a string");
      [rewrite testAccepts_string; tauto | reflexivity]. }
  destruct (Nat.ltb_spec 5000 (String.length t)) as [Hl | Hl].
  { apply (Refused "Text must be less than 5000 characters").
    - rewrite testAccepts_string. lia.
    - unfold TestRoute.postTts, tryCatch, ret.
      replace (truthy (JStr t)) with true
        by (cbn; now destruct (String.eqb_spec t "")).
      apply Nat.ltb_lt in Hl. rewrite Hl. reflexivity. }
  assert (Ha : testAccepts (JStr t)) by (rewrite testAccepts_string; now split).
  assert (Ht : truthy (JStr t) = true) by (cbn; now destruct (String.eqb_spec t "")).
  assert (Hl' : (5000 <? String.length t)%nat = false) by now apply Nat.ltb_ge.
  unfold TestRoute.postTts, tryCatch, bind, ret. rewrite Ht, Hl'. cbn [negb].
  destruct service as [s |].
  - destruct (printable_dec (defaulted voiceId (JStr ElevenLabs.defaultVoiceId)))
      as [P | P];
      [| rewrite (generateSpeech_not_printable s svcAmb t _ JUndefined JUndefined tr []
                    P);
         unfold notPrintable, lift; cbn [caught];
         eexists; eexists; (split; [reflexivity |]);
         cbn [fst snd TestRoute.success transportCalls filter List.length];
         (split; [split; discriminate |]);
         (split; [split; [discriminate | tauto] |]);
         (split; [split; [discriminate | intros [_ H]; discriminate] |]);
         (split; [tauto |]); (split; [lia |]); (split; [reflexivity |]);
         intros A; now apply answered_nil in A].
    pose proof (generateSpeech_returns s svcAmb t
                  (defaulted voiceId (JStr ElevenLabs.defaultVoiceId))
                  JUndefined JUndefined tr [] P) as (r & R & _).
    pose proof (generateSpeech_calls_le s svcAmb (JStr t)
                  (defaulted voiceId (JStr ElevenLabs.defaultVoiceId))
                  JUndefined JUndefined tr) as C.
    pose proof (generateSpeech_answered_429 s svcAmb (JStr t)
                  (defaulted voiceId (JStr ElevenLabs.defaultVoiceId))
                  JUndefined JUndefined tr) as A.
    destruct (ElevenLabs.generateSpeech s svcAmb (JStr t)
                (defaulted voiceId (JStr ElevenLabs.defaultVoiceId))
                JUndefined JUndefined tr []) as [res w'].
    cbn [fst snd] in R, C. subst res. specialize (A _ _ eq_refl).
    destruct r as [ok | f]; eexists; eexists; (split; [reflexivity |]);
      cbn [fst snd TestRoute.success].
    + split; [tauto |].
      split; [split; [discriminate | tauto] |].
      split; [split; [discriminate | intros [_ H]; discriminate] |].
      split; [tauto |].
      split; [exact C |].
      split; [intros [H | H]; discriminate |].
      intros A'. destruct (A A') as (f & E & _). discriminate.
    + split; [split; discriminate |].
      split; [split; [discriminate | tauto] |].
      split; [split; [discriminate | intros [_ H]; discriminate] |].
      split; [tauto |].
      split; [exact C |].
      split; [intros [H | H]; discriminate |].
      intros A'. destruct (A A') as (f' & E & T). inversion E; subst f'.
      split; [reflexivity |]. eexists. split; [reflexivity |].
      cbn. now rewrite T.
  - eexists. eexists. split; [reflexivity |].
    cbn [fst snd TestRoute.success transportCalls filter List.length].
    split; [split; discriminate |].
    split; [split; [discriminate | tauto] |].
    split; [tauto |].
    split; [tauto |].
    split; [lia |].
    split; [reflexivity |].
    intros A. now apply answered_nil in A.
Qed.

(** *** The second video client *)

Lemma falVideo_validateInput_key this prompt duration aspectRatio :
  envTruthy (FalVideo.apiKey this) = false ->
  exists t, FalVideo._validateInput this prompt duration aspectRatio = Throw t.
Proof.
  intros Hk. unfold FalVideo._validateInput, throwNew. rewrite Hk. cbn [negb].
  repeat match goal with
         | |- context [match ?x with _ => _ end] => destruct x
         end; eexists; reflexivity.
Qed.

Lemma falVideo_validateInput_not_null this prompt duration aspectRatio :
  FalVideo._validateInput this prompt duration aspectRatio <> Throw ThrowNull.
Proof.
  unfold FalVideo._validateInput, throwNew.
  repeat match goal with
         | |- context [match ?x with _ => _ end] => destruct x
         end; discriminate.
Qed.

Lemma dataProp_not_null b k : dataProp b k <> Throw ThrowNull.
Proof. destruct b as [[| | | | |] |]; discriminate. Qed.

Lemma rethrow_not_null e : FalVideo.rethrow e <> Throw ThrowNull.
Proof.
  unfold FalVideo.rethrow, throwNew.
  destruct (response e) as [r |].
  - cbv zeta. pose proof (dataProp_not_null (data r) "error") as D.
    destruct (dataProp (data r) "error") as [v | [err |]]; [| | now contradiction D];
      repeat match goal with
             | |- context [if ?b then _ else _] => destruct b
             | |- context [match interpolate ?x with _ => _ end] =>
                 let E := fresh "E" in
                 destruct (interpolate_cases x) as [E | E]; rewrite E
             end; discriminate.
  - repeat match goal with
           | |- context [match ?x with _ => _ end] => destruct x
           end; discriminate.
Qed.

(** X23: [FalVideoService.generateVideo] makes a single attempt.  For
    every input and every provider it sends at most one request and never
    pauses (the client of the route, by contrast, retries after two
    seconds); it sends none when no key is configured; a request that did
    not settle fulfilled always ends in an exception; and what it throws
    is an error object, never [null]. *)
Theorem falVideo_single_attempt this amb params tr :
  let m := FalVideo.generateVideo this amb params in
  (calls m tr <= 1)%nat
  /\ pauses (snd (run m tr)) = 0%nat
  /\ (envTruthy (FalVideo.apiKey this) = false ->
      calls m tr = 0%nat /\ exists t, outcome m tr = Throw t)
  /\ (forall rq out,
        In (Sent rq out) (snd (run m tr)) -> ~ fulfilled out ->
        exists t, outcome m tr = Throw t)
  /\ outcome m tr <> Throw ThrowNull.
Proof.
  intros m. subst m.
  unfold outcome, calls, run, FalVideo.generateVideo, FalVideo._makeRequest, axios.
  unfold bind, lift, tryCatch, ret, send, throw.
  pose proof (falVideo_validateInput_key this (FalClient.prompt params)
                (defaulted (FalClient.duration params) (JNum 5))
                (defaulted (FalClient.aspectRatio params) (JStr "16:9"))) as K.
  pose proof (falVideo_validateInput_not_null this (FalClient.prompt params)
                (defaulted (FalClient.duration params) (JNum 5))
                (defaulted (FalClient.aspectRatio params) (JStr "16:9"))) as N.
  assert (Quiet : forall th : Thrown,
    th <> ThrowNull ->
    let r := match caught th with
             | Ret a => (FalVideo.rethrow a, @nil Event)
             | Throw t => (Throw t, [])
             end in
    (transportCalls (snd r) <= 1)%nat
    /\ pauses (snd r) = 0%nat
    /\ (envTruthy (FalVideo.apiKey this) = false ->
        transportCalls (snd r) = 0%nat /\ exists t, fst r = Throw t)
    /\ (forall rq out, In (Sent rq out) (snd r) -> ~ fulfilled out ->
        exists t, fst r = Throw t)
    /\ fst r <> Throw ThrowNull).
  { intros [e |] Hn; [| now contradiction Hn]. cbn.
    split; [lia |]. split; [reflexivity |].
    split; [intros _; split; [reflexivity | apply rethrow_throws] |].
    split; [intros rq out [] |]. apply rethrow_not_null. }
  destruct (FalVideo._validateInput _ _ _ _) as [[] | th] eqn:Ev.
  - assert (Hk : envTruthy (FalVideo.apiKey this) = true).
    { destruct (envTruthy (FalVideo.apiKey this)); [reflexivity |].
      destruct (K eq_refl) as (t & E). discriminate. }
    destruct (FalVideo.payload _ _ _ _) as [pl | th] eqn:Ep.
    + destruct (substringOf _) as [s | th] eqn:Es.
      * cbv beta zeta. cbn [transportCalls filter List.length].
        match goal with
        | |- context [tr 0%nat ?q] => destruct (tr 0%nat q) as [resp | e] eqn:E
        end.
        -- cbv beta iota.
           destruct (data resp) as [[| | | | | fs] |];
             try (destruct (interpolate_cases (assoc "request_id" fs)) as [Ei | Ei];
                  cbn [dataProp optGet]; rewrite Ei; unfold notPrintable);
             cbn;
             (split; [lia |]); (split; [reflexivity |]);
             (split; [rewrite Hk; discriminate |]);
             (split; [intros rq out [H | []] Hf; inversion H; subst; now contradiction Hf |]);
             discriminate.
        -- cbn. split; [lia |]. split; [reflexivity |].
           split; [rewrite Hk; discriminate |].
           split; [intros _ _ _ _; apply rethrow_throws |].
           apply rethrow_not_null.
      * apply Quiet. destruct (FalClient.prompt params); cbn in Es; inversion Es;
          discriminate.
    + apply Quiet. unfold FalVideo.payload in Ep.
      destruct (FalClient.prompt params); try (inversion Ep; discriminate).
      destruct (defaulted _ _); inversion Ep; discriminate.
  - apply Quiet. intros ->. now contradiction N.
Qed.

Lemma getVideoStatus_absent this requestId tr :
  envTruthy requestId = false ->
  FalVideo.getVideoStatus this requestId tr []
  = (Throw (ThrowError (newError
       [Lit "Failed to get video status: "; Lit "Request ID is required"])), []).
Proof.
  intros H. unfold FalVideo.getVideoStatus. rewrite H.
  destruct requestId; reflexivity.
Qed.

(** X24: [FalVideoService.getVideoStatus].  Without a request id, or with
    the empty one, it sends nothing and throws.  With an id it sends
    exactly one request: [GET <baseURL>/fal-ai/pika-1.0/status/<id>],
    without a body, with the key in the [Authorization] header as it is
    (no test whether a key is configured).  It returns only when that
    request was fulfilled, and then hands back the id it was given.
    Whatever goes wrong is thrown as a new plain [Error] whose message
    starts with [Failed to get video status: ] and which carries neither
    the provider's response nor the network code. *)
Theorem video_status_lookup this requestId tr :
  let m := FalVideo.getVideoStatus this requestId in
  (envTruthy requestId = false ->
   snd (run m tr) = [] /\ exists t, outcome m tr = Throw t)
  /\ (forall id,
        requestId = Some id -> id <> "" ->
        exists rq,
          snd (run m tr) = [Sent rq (tr 0%nat rq)]
          /\ method rq = GET
          /\ url rq = FalVideo.baseURL this ++ "/fal-ai/pika-1.0/status/" ++ id
          /\ reqData rq = None
          /\ In ("Authorization", Some ("Key " ++ showEnv (FalVideo.apiKey this)))
                (reqHeaders rq)
          /\ (forall st, outcome m tr = Ret st ->
                         fulfilled (tr 0%nat rq) /\ FalVideo.st_requestId st = id)
          /\ (~ fulfilled (tr 0%nat rq) -> exists t, outcome m tr = Throw t))
  /\ (forall t,
        outcome m tr = Throw t ->
        exists e rest,
          t = ThrowError e /\ name e = PlainError /\ response e = None
          /\ code e = None
          /\ message e = Lit "Failed to get video status: " :: rest).
Proof.
  intros m. subst m. unfold outcome, run.
  split; [| split].
  - intros H. rewrite (getVideoStatus_absent this requestId tr H).
    split; [reflexivity |]. eexists. reflexivity.
  - intros id -> Hid.
    assert (Ht : envTruthy (Some id) = true)
      by (cbn; now destruct (String.eqb_spec id "")).
    unfold FalVideo.getVideoStatus. rewrite Ht. cbn [negb].
    unfold FalVideo._makeRequest, axios.
    unfold bind, lift, tryCatch, ret, send, throw.
    cbv beta zeta. cbn [transportCalls filter List.length].
    exists (mkRequest GET
              (FalVideo.baseURL this ++ "/fal-ai/pika-1.0/status/" ++ id)
              (FalVideo.timeout this)
              [("Authorization", Some ("Key " ++ showEnv (FalVideo.apiKey this)));
               ("Content-Type", Some "application/json");
               ("User-Agent", Some "FayStar-Backend/1.0")]
              None None).
    cbn [method url reqData reqHeaders].
    match goal with
    | |- context [tr 0%nat ?q] => destruct (tr 0%nat q) as [resp | e]
    end.
    + cbv beta iota.
      split; [destruct (data resp) as [[| | | | |] |]; reflexivity |].
      split; [reflexivity |]. split; [reflexivity |]. split; [reflexivity |].
      split; [now left |].
      split.
      * intros st.
        destruct (data resp) as [[| | | | |] |]; cbn; intros H; inversion H;
          split; solve [exact I | reflexivity].
      * intros H. now contradiction H.
    + cbn. split; [reflexivity |].
      split; [reflexivity |]. split; [reflexivity |]. split; [reflexivity |].
      split; [now left |].
      split; [discriminate |]. intros _. eexists. reflexivity.
  - intros t. destruct (envTruthy requestId) eqn:Ht.
    + destruct requestId as [id |]; [| discriminate].
      unfold FalVideo.getVideoStatus. rewrite Ht. cbn [negb].
      unfold FalVideo._makeRequest, axios.
      unfold bind, lift, tryCatch, ret, send, throw.
      cbv beta zeta. cbn [transportCalls filter List.length].
      match goal with
      | |- context [tr 0%nat ?q] => destruct (tr 0%nat q) as [resp | e]
      end.
      * cbv beta iota. destruct (data resp) as [[| | | | |] |]; cbn; intros H;
          inversion H; eexists; eexists; repeat split.
      * cbn. intros H. inversion H. eexists. eexists. repeat split.
    + rewrite (getVideoStatus_absent this requestId tr Ht). cbn. intros H.
      inversion H. eexists. eexists. repeat split.
Qed.

(** *** The voices the audio route offers *)

Lemma offered_voice_ids v :
  In v AudioRoute.voices ->
  ElevenLabs.validVoiceId (AudioRoute.voice_id v) = AudioRoute.voice_id v
  /\ (10 <= String.length (AudioRoute.voice_id v))%nat.
Proof.
  unfold AudioRoute.voices. cbn [In].
  intros [<- | [<- | [<- | [<- | [<- | []]]]]]; (split; [reflexivity | cbn; lia]).
Qed.

(** X25: every voice [GET /voices] lists can be used.  For each of them
    and every text the validator accepts, an enabled speech client sends
    its one request to [<baseURL>/text-to-speech/<voice_id>] with that
    very id in the payload; and the voice a call without [voiceId] falls
    back to is the first of the list. *)
Theorem offered_voices_are_usable this amb t v stability similarity tr :
  In v AudioRoute.voices ->
  ElevenLabs.disabled this = false ->
  trim t <> "" ->
  (String.length t <= 5000)%nat ->
  exists rq,
    snd (run (ElevenLabs.generateSpeech this amb (JStr t)
                (JStr (AudioRoute.voice_id v)) stability similarity) tr)
    = [Sent rq (tr 0%nat rq)]
    /\ url rq = ElevenLabs.baseURL this ++ "/text-to-speech/" ++ AudioRoute.voice_id v
    /\ (exists p, reqData rq = Some p
                  /\ optGet p "voice_id" = JStr (AudioRoute.voice_id v))
    /\ option_map AudioRoute.voice_id (hd_error AudioRoute.voices)
       = Some ElevenLabs.defaultVoiceId.
Proof.
  intros Hin Hd Ht Hl. destruct (offered_voice_ids v Hin) as [Hv Hlen].
  assert (Hok : validSpeech (JStr t) (JStr (AudioRoute.voice_id v))).
  { unfold validSpeech. apply speech_validateInput_iff. split.
    - now exists t.
    - now exists (AudioRoute.voice_id v). }
  unfold run.
  rewrite (generateSpeech_trace this amb t (JStr (AudioRoute.voice_id v))
             (AudioRoute.voice_id v) stability similarity tr [] Hd eq_refl Hok).
  rewrite Hv. eexists. split; [reflexivity |].
  split; [reflexivity |]. split; [| reflexivity].
  eexists. split; reflexivity.
Qed.

Lemma offered_voices_are_usable_witness :
  exists rq,
    snd (run (ElevenLabs.generateSpeech (ElevenLabs.new demoKey) someAmbient
                (JStr "Hello world") (JStr "EXAVITGu4L4Kuyx24Lxk")
                JUndefined JUndefined) alwaysAudio)
    = [Sent rq (alwaysAudio 0%nat rq)]
    /\ url rq = "https://api.elevenlabs.io/v1/text-to-speech/EXAVITGu4L4Kuyx24Lxk".
Proof.
  destruct (offered_voices_are_usable (ElevenLabs.new demoKey) someAmbient
              "Hello world"
              (AudioRoute.mkVoice "EXAVITGu4L4Kuyx24Lxk" "Bella" "Female" "American"
                 "Gentle and caring voice")
              JUndefined JUndefined alwaysAudio) as (rq & W & U & _).
  - cbn. tauto.
  - reflexivity.
  - discriminate.
  - cbn. lia.
  - exists rq. split; [exact W | exact U].
Defined.

(** *** The two validators of a video request *)

Lemma falVideo_validateInput_throws this prompt duration aspectRatio t :
  FalVideo._validateInput this prompt duration aspectRatio = Throw t ->
  exists msg, t = ThrowError (newError (JS.text msg)).
Proof.
  unfold FalVideo._validateInput, throwNew.
  repeat match goal with
         | |- context [match ?x with _ => _ end] => destruct x
         end; intros H; inversion H; eexists; reflexivity.
Qed.

(** X26: the validator of [FalVideoService] is the validator of the
    client of the route followed by a test of the key.  It accepts
    exactly what that one accepts when a key is configured; when that one
    rejects, it rejects with the same error; and when it rejects what
    that one accepts, the key is missing. *)
Theorem falVideo_validation_adds_key_test this prompt duration aspectRatio :
  (FalVideo._validateInput this prompt duration aspectRatio = Ret tt
   <-> FalClient._validateInput prompt duration aspectRatio = Ret tt
       /\ envTruthy (FalVideo.apiKey this) = true)
  /\ (forall t,
        FalClient._validateInput prompt duration aspectRatio = Throw t ->
        FalVideo._validateInput this prompt duration aspectRatio = Throw t)
  /\ (FalClient._validateInput prompt duration aspectRatio = Ret tt ->
      envTruthy (FalVideo.apiKey this) = false ->
      FalVideo._validateInput this prompt duration aspectRatio
      = Throw (ThrowError (newError (JS.text "Fal.ai API key not configured")))).
Proof.
  unfold FalVideo._validateInput, FalClient._validateInput, throwNew.
  destruct prompt as [| | b | q | p | o];
    try (split; [split; [discriminate | intros [H _]; discriminate] |];
         split; [intros t H; exact H | discriminate]).
  destruct (negb (truthy (JStr p)));
    [split; [split; [discriminate | intros [H _]; discriminate] |];
     split; [intros t H; exact H | discriminate] |].
  destruct (String.length (trim p) =? 0)%nat;
    [split; [split; [discriminate | intros [H _]; discriminate] |];
     split; [intros t H; exact H | discriminate] |].
  destruct (1000 <? String.length p)%nat;
    [split; [split; [discriminate | intros [H _]; discriminate] |];
     split; [intros t H; exact H | discriminate] |].
  destruct (negb match duration with JUndefined => true | _ => false end
            && durationOutOfRange duration);
    [split; [split; [discriminate | intros [H _]; discriminate] |];
     split; [intros t H; exact H | discriminate] |].
  destruct (negb match aspectRatio with JUndefined => true | _ => false end
            && negb (includesRatio aspectRatio));
    [split; [split; [discriminate | intros [H _]; discriminate] |];
     split; [intros t H; exact H | discriminate] |].
  destruct (envTruthy (FalVideo.apiKey this)); cbn [negb].
  - split; [tauto |]. split; [discriminate | discriminate].
  - split; [split; [discriminate | intros [_ H]; discriminate] |].
    split; [discriminate | reflexivity].
Qed.

(** X27: an input [FalVideoService.generateVideo] rejects never reaches
    the provider, and the caller gets the validator's message behind the
    prefix [Video generation failed: ], also when the prompt is missing
    or not a string (validation comes before the first logging line
    here). *)
Theorem falVideo_rejection_is_wrapped this amb params tr t :
  FalVideo._validateInput this (FalClient.prompt params)
    (defaulted (FalClient.duration params) (JNum 5))
    (defaulted (FalClient.aspectRatio params) (JStr "16:9")) = Throw t ->
  exists msg,
    t = ThrowError (newError (JS.text msg))
    /\ run (FalVideo.generateVideo this amb params) tr
       = (Throw (ThrowError (newError [Lit "Video generation failed: "; Lit msg])), []).
Proof.
  intros H. destruct (falVideo_validateInput_throws _ _ _ _ _ H) as (msg & ->).
  exists msg. split; [reflexivity |].
  unfold run, FalVideo.generateVideo, bind, lift, tryCatch. rewrite H. reflexivity.
Qed.

Lemma falVideo_rejection_is_wrapped_witness :
  run (FalVideo.generateVideo (FalVideo.new demoKey) someAmbient
         (FalClient.mkParams JUndefined JUndefined JUndefined)) alwaysRefused
  = (Throw (ThrowError (newError
       [Lit "Video generation failed: ";
        Lit "Prompt is required and must be a string"])), []).
Proof.
  destruct (falVideo_rejection_is_wrapped (FalVideo.new demoKey) someAmbient
              (FalClient.mkParams JUndefined JUndefined JUndefined) alwaysRefused
              (ThrowError (newError (JS.text "Prompt is required and must be a string")))
              eq_refl) as (msg & E & R).
  inversion E; subst msg. exact R.
Defined.

(** X28: [FalVideoService.checkServiceHealth] never throws; it sends
    exactly one request, [GET <baseURL>/health], without any credential,
    so that its verdict depends on the base URL alone, not on the key or
    the timeout of the service; and the verdict is [true] exactly when
    that request was fulfilled with status 200. *)
Theorem falVideo_health_verdict this tr :
  let probe := mkRequest GET (FalVideo.baseURL this ++ "/health") 5000 [] None None in
  exists verdict,
    run (FalVideo.checkServiceHealth this) tr
    = (Ret verdict, [Sent probe (tr 0%nat probe)])
    /\ (verdict = true
        <-> exists r, tr 0%nat probe = Fulfilled r /\ JS.status r = 200%Z)
    /\ forall key timeout,
         run (FalVideo.checkServiceHealth
                (FalVideo.mkService (FalVideo.baseURL this) key timeout)) tr
         = run (FalVideo.checkServiceHealth this) tr.
Proof.
  intros probe. unfold run, FalVideo.checkServiceHealth, axios.
  unfold bind, lift, tryCatch, ret, send, throw.
  cbn [transportCalls filter List.length FalVideo.baseURL]. fold probe.
  destruct (tr 0%nat probe) as [r | e]; cbn; eexists; (split; [reflexivity |]).
  - split; [| reflexivity]. split.
    + intros H. exists r. split; [reflexivity |]. now apply Z.eqb_eq.
    + intros (r' & E & S). inversion E; subst r'. now apply Z.eqb_eq.
  - split; [| reflexivity]. split; [discriminate |].
    intros (r & E & _). discriminate.
Qed.

(** *** A provider that limits the rate *)

Lemma sentOnce429_answered w : sentOnce429 w -> answered 429 w.
Proof.
  intros (req & out & -> & F). exists req, out. split; [now left | exact F].
Qed.

(** An accepted [generateVideo] whose first request is answered 429
    sends that request and no other. *)
Lemma generateVideo_sent_429 this amb params tr :
  validVideo params -> rateLimits tr ->
  sentOnce429 (snd (FalClient.generateVideo this amb params tr [])).
Proof.
  intros Hv Htr. destruct (generateVideo_trace this amb params Hv) as (payload & E).
  rewrite E. unfold FalClient._makeRequestWithRetry. rewrite Nat.add_1_r.
  destruct (retryLoop_gives_up this (FalClient.request this "/fal-ai/pika-1.0" payload)
              429 tr (FalClient.maxRetries this) 1%nat ThrowNull []
              (Htr _) eq_refl) as (e & R & F).
  rewrite R. exists (FalClient.request this "/fal-ai/pika-1.0" payload), (Rejected e).
  split; [reflexivity | exact F].
Qed.

Lemma generateSpeech_sent_429 this amb text voiceId stability similarity tr :
  ElevenLabs.disabled this = false -> validSpeech text voiceId -> rateLimits tr ->
  sentOnce429
    (snd (ElevenLabs.generateSpeech this amb text voiceId stability similarity tr [])).
Proof.
  intros Hd Hv Htr.
  destruct (generateSpeech_valid this amb text voiceId stability similarity Hd Hv)
    as (req & t & _ & H).
  destruct (H tr []) as (S & _). rewrite S.
  exists req, (tr 0%nat req). split; [reflexivity | apply Htr].
Qed.

Lemma postGenerate_sent_429 client ctx amb svcAmb reqBody tr :
  passes ctx -> validVideo reqBody -> rateLimits tr ->
  sentOnce429 (snd (VideoRoute.postGenerate (Some client) ctx amb svcAmb reqBody tr [])).
Proof.
  intros Hc Hv Htr. destruct (validVideo_string reqBody Hv) as (p & Ep).
  rewrite (postGenerate_reaches client ctx amb svcAmb reqBody tr) by
    (try exact Hc; rewrite Ep; reflexivity).
  pose proof (generateVideo_sent_429 client svcAmb reqBody tr Hv Htr) as S.
  pose proof (generateVideo_answered_429 client svcAmb reqBody tr) as A.
  destruct (FalClient.generateVideo client svcAmb reqBody tr []) as [r w].
  cbn [snd] in S. destruct (A r w eq_refl (sentOnce429_answered _ S)) as (f & -> & _).
  exact S.
Qed.

Lemma postTts_sent_429 service ctx amb svcAmb reqBody tr :
  ElevenLabs.disabled service = false ->
  passes ctx ->
  validSpeech (AudioRoute.text reqBody) (AudioRoute.voiceId reqBody) ->
  rateLimits tr ->
  sentOnce429 (snd (AudioRoute.postTts (Some service) ctx amb svcAmb reqBody tr [])).
Proof.
  intros Hd Hc Hv Htr. destruct (validSpeech_string _ _ Hv) as (t & Et).
  rewrite (postTts_reaches service ctx amb svcAmb reqBody tr) by
    (try exact Hc; rewrite Et; reflexivity).
  pose proof (generateSpeech_sent_429 service svcAmb _ _
                (JNum (AudioRoute.normalizedStability (AudioRoute.stability reqBody)))
                (JNum (AudioRoute.normalizedSimilarity (AudioRoute.similarity reqBody)))
                tr Hd Hv Htr) as S.
  pose proof (generateSpeech_answered_429 service svcAmb (AudioRoute.text reqBody)
                (AudioRoute.voiceId reqBody)
                (JNum (AudioRoute.normalizedStability (AudioRoute.stability reqBody)))
                (JNum (AudioRoute.normalizedSimilarity (AudioRoute.similarity reqBody)))
                tr) as A.
  destruct (ElevenLabs.generateSpeech service svcAmb _ _ _ _ tr []) as [r w].
  cbn [snd] in S. destruct (A r w eq_refl (sentOnce429_answered _ S)) as (f & -> & _).
  exact S.
Qed.

(** The test route passes the failure of the service on, under status
    500. *)
Lemma testRoute_answered_429 service amb svcAmb text voiceId tr :
  answered 429 (snd (run (TestRoute.postTts service amb svcAmb text voiceId) tr)) ->
  testRepliesRateLimited 500
    (outcome (TestRoute.postTts service amb svcAmb text voiceId) tr).
Proof.
  unfold testRepliesRateLimited, outcome, run, TestRoute.postTts.
  unfold tryCatch, bind, ret.
  destruct text as [| | | | t |]; try (intros A; now apply answered_nil in A).
  destruct (negb (truthy (JStr t))); [intros A; now apply answered_nil in A |].
  destruct (5000 <? String.length t)%nat; [intros A; now apply answered_nil in A |].
  destruct service as [service |]; [| intros A; now apply answered_nil in A].
  destruct (ElevenLabs.generateSpeech service svcAmb _ _ _ _ tr []) as [r w'] eqn:G.
  intros A.
  assert (A' : answered 429 w').
  { destruct r as [[s | f] | t']; [exact A | exact A |].
    unfold lift in A. destruct (caught t'); exact A. }
  destruct (generateSpeech_answered_429 _ _ _ _ _ _ _ _ _ G A') as (f & -> & T).
  eexists. split; [reflexivity |]. split; [reflexivity |]. cbn. now rewrite T.
Qed.

Lemma testRoute_sent_429 service amb svcAmb text voiceId tr :
  ElevenLabs.disabled service = false -> validSpeech text voiceId -> rateLimits tr ->
  sentOnce429 (snd (TestRoute.postTts (Some service) amb svcAmb text voiceId tr [])).
Proof.
  intros Hd Hv Htr.
  pose proof Hv as Hv'. unfold validSpeech in Hv'. apply speech_validateInput_iff in Hv'.
  destruct Hv' as ((t & Et & Ht & Hl) & _). subst text.
  unfold TestRoute.postTts, tryCatch, bind, ret.
  rewrite (truthy_string t Ht). cbn [negb].
  apply Nat.ltb_ge in Hl. rewrite Hl.
  rewrite generateSpeech_defaults.
  pose proof (generateSpeech_sent_429 service svcAmb (JStr t) voiceId JUndefined
                JUndefined tr Hd Hv Htr) as S.
  pose proof (generateSpeech_answered_429 service svcAmb (JStr t) voiceId JUndefined
                JUndefined tr) as A.
  destruct (ElevenLabs.generateSpeech service svcAmb _ _ _ _ tr []) as [r w].
  cbn [snd] in S. destruct (A r w eq_refl (sentOnce429_answered _ S)) as (f & -> & _).
  exact S.
Qed.

Lemma falVideo_validateInput_ok this prompt duration aspectRatio :
  FalVideo._validateInput this prompt duration aspectRatio = Ret tt ->
  duration <> JUndefined ->
  exists p d, prompt = JStr p /\ duration = JNum d.
Proof.
  unfold FalVideo._validateInput, throwNew. intros H Hd.
  destruct prompt as [| | | | p |]; try discriminate.
  destruct (negb (truthy (JStr p))); [discriminate |].
  destruct (String.length (trim p) =? 0)%nat; [discriminate |].
  destruct (1000 <? String.length p)%nat; [discriminate |].
  destruct duration as [| | | d | |]; simpl in H; try discriminate.
  - contradiction.
  - now exists p, d.
Qed.

(** The run of [FalVideo.generateVideo]: nothing is sent for a rejected
    input; an accepted one sends one request, and a rejected request ends
    in what the [catch] block throws. *)
Lemma falVideo_run this amb params tr :
  let m := FalVideo.generateVideo this amb params in
  (FalVideo._validateInput this (FalClient.prompt params)
     (defaulted (FalClient.duration params) (JNum 5))
     (defaulted (FalClient.aspectRatio params) (JStr "16:9")) <> Ret tt ->
   snd (run m tr) = [])
  /\ (FalVideo._validateInput this (FalClient.prompt params)
        (defaulted (FalClient.duration params) (JNum 5))
        (defaulted (FalClient.aspectRatio params) (JStr "16:9")) = Ret tt ->
      exists req,
        snd (run m tr) = [Sent req (tr 0%nat req)]
        /\ forall e, tr 0%nat req = Rejected e -> outcome m tr = FalVideo.rethrow e).
Proof.
  intros m. subst m. unfold outcome, run, FalVideo.generateVideo.
  split.
  - intros Hn. unfold bind, lift, tryCatch.
    destruct (FalVideo._validateInput _ _ _ _) as [[] | th]; [now contradiction Hn |].
    destruct (caught th); reflexivity.
  - intros Hv.
    destruct (falVideo_validateInput_ok _ _ _ _ Hv) as (p & d & Ep & Ed).
    { apply defaulted_defined. discriminate. }
    unfold bind, lift, tryCatch. rewrite Hv, Ep, Ed.
    cbn [FalVideo.payload substringOf].
    unfold FalVideo._makeRequest, axios, bind, send, ret, throw.
    cbn [transportCalls filter List.length].
    match goal with
    | |- context [tr 0%nat ?q] => exists q; destruct (tr 0%nat q) as [resp | e]
    end.
    + cbv beta iota. split; [| discriminate].
      destruct (dataProp (data resp) "request_id") as [v | th]; cbn [fst snd].
      * destruct (interpolate v) as [[] | th]; cbn [fst snd].
        -- destruct (dataProp (data resp) "video_url") as [v1 | th]; cbn [fst snd].
           ++ destruct (dataProp (data resp) "estimated_time") as [v2 | th];
                cbn [fst snd]; [reflexivity |].
              destruct (caught th); reflexivity.
           ++ destruct (caught th); reflexivity.
        -- destruct (caught th); reflexivity.
      * destruct (caught th); reflexivity.
    + cbn. split; [reflexivity |]. intros e' H. inversion H; subst. reflexivity.
Qed.

Lemma falVideo_answered_429 this amb params tr :
  answered 429 (snd (run (FalVideo.generateVideo this amb params) tr)) ->
  outcome (FalVideo.generateVideo this amb params) tr
  = throwNew "Rate limit exceeded. Please try again later".
Proof.
  intros A. destruct (falVideo_run this amb params tr) as [N V].
  destruct (FalVideo._validateInput this (FalClient.prompt params)
              (defaulted (FalClient.duration params) (JNum 5))
              (defaulted (FalClient.aspectRatio params) (JStr "16:9")))
    as [[] | th] eqn:Ev.
  - destruct (V eq_refl) as (req & W & R). rewrite W in A.
    destruct A as (rq & out & [I | []] & F). inversion I; subst rq out.
    destruct (failsWith_inv _ _ F) as (e & r & E & Er & Es).
    rewrite (R e E). unfold FalVideo.rethrow. rewrite Er. cbv zeta. rewrite Es.
    reflexivity.
  - rewrite N in A by discriminate. now apply answered_nil in A.
Qed.

Lemma falVideo_sent_429 this amb params tr :
  FalVideo._validateInput this (FalClient.prompt params)
    (defaulted (FalClient.duration params) (JNum 5))
    (defaulted (FalClient.aspectRatio params) (JStr "16:9")) = Ret tt ->
  rateLimits tr ->
  sentOnce429 (snd (run (FalVideo.generateVideo this amb params) tr)).
Proof.
  intros Hv Htr. destruct (falVideo_run this amb params tr) as [_ V].
  destruct (V Hv) as (req & W & _). rewrite W.
  exists req, (tr 0%nat req). split; [reflexivity | apply Htr].
Qed.

(** C8 (counterexample): the test route, [POST /api/test/tts], sends the
    request once, the provider answers it with status 429, and the route
    replies with HTTP status 500, not 429; the body has [success] false
    and error type RATE_LIMITED. *)
Lemma C8_test_route_replies_500 :
  let m := TestRoute.postTts (Some (ElevenLabs.new demoKey)) someAmbient someAmbient
             (JStr "Hello world") JUndefined in
  sentOnce429 (snd (run m (alwaysStatus 429)))
  /\ outcome m (alwaysStatus 429)
     = Ret (500%Z,
            TestRoute.TestFailed
              (TestRoute.mkTestError
                 (text "Rate limit exceeded - too many requests to ElevenLabs")
                 (Some RATE_LIMITED) (DBody (Json (JObj []))) "req_1_abc")).
Proof.
  cbv zeta. split.
  - eexists. eexists. split; reflexivity.
  - reflexivity.
Qed.

(** C8 (amended): a provider that answers with HTTP status 429.  For
    each operation, whenever the provider answered a request of the call
    with 429 (the first, or one sent after a retry), the outcome is as
    follows, and for an accepted input and a provider that answers the
    first request with 429 the call does send a request: its trace is
    that one request, answered 429, with no second attempt and no pause.
    [FalClientService.generateVideo] and
    [ElevenLabsService.generateSpeech] return a failure with [success]
    false and error type RATE_LIMITED; [POST /generate] and [POST /tts]
    reply with HTTP status 429 and a body with [success] false and error
    type RATE_LIMITED.  Two operations do otherwise: the test route,
    [POST /api/test/tts], replies with HTTP status 500 (its body has
    [success] false and error type RATE_LIMITED), and
    [FalVideoService.generateVideo] returns nothing and throws
    [Error('Rate limit exceeded. Please try again later')]. *)
Theorem C8_rate_limited :
  (forall this amb params tr,
      let m := FalClient.generateVideo this amb params in
      (answered 429 (snd (run m tr)) -> videoRateLimited (outcome m tr))
      /\ (validVideo params -> rateLimits tr -> sentOnce429 (snd (run m tr))))
  /\ (forall this amb text voiceId stability similarity tr,
        let m := ElevenLabs.generateSpeech this amb text voiceId stability similarity in
        (answered 429 (snd (run m tr)) -> speechRateLimited (outcome m tr))
        /\ (ElevenLabs.disabled this = false -> validSpeech text voiceId ->
            rateLimits tr -> sentOnce429 (snd (run m tr))))
  /\ (forall client ctx amb svcAmb reqBody tr,
        let m := VideoRoute.postGenerate (Some client) ctx amb svcAmb reqBody in
        (answered 429 (snd (run m tr)) -> repliesRateLimited 429 (outcome m tr))
        /\ (passes ctx -> validVideo reqBody -> rateLimits tr ->
            sentOnce429 (snd (run m tr))))
  /\ (forall service ctx amb svcAmb reqBody tr,
        let m := AudioRoute.postTts (Some service) ctx amb svcAmb reqBody in
        (answered 429 (snd (run m tr)) -> repliesRateLimited 429 (outcome m tr))
        /\ (ElevenLabs.disabled service = false -> passes ctx ->
            validSpeech (AudioRoute.text reqBody) (AudioRoute.voiceId reqBody) ->
            rateLimits tr -> sentOnce429 (snd (run m tr))))
  /\ (forall service amb svcAmb text voiceId tr,
        let m := TestRoute.postTts (Some service) amb svcAmb text voiceId in
        (answered 429 (snd (run m tr)) -> testRepliesRateLimited 500 (outcome m tr))
        /\ (ElevenLabs.disabled service = false -> validSpeech text voiceId ->
            rateLimits tr -> sentOnce429 (snd (run m tr))))
  /\ (forall this amb params tr,
        let m := FalVideo.generateVideo this amb params in
        (answered 429 (snd (run m tr)) ->
         outcome m tr = throwNew "Rate limit exceeded. Please try again later")
        /\ (FalVideo._validateInput this (FalClient.prompt params)
              (defaulted (FalClient.duration params) (JNum 5))
              (defaulted (FalClient.aspectRatio params) (JStr "16:9")) = Ret tt ->
            rateLimits tr -> sentOnce429 (snd (run m tr)))).
Proof.
  split; [| split; [| split; [| split; [| split]]]].
  - intros this amb params tr m. subst m. split.
    + intros A. unfold outcome, run in *.
      destruct (FalClient.generateVideo this amb params tr []) as [r w'] eqn:G.
      destruct (generateVideo_answered_429 _ _ _ _ _ _ G A) as (f & -> & T).
      exists f. split; [reflexivity |]. split; [reflexivity | exact T].
    + intros Hv Htr. now apply generateVideo_sent_429.
  - intros this amb text voiceId stability similarity tr m. subst m. split.
    + intros A. unfold outcome, run in *.
      destruct (ElevenLabs.generateSpeech this amb text voiceId stability similarity tr [])
        as [r w'] eqn:G.
      destruct (generateSpeech_answered_429 _ _ _ _ _ _ _ _ _ G A) as (f & -> & T).
      exists f. split; [reflexivity |]. split; [reflexivity | exact T].
    + intros Hd Hv Htr. now apply generateSpeech_sent_429.
  - intros client ctx amb svcAmb reqBody tr m. subst m. split.
    + intros A. now apply videoRoute_answered_429.
    + intros Hc Hv Htr. now apply postGenerate_sent_429.
  - intros service ctx amb svcAmb reqBody tr m. subst m. split.
    + intros A. now apply audioRoute_answered_429.
    + intros Hd Hc Hv Htr. now apply postTts_sent_429.
  - intros service amb svcAmb text voiceId tr m. subst m. split.
    + intros A. now apply testRoute_answered_429.
    + intros Hd Hv Htr. now apply testRoute_sent_429.
  - intros this amb params tr m. subst m. split.
    + intros A. now apply falVideo_answered_429.
    + intros Hv Htr. now apply falVideo_sent_429.
Qed.

Lemma C8_rate_limited_witness :
  videoRateLimited
    (outcome (FalClient.generateVideo demoFal someAmbient sunset) (alwaysStatus 429))
  /\ speechRateLimited
       (outcome (ElevenLabs.generateSpeech (ElevenLabs.new demoKey) someAmbient
                   (JStr "Hello world") JUndefined JUndefined JUndefined)
                (alwaysStatus 429))
  /\ repliesRateLimited 429
       (outcome (VideoRoute.postGenerate (Some demoFal) okContext someAmbient
                   someAmbient sunset) (alwaysStatus 429))
  /\ repliesRateLimited 429
       (outcome (AudioRoute.postTts (Some (ElevenLabs.new demoKey)) okContext
                   someAmbient someAmbient
                   (AudioRoute.mkBody (JStr "Hello world") JUndefined JUndefined
                      JUndefined)) (alwaysStatus 429))
  /\ testRepliesRateLimited 500
       (outcome (TestRoute.postTts (Some (ElevenLabs.new demoKey)) someAmbient
                   someAmbient (JStr "Hello world") JUndefined) (alwaysStatus 429))
  /\ outcome (FalVideo.generateVideo (FalVideo.new demoKey) someAmbient sunset)
             (alwaysStatus 429)
     = throwNew "Rate limit exceeded. Please try again later".
Proof.
  assert (L : rateLimits (alwaysStatus 429)) by (intros req; reflexivity).
  destruct C8_rate_limited as (V & S & RV & RA & T & F).
  split; [| split; [| split; [| split; [| split]]]].
  - destruct (V demoFal someAmbient sunset (alwaysStatus 429)) as [B A].
    apply B, sentOnce429_answered, A; [reflexivity | exact L].
  - destruct (S (ElevenLabs.new demoKey) someAmbient (JStr "Hello world") JUndefined
                JUndefined JUndefined (alwaysStatus 429)) as [B A].
    apply B, sentOnce429_answered, A; [reflexivity | reflexivity | exact L].
  - destruct (RV demoFal okContext someAmbient someAmbient sunset (alwaysStatus 429))
      as [B A].
    apply B, sentOnce429_answered, A; [split; reflexivity | reflexivity | exact L].
  - destruct (RA (ElevenLabs.new demoKey) okContext someAmbient someAmbient
                (AudioRoute.mkBody (JStr "Hello world") JUndefined JUndefined JUndefined)
                (alwaysStatus 429)) as [B A].
    apply B, sentOnce429_answered, A;
      [reflexivity | split; reflexivity | reflexivity | exact L].
  - destruct (T (ElevenLabs.new demoKey) someAmbient someAmbient (JStr "Hello world")
                JUndefined (alwaysStatus 429)) as [B A].
    apply B, sentOnce429_answered, A; [reflexivity | reflexivity | exact L].
  - destruct (F (FalVideo.new demoKey) someAmbient sunset (alwaysStatus 429)) as [B A].
    apply B, sentOnce429_answered, A; [reflexivity | exact L].
Defined.
